(** * Canonicalization task: the ingestion ledger, the batch planner and the mapper

    A shallow embedding of [edx/analytics/tasks/canonicalization.py]
    (Python 2): the [Metadata] class (the ledger of already ingested files),
    [CanonicalizationTask.initialize] (ledger load and batch planning), the
    three source enumerators, [mapper] and [run].

    Python values are modelled as follows: [str] is [string] (a sequence of
    bytes), [int]/[long] is [Z], a [dict] keyed by file path is a
    [gmap string Z], a decoded JSON value is the inductive [json], and a
    raised exception is the [Raise] alternative of [result]. *)

From Stdlib Require Import ZArith QArith String Ascii List Lia.
From stdpp Require Import base option list gmap strings sorting pretty.

Local Open Scope Z_scope.
Local Open Scope string_scope.
Local Open Scope list_scope.

(** ** Exceptions *)

Inductive exn : Type :=
| ValueError | IndexError | KeyError | TypeError | AttributeError
| ZeroDivisionError | IOError.

Inductive result (A : Type) : Type :=
| Ok (a : A)
| Raise (e : exn).
Arguments Ok {A} a.
Arguments Raise {A} e.

Definition rbind {A B : Type} (r : result A) (k : A -> result B) : result B :=
  match r with
  | Ok a => k a
  | Raise e => Raise e
  end.

Notation "x <- r ;; k" := (rbind r (fun x => k))
  (at level 100, r at next level, right associativity, only parsing).

Definition raised {A : Type} (r : result A) : Prop :=
  match r with Ok _ => False | Raise _ => True end.

(** ** Python string primitives *)

Module Py.

Definition tab : ascii := Ascii.ascii_of_nat 9.
Definition newline : ascii := Ascii.ascii_of_nat 10.

(** C [isspace] in the "C" locale, as used by [int()] and [str.strip]. *)
Definition isspace (c : ascii) : bool :=
  let n := Ascii.nat_of_ascii c in
  (Nat.eqb n 32 || (Nat.leb 9 n && Nat.leb n 13))%bool.

Definition digit_value (c : ascii) : option Z :=
  let n := Ascii.nat_of_ascii c in
  if (Nat.leb 48 n && Nat.leb n 57)%bool then Some (Z.of_nat (n - 48)) else None.

Fixpoint skip_spaces (s : string) : string :=
  match s with
  | String c rest => if isspace c then skip_spaces rest else s
  | EmptyString => s
  end.

(** Reads the longest prefix of decimal digits: the value read so far, the
    number of digits read and the unread remainder. *)
Fixpoint read_digits (s : string) (acc : Z) (n : nat) : Z * nat * string :=
  match s with
  | String c rest =>
      match digit_value c with
      | Some d => read_digits rest (10 * acc + d) (S n)
      | None => (acc, n, s)
      end
  | EmptyString => (acc, n, s)
  end.

(** [int(s)] for a [str] in base 10 (CPython 2: blanks are skipped, an
    optional sign is read, blanks are skipped again, at least one digit is
    required, and only blanks may follow); anything else is a [ValueError].
    Python integers are unbounded. *)
Definition int (s : string) : result Z :=
  let s1 := skip_spaces s in
  let '(sign, s2) :=
    match s1 with
    | String "-" rest => (-1, rest)
    | String "+" rest => (1, rest)
    | _ => (1, s1)
    end in
  let '(v, n, rest) := read_digits (skip_spaces s2) 0 0 in
  match n, skip_spaces rest with
  | S _, EmptyString => Ok (sign * v)
  | _, _ => Raise ValueError
  end.

(** [str(n)] / ['{0}'.format(n)] for an integer: decimal digits, with a
    leading minus sign for negative numbers. *)
Definition str (n : Z) : string := pretty n.

(** [s.split(sep)] for a one-character separator: every occurrence of
    [sep] ends a field, so a string with [k] separators has [k + 1]
    fields, some of them possibly empty. *)
Fixpoint split (sep : ascii) (s : string) : list string :=
  match s with
  | EmptyString => [EmptyString]
  | String c rest =>
      if Ascii.eqb c sep then EmptyString :: split sep rest
      else match split sep rest with
           | field :: fields => String c field :: fields
           | [] => [String c EmptyString]
           end
  end.

(** Iterating over a file object: each line keeps its terminating
    newline; a last line without one is yielded as it is. *)
Fixpoint readlines (s : string) : list string :=
  match s with
  | EmptyString => []
  | String c rest =>
      if Ascii.eqb c newline then String c EmptyString :: readlines rest
      else match readlines rest with
           | line :: lines => String c line :: lines
           | [] => [String c EmptyString]
           end
  end.

(** [s.startswith(p)] *)
Fixpoint startswith (p s : string) : bool :=
  match p, s with
  | EmptyString, _ => true
  | String a p', String b s' => (Ascii.eqb a b && startswith p' s')%bool
  | String _ _, EmptyString => false
  end.

(** [p in s] for two strings: substring test. *)
Fixpoint contains (p s : string) : bool :=
  (startswith p s ||
   match s with
   | String _ s' => contains p s'
   | EmptyString => false
   end)%bool.

(** [s[n:]] *)
Fixpoint drop_chars (n : nat) (s : string) : string :=
  match n, s with
  | S n', String _ rest => drop_chars n' rest
  | _, _ => s
  end.

(** [s.lstrip(c)] for a single character [c]. *)
Fixpoint lstrip_char (c : ascii) (s : string) : string :=
  match s with
  | String a rest => if Ascii.eqb a c then lstrip_char c rest else s
  | EmptyString => s
  end.

(** Python 2 integer division [a / b]: floor division, [ZeroDivisionError]
    for a zero divisor. *)
Definition div (a b : Z) : result Z :=
  if Z.eqb b 0 then Raise ZeroDivisionError else Ok (a / b).

End Py.

(** ** The ledger: class [Metadata] *)

Record Metadata : Type := mkMetadata {
  url_to_batch_id : gmap string Z;
  max_batch_id : Z
}.

(** [Metadata.__init__] *)
Definition Metadata_init : Metadata :=
  {| url_to_batch_id := ∅; max_batch_id := 0 |}.

(** [Metadata.register_url] *)
Definition register_url (batch_id : Z) (url : string) (self : Metadata) : Metadata :=
  {| url_to_batch_id := <[url := batch_id]> (url_to_batch_id self);
     max_batch_id :=
       if Z.ltb (max_batch_id self) batch_id then batch_id else max_batch_id self |}.

(** [Metadata.get_batch_id_for_url]: a missing key is a [KeyError]. *)
Definition get_batch_id_for_url (url : string) (self : Metadata) : result Z :=
  match url_to_batch_id self !! url with
  | Some batch_id => Ok batch_id
  | None => Raise KeyError
  end.

(** [Metadata.includes_url] *)
Definition includes_url (url : string) (self : Metadata) : bool :=
  bool_decide (is_Some (url_to_batch_id self !! url)).

(** [sequence[i]] on a list: [IndexError] out of range. *)
Definition index {A : Type} (l : list A) (i : nat) : result A :=
  match l !! i with
  | Some x => Ok x
  | None => Raise IndexError
  end.

(** The body of the loop of [Metadata.from_file] for one line. *)
Definition from_file_line (line : string) (metadata : Metadata) : result Metadata :=
  let split_line := Py.split Py.tab line in
  field <- index split_line 0;;
  batch_id <- Py.int field;;
  url <- index split_line 1;;
  Ok (register_url batch_id url metadata).

Fixpoint from_file_loop (lines : list string) (metadata : Metadata) : result Metadata :=
  match lines with
  | [] => Ok metadata
  | line :: rest =>
      metadata' <- from_file_line line metadata;;
      from_file_loop rest metadata'
  end.

(** [Metadata.from_file], on the text of the file. *)
Definition from_file (metadata_file : string) : result Metadata :=
  from_file_loop (Py.readlines metadata_file) Metadata_init.

(** One line written by [Metadata.to_file]. *)
Definition to_file_line (entry : string * Z) : string :=
  Py.str (snd entry) +:+ String Py.tab (fst entry) +:+ String Py.newline EmptyString.

(** [Metadata.to_file]: the text written to the output file.  The order in
    which a Python dict yields its items is unspecified; the model uses the
    order of [map_to_list]. *)
Definition to_file (self : Metadata) : string :=
  foldr (fun entry out => to_file_line entry +:+ out) EmptyString
        (map_to_list (url_to_batch_id self)).

(** ** Decoded JSON values and Python dicts keyed by strings *)

#[warnings="-register-all"]
Inductive json : Type :=
| JNull
| JBool (b : bool)
| JInt (n : Z)
| JFloat (q : Q)
| JStr (s : string)
| JList (items : list json)
| JDict (items : list (string * json)).

Module Dict.

(** A dict of an event: an association list in which a key occurs at most
    once; [set] keeps it so. *)
Definition t : Type := list (string * json).

(** [d.get(k)] *)
Fixpoint get (k : string) (d : t) : option json :=
  match d with
  | [] => None
  | (k', v) :: rest => if String.eqb k k' then Some v else get k rest
  end.

(** [k in d] *)
Definition has (k : string) (d : t) : bool :=
  match get k d with Some _ => true | None => false end.

(** [d[k] = v] *)
Fixpoint set (k : string) (v : json) (d : t) : t :=
  match d with
  | [] => [(k, v)]
  | (k', v') :: rest =>
      if String.eqb k k' then (k, v) :: rest else (k', v') :: set k v rest
  end.

(** [d.setdefault(k, v)]: the value now stored under [k], and the dict. *)
Definition setdefault (k : string) (v : json) (d : t) : json * t :=
  match get k d with
  | Some v' => (v', d)
  | None => (v, set k v d)
  end.

End Dict.

(** Truth value of a decoded JSON value ([if not event]). *)
Definition truthy (v : json) : bool :=
  match v with
  | JNull => false
  | JBool b => b
  | JInt n => negb (Z.eqb n 0)
  | JFloat q => negb (Qeq_bool q 0)
  | JStr s => negb (String.eqb s EmptyString)
  | JList items => match items with [] => false | _ => true end
  | JDict items => match items with [] => false | _ => true end
  end.

(** [k in v] for a string [k]: key membership in a dict, element membership
    in a list, substring test in a string, [TypeError] for anything else. *)
Definition py_in (k : string) (v : json) : result bool :=
  match v with
  | JDict items => Ok (Dict.has k items)
  | JList items =>
      Ok (existsb (fun x => match x with JStr s => String.eqb s k | _ => false end) items)
  | JStr s => Ok (Py.contains k s)
  | _ => Raise TypeError
  end.

(** ** The world the task runs in *)

(** The metadata target [<output_root>/_metadata.tsv]. *)
Inductive target_state : Type :=
| Missing
| Unreadable
| Stored (content : string).

(** [target.open('r')] followed by reading the whole file. *)
Definition open_read (t : target_state) : result string :=
  match t with
  | Stored content => Ok content
  | Missing | Unreadable => Raise IOError
  end.

(** An entry of a bucket listing ([boto]'s key metadata). *)
Record S3Key : Type := mkS3Key { key : string; size : Z }.

Record World : Type := mkWorld {
  (** [datetime.datetime.utcnow().isoformat()] *)
  utcnow : string;
  metadata_target : target_state;
  (** how many times the metadata target has been written *)
  metadata_writes : nat;
  (** [s3_conn.get_bucket(bucket_name).list(root)] *)
  s3_list : string -> string -> result (list S3Key);
  (** [luigi.hdfs.listdir(source)] *)
  hdfs_listdir : string -> result (list string);
  (** [os.walk(source)]: (directory, sub-directories, file names) *)
  os_walk : string -> list (string * list string * list string);
  (** size in bytes of the file a path names, if there is one *)
  file_size : string -> option Z
}.

(** [with self.metadata_target.open('w') as f: f.write(text)] *)
Definition write_metadata_target (text : string) (w : World) : World :=
  {| utcnow := utcnow w;
     metadata_target := Stored text;
     metadata_writes := S (metadata_writes w);
     s3_list := s3_list w;
     hdfs_listdir := hdfs_listdir w;
     os_walk := os_walk w;
     file_size := file_size w |}.

(** [os.path.join(a, b)] (POSIX). *)
Definition os_path_join (a b : string) : string :=
  if Py.startswith "/" b then b
  else match a with
       | EmptyString => b
       | _ => if String.eqb (Py.drop_chars (String.length a - 1) a) "/"
              then a +:+ b else a +:+ "/" +:+ b
       end.

(** ** The task object *)

Record Task : Type := mkTask {
  source : list string;
  files_per_batch : Z;
  current_time : string;
  metadata : Metadata;
  requirements : list string
}.

Definition VERSION : string := "1".

(** The order of [sorted(..., key=attrgetter('url'))]: Python 2 compares
    [str] values byte by byte. *)
Definition url_le (a b : string) : Prop := String.leb a b = true.

#[global] Instance url_le_dec (a b : string) : Decision (url_le a b).
Proof. unfold url_le. apply _. Defined.

(** [sorted(requirements, key=attrgetter('url'))]; a requirement is
    identified with its url. *)
Definition sorted (urls : list string) : list string := merge_sort url_le urls.

(** ** The batch planner: the loop of [initialize] *)

(** One pass of the loop body: the ledger and [self.requirements] before
    and after; a division by zero leaves both as they were. *)
Fixpoint assign_batches (files_per_batch min_batch_id : Z) (todo : list string)
    (st : Metadata * list string) : (Metadata * list string) * option exn :=
  match todo with
  | [] => (st, None)
  | path :: rest =>
      match Py.div (Z.of_nat (length (snd st))) files_per_batch with
      | Raise e => (st, Some e)
      | Ok q =>
          let batch_id := min_batch_id + q in
          assign_batches files_per_batch min_batch_id rest
            (register_url batch_id path (fst st), snd st ++ [path])
      end
  end.

(** ** [CanonicalizationTask] *)

Section CanonicalizationTask.

(** Functions of this repository and of its libraries that the task calls:
    [edx.analytics.tasks.url.url_path_join],
    [edx.analytics.tasks.s3_util.get_s3_bucket_key_names],
    [edx.analytics.tasks.util.eventlog.parse_json_event] ([JNull] stands for
    [None]) and [get_event_time_string], [cjson.decode] ([None] stands for a
    raised exception), [cjson.encode] and [md5(...).hexdigest()]. *)
Variable url_path_join : string -> string -> string.
Variable get_s3_bucket_key_names : string -> string * string.
Variable parse_json_event : string -> json.
Variable get_event_time_string : json -> option string.
Variable cjson_decode : string -> option json.
Variable cjson_encode : json -> string.
Variable md5_hexdigest : string -> string.

(** *** Source enumeration *)

(** [_get_s3_urls] *)
Definition _get_s3_urls (w : World) (source : string) : result (list string) :=
  let '(bucket_name, root) := get_s3_bucket_key_names source in
  keys <- s3_list w bucket_name root;;
  Ok (omap (fun key_metadata =>
              if Z.ltb 0 (size key_metadata) then
                let key_path :=
                  Py.lstrip_char "/" (Py.drop_chars (String.length root) (key key_metadata)) in
                Some (url_path_join source key_path)
              else None) keys).

(** [_get_hdfs_urls] *)
Definition _get_hdfs_urls (w : World) (source : string) : result (list string) :=
  hdfs_listdir w source.

(** [_get_local_urls] *)
Definition _get_local_urls (w : World) (source : string) : result (list string) :=
  Ok (concat (List.map (fun '(directory_path, _subdir_paths, filenames) =>
                          List.map (os_path_join directory_path) filenames)
                       (os_walk w source))).

(** The generator chosen for one source by [_get_requirements]. *)
Definition url_gen (w : World) (source : string) : result (list string) :=
  if Py.startswith "s3" source then _get_s3_urls w source
  else if Py.startswith "hdfs" source then _get_hdfs_urls w source
  else _get_local_urls w source.

(** Draining the generators one after the other. *)
Fixpoint chain (gens : list (result (list string))) : result (list string) :=
  match gens with
  | [] => Ok []
  | gen :: rest =>
      urls <- gen;;
      more <- chain rest;;
      Ok (urls ++ more)
  end.

(** [_get_requirements] *)
Definition _get_requirements (w : World) (self : Task) : result (list string) :=
  urls <- chain (List.map (url_gen w) (source self));;
  Ok (List.filter (fun url => negb (includes_url url (metadata self))) urls).

(** *** [initialize] *)

(** The [try]/[except Exception] around the ledger load. *)
Definition load_metadata (w : World) : Metadata :=
  match (metadata_file <- open_read (metadata_target w);; from_file metadata_file) with
  | Ok loaded => loaded
  | Raise _ => Metadata_init
  end.

(** The planning loop of [initialize], started as [initialize] starts it:
    [min_batch_id] is read once, before the loop, and [self.requirements]
    is empty. *)
Definition plan_batches (files_per_batch : Z) (ledger : Metadata) (found : list string)
    : (Metadata * list string) * option exn :=
  let min_batch_id := max_batch_id ledger + 1 in
  assign_batches files_per_batch min_batch_id (sorted found) (ledger, []).

(** [initialize] after the [try] statement, [loaded] being the value of
    [self.metadata] at that point. *)
Definition initialize_from (loaded : Metadata) (w : World) (self : Task)
    : Task * option exn :=
  let self :=
    {| source := source self; files_per_batch := files_per_batch self;
       current_time := utcnow w; metadata := loaded; requirements := [] |} in
  match _get_requirements w self with
  | Raise e => (self, Some e)
  | Ok found =>
      let '((ledger, reqs), outcome) :=
        plan_batches (files_per_batch self) (metadata self) found in
      ({| source := source self; files_per_batch := files_per_batch self;
          current_time := current_time self; metadata := ledger;
          requirements := reqs |}, outcome)
  end.

(** [initialize]: the task object when the call ends, and the exception it
    ends with, if any. *)
Definition initialize (w : World) (self : Task) : Task * option exn :=
  initialize_from (load_metadata w) w self.

(** *** [run] *)

(** [super(CanonicalizationTask, self).run()]: the map/reduce job, run by
    the execution engine. *)
Variable super_run : World -> Task -> World * option exn.

(** [run] *)
Definition run (w : World) (self : Task) : World * option exn :=
  match super_run w self with
  | (w', Some e) => (w', Some e)
  | (w', None) => (write_metadata_target (to_file (metadata self)) w', None)
  end.

(** *** [mapper] *)

(** [compute_hash] *)
Definition compute_hash (line : string) : string := md5_hexdigest line.

(** [get_batch_id]: a lookup in [self.path_to_batch]. *)
Definition get_batch_id (path_to_batch : gmap string Z) (file_path : string) : result Z :=
  match path_to_batch !! file_path with
  | Some batch_id => Ok batch_id
  | None => Raise KeyError
  end.

(** [os.environ[name]] for a variable that is set or not. *)
Definition environ (value : option string) : result string :=
  match value with
  | Some v => Ok v
  | None => Raise KeyError
  end.

(** The body of [mapper] up to the encoding of the event: nothing for a
    discarded line, or the key and the event that will be emitted.
    [self_current_time] is [self.current_time], [path_to_batch] is
    [self.path_to_batch] and [map_input_file] is the environment variable
    of that name. *)
Definition mapper_event (self_current_time : string) (path_to_batch : gmap string Z)
    (map_input_file : option string) (line : string)
    : result (option ((string * Z) * Dict.t)) :=
  let event := parse_json_event line in
  if negb (truthy event) then Ok None else
  has_event_type <- py_in "event_type" event;;
  if negb has_event_type then Ok None else
  match get_event_time_string event with
  | None => Ok None
  | Some standardized_time =>
    if String.eqb standardized_time EmptyString then Ok None else
    match event with
    | JDict event =>
        let event := Dict.set "time" (JStr standardized_time) event in
        date_string <- index (Py.split "T" standardized_time) 0;;
        let event := snd (Dict.setdefault "date" (JStr date_string) event) in
        let '(metadata_value, event) := Dict.setdefault "metadata" (JDict []) event in
        match metadata_value with
        | JDict metadata =>
            let metadata := snd (Dict.setdefault "version" (JStr VERSION) metadata) in
            let metadata := Dict.set "last_modified" (JStr self_current_time) metadata in
            let metadata :=
              if Dict.has "id" metadata then metadata
              else Dict.set "id" (JStr (compute_hash line)) metadata in
            map_input_file <- environ map_input_file;;
            let metadata := Dict.set "original_file" (JStr map_input_file) metadata in
            batch_id <- get_batch_id path_to_batch map_input_file;;
            let metadata := Dict.set "batch_id" (JInt batch_id) metadata in
            (* [metadata] is the dict stored in the event, not a copy *)
            let event := Dict.set "metadata" (JDict metadata) event in
            let event := snd (Dict.setdefault "context" (JDict []) event) in
            let event :=
              match Dict.get "event" event with
              | Some (JStr content) =>
                  if String.eqb content EmptyString then event
                  else Dict.set "event"
                         (match cjson_decode content with
                          | Some decoded => decoded
                          | None => JDict []
                          end) event
              | _ => event
              end in
            Ok (Some ((date_string, batch_id), event))
        | _ => Raise AttributeError
        end
    | _ => Raise TypeError
    end
  end.

(** [mapper]: the pairs the generator yields. *)
Definition mapper (self_current_time : string) (path_to_batch : gmap string Z)
    (map_input_file : option string) (line : string)
    : result (list ((string * Z) * string)) :=
  emitted <- mapper_event self_current_time path_to_batch map_input_file line;;
  Ok (match emitted with
      | Some (k, event) => [(k, cjson_encode (JDict event))]
      | None => []
      end).

End CanonicalizationTask.

(** Modelled from the spec: [get_batch_id] reads [self.path_to_batch], an
    attribute that the source file assigns nowhere.  The spec has the mapper
    look the path up "in the assignment produced" by the planner, "every
    worker" receiving "the full assignment as an immutable input": the table
    is the path-to-batch mapping of the ledger as [initialize] leaves it. *)
Definition path_to_batch (self : Task) : gmap string Z :=
  url_to_batch_id (metadata self).

(** The part of a timestamp before its first ['T']:
    [standardized_time.split("T")[0]]. *)
Definition date_portion (time : string) : string :=
  match Py.split "T" time with
  | first :: _ => first
  | [] => EmptyString
  end.

(** A run of [register_url] calls on a ledger, oldest first. *)
Definition register_all (calls : list (Z * string)) (ledger : Metadata) : Metadata :=
  foldl (fun acc call => register_url (fst call) (snd call) acc) ledger calls.

(** The characters of a string. *)
Fixpoint chars (s : string) : list ascii :=
  match s with
  | EmptyString => []
  | String c rest => c :: chars rest
  end.

(** Every stored batch id is at most the high-water mark. *)
Definition bounded (ledger : Metadata) : Prop :=
  forall url batch_id,
    url_to_batch_id ledger !! url = Some batch_id -> batch_id <= max_batch_id ledger.

(** A line on which the loop body of [from_file] raises: it has no second
    field, or [int] rejects its first field. *)
Definition malformed (line : string) : Prop :=
  Py.tab ∉ chars line \/
  exists field fields, Py.split Py.tab line = field :: fields /\ raised (Py.int field).

(** Replacing the metadata target, everything else being equal. *)
Definition with_metadata_target (t : target_state) (w : World) : World :=
  {| utcnow := utcnow w;
     metadata_target := t;
     metadata_writes := metadata_writes w;
     s3_list := s3_list w;
     hdfs_listdir := hdfs_listdir w;
     os_walk := os_walk w;
     file_size := file_size w |}.

(** ** Sample inputs *)

Module Sample.

Definition TAB : string := String Py.tab EmptyString.
Definition NL : string := String Py.newline EmptyString.

(** Stand-ins for the functions the task takes from elsewhere. *)
Definition url_path_join (a b : string) : string := a +:+ "/" +:+ b.

Definition get_s3_bucket_key_names (source : string) : string * string :=
  (source, EmptyString).

Definition get_event_time_string (event : json) : option string :=
  match event with
  | JDict items =>
      match Dict.get "time" items with
      | Some (JStr time) => Some time
      | _ => None
      end
  | _ => None
  end.

Definition cjson_decode (_ : string) : option json := None.
Definition cjson_encode (_ : json) : string := "<event>".
Definition md5_hexdigest (_ : string) : string := "0cc175b9c0f1b6a831c399e269772661".

(** Two log lines, named after what [parse_json_event] makes of them: an
    event with a type and a time, and the same event carrying a [date]
    field of its own. *)
Definition plain_line : string := "plain".
Definition dated_line : string := "dated".

Definition plain_event : json :=
  JDict [("event_type", JStr "play_video");
         ("time", JStr "2023-01-01T10:00:00.000000")].

Definition dated_event : json :=
  JDict [("event_type", JStr "play_video");
         ("time", JStr "2023-01-01T10:00:00.000000");
         ("date", JStr "1999-12-31")].

Definition parse_json_event (line : string) : json :=
  if String.eqb line plain_line then plain_event
  else if String.eqb line dated_line then dated_event
  else JNull.

(** A first run: no metadata file yet, three log files in [/logs], and an
    [/archive] directory without files. *)
Definition world : World :=
  {| utcnow := "2023-01-05T00:00:00.000000";
     metadata_target := Missing;
     metadata_writes := 0;
     s3_list := fun _ _ => Ok [];
     hdfs_listdir := fun _ => Ok [];
     os_walk := fun source =>
       if String.eqb source "/logs" then [("/logs", [], ["b.log"; "a.log"; "c.log"])]
       else if String.eqb source "/archive" then [("/archive", [], [])]
       else [];
     file_size := fun _ => Some 100 |}.

(** A local directory and an HDFS directory, each with one file of size 0. *)
Definition world_with_empty_files : World :=
  {| utcnow := "2023-01-05T00:00:00.000000";
     metadata_target := Missing;
     metadata_writes := 0;
     s3_list := fun _ _ => Ok [];
     hdfs_listdir := fun source =>
       if String.eqb source "hdfs://namenode/logs"
       then Ok ["hdfs://namenode/logs/empty.log"] else Ok [];
     os_walk := fun source =>
       if String.eqb source "/logs" then [("/logs", [], ["empty.log"])] else [];
     file_size := fun path =>
       if String.eqb path "/logs/empty.log" then Some 0
       else if String.eqb path "hdfs://namenode/logs/empty.log" then Some 0
       else None |}.

Definition task (sources : list string) (capacity : Z) : Task :=
  {| source := sources; files_per_batch := capacity; current_time := EmptyString;
     metadata := Metadata_init; requirements := [] |}.

(** A map/reduce job that fails, and one that succeeds; neither touches the
    metadata target. *)
Definition failing_job (w : World) (_ : Task) : World * option exn := (w, Some IOError).
Definition successful_job (w : World) (_ : Task) : World * option exn := (w, None).

End Sample.

(** ** Reading the ledger line by line *)

(** The line terminator. *)
Definition NL : string := String Py.newline EmptyString.

(** A line that [from_file] accepts: its first field is read by [int], its
    second field is the path. *)
Definition line_entry (line : string) (call : Z * string) : Prop :=
  exists field fields,
    Py.split Py.tab line = field :: snd call :: fields /\ Py.int field = Ok (fst call).

(** ** [requires] and [complete] *)

Section Requirements.

Variable url_path_join : string -> string -> string.
Variable get_s3_bucket_key_names : string -> string * string.

(** [requires], on a task object and the answer of
    [hasattr(self, 'requirements')]: the object and that answer after the
    call, and the list returned or the exception raised.  [initialize]
    assigns [self.requirements] before anything in it can raise, so the
    attribute is there after the call however [initialize] ends. *)
Definition requires (w : World) (obj : Task * bool) : (Task * bool) * result (list string) :=
  let '(self, has_requirements) := obj in
  if has_requirements then (obj, Ok (requirements self))
  else
    match initialize url_path_join get_s3_bucket_key_names w self with
    | (self', None) => ((self', true), Ok (requirements self'))
    | (self', Some e) => ((self', true), Raise e)
    end.

(** [complete] *)
Definition complete (w : World) (obj : Task * bool) : (Task * bool) * result bool :=
  let '(obj', required) := requires w obj in
  (obj', reqs <- required;; Ok (Nat.eqb (length reqs) 0)).

End Requirements.

(** ** [reducer] *)

(** [s.rstrip()] and [s.strip()] without argument: blanks are removed. *)
Fixpoint rstrip (s : string) : string :=
  match s with
  | EmptyString => EmptyString
  | String c rest =>
      match rstrip rest with
      | EmptyString => if Py.isspace c then EmptyString else String c EmptyString
      | kept => String c kept
      end
  end.

Definition strip (s : string) : string := rstrip (Py.skip_spaces s).

(** [len(s)] *)
Definition len (s : string) : Z := Z.of_nat (String.length s).

(** What a call of [reducer] leaves behind: the path of the output file,
    the bytes written to the [GzipFile] (before compression), and the
    amounts passed to [incr_counter], oldest first. *)
Record Reduced : Type := mkReduced {
  output_path : string;
  written : string;
  counter_increments : list Z
}.

(** The loop over [values]: the bytes written, the counter increments made
    inside the loop, and [bytes_written] when the loop ends. *)
Fixpoint reducer_loop (values : list string) (bytes_written : Z) : string * list Z * Z :=
  match values with
  | [] => (EmptyString, [], bytes_written)
  | value :: rest =>
      let line := strip value +:+ String Py.newline EmptyString in
      let bytes_written := bytes_written + (len value + 1) in
      if Z.ltb 1000000 bytes_written then
        let '(out, increments, final) := reducer_loop rest 0 in
        (line +:+ out, bytes_written :: increments, final)
      else
        let '(out, increments, final) := reducer_loop rest bytes_written in
        (line +:+ out, increments, final)
  end.

Section Reducer.

(** [url_path_join] with three arguments. *)
Variable url_path_join3 : string -> string -> string -> string.

(** [reducer]; the iterator it returns is empty. *)
Definition reducer (output_root : string) (key : string * Z) (values : list string)
    : Reduced :=
  let '(date_string, batch_id) := key in
  let '(out, increments, final) := reducer_loop values 0 in
  {| output_path :=
       url_path_join3 output_root ("dt=" +:+ date_string)
                      ("batch_" +:+ Py.str batch_id +:+ ".gz");
     written := out;
     counter_increments :=
       increments ++ (if Z.ltb 0 final then [final] else []) |}.

End Reducer.

(** ** [LoadVerticaTableFromS3ToSnowflakeTask.snowflake_compliant_schema] *)

Module Snowflake.

Definition double_quote : ascii := Ascii.ascii_of_nat 34.

(** ['"{}"'.format(s)] *)
Definition quoted (s : string) : string :=
  String double_quote (s +:+ String double_quote EmptyString).

Definition is_digit (c : ascii) : bool :=
  match Py.digit_value c with Some _ => true | None => false end.

(** Whether a character occurs in a string. *)
Fixpoint has_char (c : ascii) (set : string) : bool :=
  match set with
  | EmptyString => false
  | String a rest => (Ascii.eqb a c || has_char c rest)%bool
  end.

(** [s.lstrip(set)]: the leading characters that occur in [set] are
    removed, whatever their order. *)
Fixpoint lstrip (set : string) (s : string) : string :=
  match s with
  | String c rest => if has_char c set then lstrip set rest else s
  | EmptyString => s
  end.

(** [re.findall(r'[0-9]+', s)]: the maximal runs of decimal digits of [s],
    from left to right. *)
Fixpoint findall_digits (s : string) : list string :=
  match s with
  | EmptyString => []
  | String c rest =>
      if is_digit c then
        match rest with
        | String c' _ =>
            if is_digit c' then
              match findall_digits rest with
              | run :: runs => String c run :: runs
              | [] => [String c EmptyString]
              end
            else String c EmptyString :: findall_digits rest
        | EmptyString => [String c EmptyString]
        end
      else findall_digits rest
  end.

(** The body of the loop for one column of [self.vertica_table_schema]. *)
Definition compliant_column (column_name field_type : string) : result (string * string) :=
  let column_name :=
    if (String.eqb column_name "start" || Py.contains " " column_name)%bool
    then quoted column_name else column_name in
  field_type <-
    (if Py.startswith "long " field_type then Ok (lstrip "long " field_type)
     else if Py.contains "numeric(" field_type then
       let precision_and_scale := findall_digits field_type in
       first <- index precision_and_scale 0;;
       precision <- Py.int first;;
       if Z.ltb 38 precision then
         if Nat.eqb (length precision_and_scale) 2 then
           scale <- index precision_and_scale 1;;
           Ok ("numeric(38," +:+ scale +:+ ")")
         else Ok "numeric(38)"
       else Ok field_type
     else if String.eqb field_type "uuid" then Ok "varchar(36)"
     else Ok field_type);;
  Ok (column_name, field_type).

(** [snowflake_compliant_schema], on the value of
    [self.vertica_table_schema]: triples of a column name, a field type and
    a third component that the loop ignores. *)
Fixpoint snowflake_compliant_schema {N : Type}
    (vertica_table_schema : list (string * string * N)) : result (list (string * string)) :=
  match vertica_table_schema with
  | [] => Ok []
  | (column_name, field_type, _) :: rest =>
      column <- compliant_column column_name field_type;;
      results <- snowflake_compliant_schema rest;;
      Ok (column :: results)
  end.

End Snowflake.

(** ** More sample inputs *)

Module Fixture.

(** Stand-ins for [url_path_join] with three arguments and for
    [get_s3_bucket_key_names]. *)
Definition url_path_join3 (a b c : string) : string := a +:+ "/" +:+ b +:+ "/" +:+ c.

Definition get_s3_bucket_key_names (_ : string) : string * string := ("bucket", "logs").

(** A ledger with two files in two batches. *)
Definition ledger : Metadata :=
  register_url 2 "/logs/b.log" (register_url 1 "/logs/a.log" Metadata_init).

(** A metadata file with two lines for the same path. *)
Definition rewritten_text : string :=
  "3" +:+ Sample.TAB +:+ "a" +:+ Sample.NL +:+ "5" +:+ Sample.TAB +:+ "a" +:+ Sample.NL.

(** The world of [Sample.world] after a run has written its ledger. *)
Definition world_with_ledger : World :=
  with_metadata_target (Stored (to_file ledger)) Sample.world.

(** A world in which HDFS cannot be listed. *)
Definition world_hdfs_down : World :=
  {| utcnow := utcnow Sample.world;
     metadata_target := Missing;
     metadata_writes := 0;
     s3_list := s3_list Sample.world;
     hdfs_listdir := fun _ => Raise IOError;
     os_walk := os_walk Sample.world;
     file_size := file_size Sample.world |}.

(** A bucket with one log file and an empty key for its folder. *)
Definition world_s3 : World :=
  {| utcnow := utcnow Sample.world;
     metadata_target := Missing;
     metadata_writes := 0;
     s3_list := fun _ _ =>
       Ok [{| key := "logs/"; size := 0 |}; {| key := "logs/a.log"; size := 10 |}];
     hdfs_listdir := hdfs_listdir Sample.world;
     os_walk := os_walk Sample.world;
     file_size := file_size Sample.world |}.

(** More log lines: an event that comes with metadata, a context, a
    payload and a field of its own; and an event whose metadata is a
    string. *)
Definition stamped_line : string := "stamped".
Definition foreign_line : string := "foreign".

Definition stamped_event : json :=
  JDict [("event_type", JStr "play_video");
         ("time", JStr "2023-01-01T10:00:00.000000");
         ("username", JStr "alice");
         ("context", JDict [("course_id", JStr "c1")]);
         ("event", JStr "[1]");
         ("metadata", JDict [("id", JStr "abc"); ("version", JStr "0");
                             ("last_modified", JStr "earlier");
                             ("origin", JStr "tracking")])].

Definition foreign_event : json :=
  JDict [("event_type", JStr "play_video");
         ("time", JStr "2023-01-01T10:00:00.000000");
         ("metadata", JStr "none")].

Definition parse_json_event (line : string) : json :=
  if String.eqb line stamped_line then stamped_event
  else if String.eqb line foreign_line then foreign_event
  else Sample.parse_json_event line.

Definition cjson_decode (content : string) : option json :=
  if String.eqb content "[1]" then Some (JList [JInt 1]) else None.

Definition table : gmap string Z := {["/logs/a.log" := 1]}.

(** A Vertica schema. *)
Definition vertica_table_schema : list (string * string * bool) :=
  [("start", "numeric(58, 4)", true);
   ("my col", "long varchar(10)", true);
   ("id", "uuid", false)].

End Fixture.

(** * Properties *)

(** ** The ledger *)

Lemma register_url_max (batch_id : Z) (url : string) (ledger : Metadata) :
  max_batch_id (register_url batch_id url ledger) = Z.max (max_batch_id ledger) batch_id.
Proof.
  unfold register_url; simpl.
  destruct (Z.ltb_spec (max_batch_id ledger) batch_id); lia.
Qed.

Lemma register_url_lookup (batch_id : Z) (url url' : string) (ledger : Metadata) :
  url_to_batch_id (register_url batch_id url ledger) !! url' =
  if decide (url = url') then Some batch_id else url_to_batch_id ledger !! url'.
Proof. unfold register_url; simpl. apply lookup_insert. Qed.

Lemma bounded_init : bounded Metadata_init.
Proof. intros url b H. unfold Metadata_init in H; simpl in H. by rewrite lookup_empty in H. Qed.

Lemma bounded_register (batch_id : Z) (url : string) (ledger : Metadata) :
  bounded ledger -> bounded (register_url batch_id url ledger).
Proof.
  intros Hb url' b. rewrite register_url_lookup, register_url_max.
  destruct (decide (url = url')) as [_ | _].
  - intros [= <-]. lia.
  - intros H. apply Hb in H. lia.
Qed.

Lemma register_all_snoc (calls : list (Z * string)) (call : Z * string) (ledger : Metadata) :
  register_all (calls ++ [call]) ledger =
  register_url (fst call) (snd call) (register_all calls ledger).
Proof. unfold register_all. by rewrite foldl_app. Qed.

Lemma bounded_register_all (calls : list (Z * string)) (ledger : Metadata) :
  bounded ledger -> bounded (register_all calls ledger).
Proof.
  induction calls as [| call calls IH] using rev_ind; [done |].
  intros Hb. rewrite register_all_snoc. by apply bounded_register, IH.
Qed.

(** C9: starting from an empty ledger, after any sequence of [register_url]
    calls with non-negative batch ids, [max_batch_id] is the largest batch
    id ever registered (it bounds every id registered, and it is one of
    them, or 0 when nothing was registered), and every path of the mapping
    has a batch id that is at most [max_batch_id].  Every registered path
    is in the mapping, under a batch id that was registered for it and is
    at most [max_batch_id]: the id of the last call that names the path;
    and the mapping holds nothing but registered paths. *)
Theorem ledger_invariant (calls : list (Z * string)) :
  (forall call, call ∈ calls -> 0 <= fst call) ->
  let ledger := register_all calls Metadata_init in
  (forall call, call ∈ calls -> fst call <= max_batch_id ledger) /\
  (match calls with
   | [] => max_batch_id ledger = 0
   | _ => exists call, call ∈ calls /\ max_batch_id ledger = fst call
   end) /\
  (forall url batch_id,
     url_to_batch_id ledger !! url = Some batch_id -> batch_id <= max_batch_id ledger) /\
  (forall call,
     call ∈ calls ->
     exists batch_id,
       url_to_batch_id ledger !! snd call = Some batch_id /\
       batch_id <= max_batch_id ledger /\
       (batch_id, snd call) ∈ calls) /\
  (forall before after batch_id url,
     calls = before ++ (batch_id, url) :: after ->
     url ∉ (snd <$> after) ->
     url_to_batch_id ledger !! url = Some batch_id) /\
  (forall url batch_id,
     url_to_batch_id ledger !! url = Some batch_id -> (batch_id, url) ∈ calls).
Proof.
  intros Hpos ledger. subst ledger.
  split; [| split; [| split; [| split; [| split]]]].
  - induction calls as [| call calls IH] using rev_ind; intros c Hc.
    + by apply elem_of_nil in Hc.
    + rewrite register_all_snoc, register_url_max.
      apply elem_of_app in Hc as [Hc | Hc].
      * assert (fst c <= max_batch_id (register_all calls Metadata_init)); [| lia].
        apply IH; [| done]. intros c' Hc'. apply Hpos, elem_of_app. by left.
      * apply list_elem_of_singleton in Hc as ->. lia.
  - induction calls as [| call calls IH] using rev_ind; [done |].
    assert (Hcall : 0 <= fst call) by (apply Hpos, elem_of_app; right; by apply list_elem_of_singleton).
    assert (IH' : match calls with
                  | [] => max_batch_id (register_all calls Metadata_init) = 0
                  | _ => exists c, c ∈ calls /\
                           max_batch_id (register_all calls Metadata_init) = fst c
                  end).
    { apply IH. intros c' Hc'. apply Hpos, elem_of_app. by left. }
    assert (Hgoal : exists c, c ∈ calls ++ [call] /\
              max_batch_id (register_all (calls ++ [call]) Metadata_init) = fst c).
    { rewrite register_all_snoc, register_url_max.
      destruct (Z.le_gt_cases (max_batch_id (register_all calls Metadata_init)) (fst call))
        as [Hle | Hgt].
      - exists call. split; [apply elem_of_app; right; by apply list_elem_of_singleton | lia].
      - destruct calls as [| c0 calls'].
        + simpl in IH'. unfold register_all in Hgt; simpl in Hgt. lia.
        + destruct IH' as (c & Hc & Hmax). exists c.
          split; [apply elem_of_app; by left | lia]. }
    destruct calls; exact Hgoal.
  - apply bounded_register_all, bounded_init.
  - clear Hpos. intros call Hcall.
    assert (Hin : exists batch_id,
              url_to_batch_id (register_all calls Metadata_init) !! snd call = Some batch_id /\
              (batch_id, snd call) ∈ calls).
    { induction calls as [| last calls IH] using rev_ind; [by apply elem_of_nil in Hcall |].
      rewrite register_all_snoc, register_url_lookup.
      destruct (decide (snd last = snd call)) as [Heq | Hne].
      - exists (fst last). split; [done |].
        apply elem_of_app. right. apply list_elem_of_singleton.
        rewrite <- Heq. by destruct last.
      - apply elem_of_app in Hcall as [Hcall | Hcall].
        + destruct (IH Hcall) as (b & Hb & Hcalls). exists b.
          split; [done |]. apply elem_of_app. by left.
        + apply list_elem_of_singleton in Hcall. by subst. }
    destruct Hin as (b & Hb & Hcalls). exists b. split; [done |]. split; [| done].
    by apply (bounded_register_all calls Metadata_init bounded_init (snd call)).
  - clear Hpos. intros before after batch_id url -> Hnot.
    induction after as [| last after IH] using rev_ind.
    + rewrite register_all_snoc, register_url_lookup. simpl. by rewrite decide_True.
    + replace (before ++ (batch_id, url) :: after ++ [last])
        with ((before ++ (batch_id, url) :: after) ++ [last])
        by (by rewrite <- app_assoc).
      rewrite register_all_snoc, register_url_lookup.
      rewrite fmap_app in Hnot.
      destruct (decide (snd last = url)) as [Heq | _].
      * exfalso. apply Hnot, elem_of_app. right. simpl.
        apply list_elem_of_singleton. by symmetry.
      * apply IH. intros Hin. apply Hnot, elem_of_app. by left.
  - clear Hpos. intros url batch_id.
    induction calls as [| last calls IH] using rev_ind.
    + unfold register_all. simpl. by rewrite lookup_empty.
    + rewrite register_all_snoc, register_url_lookup.
      destruct (decide (snd last = url)) as [<- | _].
      * intros [= <-]. apply elem_of_app. right. apply list_elem_of_singleton.
        by destruct last.
      * intros Hlookup. apply elem_of_app. left. by apply IH.
Qed.

(** ** Loading the ledger *)

Lemma split_without_separator (sep : ascii) (s : string) :
  sep ∉ chars s -> Py.split sep s = [s].
Proof.
  induction s as [| c rest IH]; simpl; intros Hnot; [done |].
  destruct (Ascii.eqb_spec c sep) as [-> | Hne].
  - exfalso. apply Hnot. by left.
  - rewrite IH; [done |]. intros Hin. apply Hnot. by right.
Qed.

Lemma from_file_line_malformed (line : string) (ledger : Metadata) :
  malformed line -> raised (from_file_line line ledger).
Proof.
  unfold from_file_line. intros [Hnotab | (field & fields & Hsplit & Hint)].
  - rewrite split_without_separator by done. simpl.
    destruct (Py.int line); simpl; done.
  - rewrite Hsplit. simpl. destruct (Py.int field); simpl; done.
Qed.

Lemma from_file_loop_malformed (lines : list string) (line : string) (ledger : Metadata) :
  line ∈ lines -> malformed line -> raised (from_file_loop lines ledger).
Proof.
  intros Hin Hbad. revert ledger.
  induction lines as [| l lines IH]; intros ledger; [by apply elem_of_nil in Hin |].
  simpl. apply elem_of_cons in Hin as [<- | Hin].
  - pose proof (from_file_line_malformed line ledger Hbad) as Hr.
    destruct (from_file_line line ledger); simpl; done.
  - destruct (from_file_line l ledger); simpl; [by apply IH | done].
Qed.

Lemma load_metadata_raised (w : World) :
  raised (metadata_file <- open_read (metadata_target w);; from_file metadata_file) ->
  load_metadata w = Metadata_init.
Proof.
  unfold load_metadata.
  destruct (metadata_file <- open_read (metadata_target w);; from_file metadata_file);
    simpl; [done | reflexivity].
Qed.

(** C10: [from_file] never skips a malformed line: when some line of the
    input has no tab, or has a first field that [int] rejects, [from_file]
    raises; the empty ledger is substituted by the [try]/[except] of
    [initialize] only. *)
Theorem from_file_fails_on_malformed_line (text line : string) (w : World) :
  line ∈ Py.readlines text ->
  (Py.tab ∉ chars line \/
   exists field fields, Py.split Py.tab line = field :: fields /\ raised (Py.int field)) ->
  raised (from_file text) /\
  load_metadata (with_metadata_target (Stored text) w) = Metadata_init.
Proof.
  intros Hin Hbad.
  assert (Hr : raised (from_file text)).
  { unfold from_file. by apply from_file_loop_malformed with line. }
  split; [done |]. by apply load_metadata_raised.
Qed.

(** ** Planning never fails for a non-zero capacity *)

Lemma assign_batches_nonzero (c m : Z) (todo : list string) (st : Metadata * list string) :
  c <> 0 -> snd (assign_batches c m todo st) = None.
Proof.
  intros Hc. revert st. induction todo as [| path rest IH]; intros st; simpl; [done |].
  unfold Py.div. destruct (Z.eqb_spec c 0); [done | apply IH].
Qed.

Section Initialize.

Variable url_path_join : string -> string -> string.
Variable get_s3_bucket_key_names : string -> string * string.

Local Abbreviation initialize := (initialize url_path_join get_s3_bucket_key_names).
Local Abbreviation initialize_from := (initialize_from url_path_join get_s3_bucket_key_names).
Local Abbreviation url_gen := (url_gen url_path_join get_s3_bucket_key_names).

Lemma initialize_from_found (loaded : Metadata) (w : World) (self : Task)
    (urls : list string) :
  chain (List.map (url_gen w) (source self)) = Ok urls ->
  let found := List.filter (fun url => negb (includes_url url loaded)) urls in
  let planned := plan_batches (files_per_batch self) loaded found in
  initialize_from loaded w self =
  ({| source := source self; files_per_batch := files_per_batch self;
      current_time := utcnow w; metadata := fst (fst planned);
      requirements := snd (fst planned) |}, snd planned).
Proof.
  intros Hurls found planned. unfold initialize_from, _get_requirements. simpl.
  rewrite Hurls. simpl. fold found. fold planned.
  by destruct planned as [[ledger reqs] outcome].
Qed.

(** C5: whenever the metadata file is missing, cannot be read, or has a
    content on which [from_file] raises, [initialize] goes on with the empty
    ledger: it behaves as [initialize] does after a load that produced
    [Metadata()], and it ends without an exception as soon as the sources
    can be listed (and the capacity is not zero). *)
Theorem ledger_load_robust (w : World) (self : Task) :
  (metadata_target w = Missing \/
   metadata_target w = Unreadable \/
   exists text, metadata_target w = Stored text /\ raised (from_file text)) ->
  load_metadata w = Metadata_init /\
  url_to_batch_id (load_metadata w) = ∅ /\
  max_batch_id (load_metadata w) = 0 /\
  initialize w self = initialize_from Metadata_init w self /\
  (forall urls,
     chain (List.map (url_gen w) (source self)) = Ok urls ->
     files_per_batch self <> 0 ->
     snd (initialize w self) = None).
Proof.
  intros Hinput.
  assert (Hload : load_metadata w = Metadata_init).
  { apply load_metadata_raised.
    destruct Hinput as [-> | [-> | (text & -> & Hr)]]; simpl; done. }
  unfold initialize. rewrite Hload. repeat split.
  intros urls Hurls Hc.
  rewrite (initialize_from_found _ _ _ _ Hurls). simpl.
  unfold plan_batches. by apply assign_batches_nonzero.
Qed.

End Initialize.

(** ** The order on urls *)

Lemma ascii_compare_lt_trans (a b c : ascii) :
  Ascii.compare a b = Lt -> Ascii.compare b c = Lt -> Ascii.compare a c = Lt.
Proof.
  unfold Ascii.compare. rewrite !N.compare_lt_iff. lia.
Qed.

Lemma string_compare_trans (s1 s2 s3 : string) :
  String.compare s1 s2 <> Gt -> String.compare s2 s3 <> Gt -> String.compare s1 s3 <> Gt.
Proof.
  revert s2 s3. induction s1 as [| a s1 IH]; intros [| b s2] [| c s3]; simpl; try done.
  destruct (Ascii.compare a b) eqn:Hab; [| | done].
  - apply Ascii.compare_eq_iff in Hab as ->.
    destruct (Ascii.compare b c); [apply IH | done | done].
  - intros _. destruct (Ascii.compare b c) eqn:Hbc; [| | done].
    + apply Ascii.compare_eq_iff in Hbc as <-. by rewrite Hab.
    + by rewrite (ascii_compare_lt_trans a b c).
Qed.

#[global] Instance url_le_trans : Transitive url_le.
Proof.
  intros s1 s2 s3. unfold url_le, String.leb. intros H12 H23.
  pose proof (string_compare_trans s1 s2 s3) as Ht.
  destruct (String.compare s1 s2); destruct (String.compare s2 s3);
    destruct (String.compare s1 s3); try done; exfalso; by apply Ht.
Qed.

#[global] Instance url_le_total : Total url_le.
Proof. intros s1 s2. apply String.leb_total. Qed.

#[global] Instance url_le_antisym : AntiSymm eq url_le.
Proof. intros s1 s2. apply String.leb_antisym. Qed.

Lemma sorted_Sorted (urls : list string) : Sorted url_le (sorted urls).
Proof. apply Sorted_merge_sort; apply _. Qed.

Lemma sorted_Permutation (urls : list string) : sorted urls ≡ₚ urls.
Proof. apply merge_sort_Permutation. Qed.

(** The sorted list depends on the set of urls only. *)
Lemma sorted_unique (urls urls' : list string) :
  urls' ≡ₚ urls -> sorted urls' = sorted urls.
Proof.
  intros Hperm. apply (Sorted_unique url_le); try apply sorted_Sorted.
  by rewrite !sorted_Permutation.
Qed.

Lemma sorted_nil_iff (urls : list string) : sorted urls = [] <-> urls = [].
Proof.
  split; intros H.
  - apply Permutation_nil_r. rewrite <- H. symmetry. apply sorted_Permutation.
  - subst. reflexivity.
Qed.

(** ** The planning loop *)

Lemma assign_batches_other (c m : Z) (todo : list string) (st : Metadata * list string)
    (url : string) :
  url ∉ todo ->
  url_to_batch_id (fst (fst (assign_batches c m todo st))) !! url =
  url_to_batch_id (fst st) !! url.
Proof.
  revert st. induction todo as [| path rest IH]; intros st Hnot; simpl; [done |].
  destruct (Py.div (Z.of_nat (length (snd st))) c) as [q | e]; [| done].
  rewrite IH by (intros Hin; apply Hnot; by right). cbn [fst snd].
  rewrite register_url_lookup. destruct (decide (path = url)) as [-> | _]; [| done].
  exfalso. apply Hnot. by left.
Qed.

Lemma assign_batches_requirements (c m : Z) (todo : list string)
    (st : Metadata * list string) :
  c <> 0 -> snd (fst (assign_batches c m todo st)) = snd st ++ todo.
Proof.
  intros Hc. revert st. induction todo as [| path rest IH]; intros st; simpl.
  - by rewrite app_nil_r.
  - unfold Py.div. destruct (Z.eqb_spec c 0); [done |].
    rewrite IH. simpl. by rewrite <- app_assoc.
Qed.

Lemma assign_batches_lookup (c m : Z) (todo : list string) (st : Metadata * list string)
    (i : nat) (path : string) :
  c <> 0 -> NoDup todo -> todo !! i = Some path ->
  url_to_batch_id (fst (fst (assign_batches c m todo st))) !! path =
  Some (m + Z.of_nat (length (snd st) + i) / c).
Proof.
  intros Hc. revert st i.
  induction todo as [| p rest IH]; intros st i Hnodup Hi; [done |].
  apply NoDup_cons in Hnodup as [Hnotin Hnodup].
  simpl. unfold Py.div. destruct (Z.eqb_spec c 0); [done |].
  destruct i as [| i]; simpl in Hi.
  - injection Hi as ->. rewrite assign_batches_other by done. cbn [fst snd].
    rewrite register_url_lookup, decide_True by done.
    by rewrite Nat.add_0_r.
  - rewrite (IH _ i) by done. cbn [fst snd]. rewrite length_app. simpl.
    do 3 f_equal. lia.
Qed.

(** The loop raises before it registers anything when the capacity is 0. *)
Lemma assign_batches_zero (m : Z) (todo : list string) (st : Metadata * list string) :
  assign_batches 0 m todo st =
  (st, match todo with [] => None | _ => Some ZeroDivisionError end).
Proof. by destruct todo. Qed.

Section Planning.

Variable url_path_join : string -> string -> string.
Variable get_s3_bucket_key_names : string -> string * string.

Local Abbreviation initialize := (initialize url_path_join get_s3_bucket_key_names).
Local Abbreviation url_gen := (url_gen url_path_join get_s3_bucket_key_names).

(** C3: for a set [P] of new paths, a high-water mark [m] and a capacity
    [c >= 1], [initialize] ends normally with the requirements in sorted
    order, and the path at position [i] of the sorted sequence is registered
    under batch [m + 1 + i / c]; the sorted sequence, hence the assignment,
    is the same for every enumeration order of [P] and every ledger whose
    high-water mark is [m]. *)
Theorem batch_assignment_deterministic (w : World) (self : Task) (urls : list string) :
  let loaded := load_metadata w in
  let P := List.filter (fun url => negb (includes_url url loaded)) urls in
  let m := max_batch_id loaded in
  let c := files_per_batch self in
  chain (List.map (url_gen w) (source self)) = Ok urls ->
  NoDup P ->
  1 <= c ->
  exists self',
    initialize w self = (self', None) /\
    requirements self' = sorted P /\
    Sorted url_le (sorted P) /\
    sorted P ≡ₚ P /\
    (forall i path,
       sorted P !! i = Some path ->
       url_to_batch_id (metadata self') !! path = Some (m + 1 + Z.of_nat i / c)) /\
    (forall ledger' P' path,
       P' ≡ₚ P -> max_batch_id ledger' = m -> path ∈ P ->
       url_to_batch_id (fst (fst (plan_batches c ledger' P'))) !! path =
       url_to_batch_id (metadata self') !! path).
Proof.
  intros loaded P m c Hurls Hnodup Hc.
  assert (Hc0 : c <> 0) by lia.
  assert (Hsorted_nodup : NoDup (sorted P)) by (by rewrite sorted_Permutation).
  assert (Hlookup : forall ledger i path,
            max_batch_id ledger = m -> sorted P !! i = Some path ->
            url_to_batch_id (fst (fst (plan_batches c ledger P))) !! path =
            Some (m + 1 + Z.of_nat i / c)).
  { intros ledger i path Hm Hi. unfold plan_batches.
    rewrite (assign_batches_lookup _ _ _ _ i path) by done.
    simpl. by rewrite Hm. }
  eexists. split; [| split; [| split; [| split; [| split]]]].
  - unfold initialize. rewrite (initialize_from_found _ _ _ _ _ _ Hurls). fold loaded P c.
    f_equal. unfold plan_batches. by apply assign_batches_nonzero.
  - simpl. unfold plan_batches. by rewrite assign_batches_requirements.
  - apply sorted_Sorted.
  - apply sorted_Permutation.
  - intros i path Hi. simpl. by apply Hlookup.
  - intros ledger' P' path Hperm Hm Hin. simpl.
    assert (Hpath : path ∈ sorted P) by (by rewrite sorted_Permutation).
    apply list_elem_of_lookup in Hpath as [i Hi].
    rewrite (Hlookup loaded i path) by done.
    unfold plan_batches. rewrite (sorted_unique P P') by done.
    rewrite (assign_batches_lookup _ _ _ _ i path) by done.
    simpl. by rewrite Hm.
Qed.

(** C8 (amended): a capacity of 0 is not checked.  [initialize] loads the
    ledger and lists the sources; with no new file it ends normally, with at
    least one it raises [ZeroDivisionError] at the first assignment.  In
    both cases nothing has been registered: the ledger is as loaded and
    [requirements] is empty. *)
Theorem zero_capacity_unchecked (w : World) (self : Task) (urls : list string) :
  files_per_batch self = 0 ->
  chain (List.map (url_gen w) (source self)) = Ok urls ->
  let found := List.filter (fun url => negb (includes_url url (load_metadata w))) urls in
  initialize w self =
  ({| source := source self; files_per_batch := 0; current_time := utcnow w;
      metadata := load_metadata w; requirements := [] |},
   match found with [] => None | _ => Some ZeroDivisionError end).
Proof.
  intros Hc Hurls found.
  unfold initialize. rewrite (initialize_from_found _ _ _ _ _ _ Hurls). fold found.
  unfold plan_batches. rewrite Hc, assign_batches_zero. simpl. f_equal.
  destruct found as [| url found'] eqn:Hfound; [done |].
  destruct (sorted (url :: found')) eqn:Hs; [| done].
  apply (proj1 (sorted_nil_iff _)) in Hs. discriminate Hs.
Qed.

End Planning.

(** ** Dicts *)

Lemma dict_get_set (k k' : string) (v : json) (d : Dict.t) :
  Dict.get k (Dict.set k' v d) = if String.eqb k k' then Some v else Dict.get k d.
Proof.
  induction d as [| [k'' v''] rest IH]; simpl.
  - by destruct (String.eqb k k').
  - destruct (String.eqb_spec k' k'') as [<- | Hne]; simpl.
    + by destruct (String.eqb k k').
    + rewrite IH. destruct (String.eqb_spec k k'') as [<- | _]; [| done].
      by rewrite (proj2 (String.eqb_neq k k')).
Qed.

Lemma dict_get_setdefault (k k' : string) (v : json) (d : Dict.t) :
  Dict.get k (snd (Dict.setdefault k' v d)) =
  match Dict.get k' d with
  | Some _ => Dict.get k d
  | None => if String.eqb k k' then Some v else Dict.get k d
  end.
Proof.
  unfold Dict.setdefault. destruct (Dict.get k' d); simpl; [done |].
  apply dict_get_set.
Qed.

Lemma dict_setdefault_value (k : string) (v : json) (d : Dict.t) :
  Dict.get k (snd (Dict.setdefault k v d)) = Some (fst (Dict.setdefault k v d)).
Proof.
  unfold Dict.setdefault. destruct (Dict.get k d) eqn:Hget; simpl; [done |].
  by rewrite dict_get_set, String.eqb_refl.
Qed.

(** ** The mapper *)

Section Mapper.

Variable url_path_join : string -> string -> string.
Variable get_s3_bucket_key_names : string -> string * string.
Variable parse_json_event : string -> json.
Variable get_event_time_string : json -> option string.
Variable cjson_decode : string -> option json.
Variable cjson_encode : json -> string.
Variable md5_hexdigest : string -> string.

Local Abbreviation mapper_event' :=
  (mapper_event parse_json_event get_event_time_string cjson_decode md5_hexdigest).
Local Abbreviation mapper' :=
  (mapper parse_json_event get_event_time_string cjson_decode cjson_encode md5_hexdigest).

(** What is known of a line for which [mapper_event] emits. *)
Lemma mapper_event_emits (now : string) (table : gmap string Z) (input_file : option string)
    (line date : string) (batch_id : Z) (event : Dict.t) :
  mapper_event' now table input_file line = Ok (Some ((date, batch_id), event)) ->
  exists parsed time path metadata,
    parse_json_event line = JDict parsed /\
    get_event_time_string (JDict parsed) = Some time /\
    date = date_portion time /\
    input_file = Some path /\
    table !! path = Some batch_id /\
    Dict.get "time" event = Some (JStr time) /\
    Dict.get "date" event =
      Some (match Dict.get "date" parsed with Some v => v | None => JStr date end) /\
    Dict.get "metadata" event = Some (JDict metadata) /\
    Dict.get "batch_id" metadata = Some (JInt batch_id) /\
    Dict.get "original_file" metadata = Some (JStr path).
Proof.
  unfold mapper_event. intros H.
  destruct (negb (truthy (parse_json_event line))); [discriminate |].
  destruct (py_in "event_type" (parse_json_event line)) as [[|] | e]; simpl in H;
    try discriminate.
  destruct (parse_json_event line) as [| | | | | | parsed] eqn:Hparsed;
    try (destruct (get_event_time_string _) as [t |];
         [destruct (String.eqb t ""); discriminate | discriminate]).
  destruct (get_event_time_string (JDict parsed)) as [time |] eqn:Htime; [| discriminate].
  destruct (String.eqb time ""); [discriminate |].
  assert (Hdate : index (Py.split "T" time) 0 = Ok (date_portion time)).
  { unfold index, date_portion. destruct (Py.split "T" time) eqn:Hs; [| done].
    destruct time; simpl in Hs; [done |]. repeat case_match; done. }
  rewrite Hdate in H. simpl in H.
  set (ev1 := snd (Dict.setdefault "date" (JStr (date_portion time))
                     (Dict.set "time" (JStr time) parsed))) in *.
  destruct (Dict.setdefault "metadata" (JDict []) ev1) as [mv ev2] eqn:Hmeta.
  destruct mv as [| | | | | | md0]; try discriminate.
  destruct input_file as [path |]; simpl in H; [| discriminate].
  unfold get_batch_id in H.
  destruct (table !! path) as [b |] eqn:Hlookup; simpl in H; [| discriminate].
  set (md := Dict.set "batch_id" (JInt b) _) in H.
  set (ev3 := snd (Dict.setdefault "context" (JDict []) (Dict.set "metadata" (JDict md) ev2))) in H.
  assert (Hev3 : forall k, String.eqb k "context" = false -> String.eqb k "metadata" = false ->
                   Dict.get k ev3 = Dict.get k ev1).
  { intros k Hk1 Hk2. subst ev3. rewrite dict_get_setdefault, Hk1.
    assert (Dict.get k (Dict.set "metadata" (JDict md) ev2) = Dict.get k ev1) as ->.
    { rewrite dict_get_set, Hk2.
      replace ev2 with (snd (Dict.setdefault "metadata" (JDict []) ev1)) by (by rewrite Hmeta).
      rewrite dict_get_setdefault, Hk2. by destruct (Dict.get "metadata" ev1). }
    by destruct (Dict.get "context" _). }
  assert (Hmd3 : Dict.get "metadata" ev3 = Some (JDict md)).
  { subst ev3. rewrite dict_get_setdefault. simpl.
    rewrite !dict_get_set. simpl. by destruct (Dict.get "context" _). }
  assert (Hfinal : exists ev4, event = ev4 /\ date = date_portion time /\ batch_id = b /\
            forall k, String.eqb k "event" = false -> Dict.get k ev4 = Dict.get k ev3).
  { destruct (Dict.get "event" ev3) as [[| | | | content | |] |];
      try (injection H as <- <- <-; eexists; by repeat split).
    destruct (String.eqb content ""); injection H as <- <- <-; eexists; repeat split.
    intros k Hk. by rewrite dict_get_set, Hk. }
  destruct Hfinal as (ev4 & -> & -> & -> & Hev4).
  exists parsed, time, path, md. repeat split; try done.
  - rewrite Hev4, Hev3 by done. subst ev1.
    rewrite dict_get_setdefault, !dict_get_set. simpl.
    by destruct (Dict.get "date" parsed).
  - rewrite Hev4, Hev3 by done. subst ev1.
    rewrite dict_get_setdefault, !dict_get_set. simpl.
    by destruct (Dict.get "date" parsed).
  - by rewrite Hev4.
  - subst md. by rewrite dict_get_set.
  - subst md. by rewrite !dict_get_set.
Qed.

(** C7 (amended): for every line the mapper emits, the [time] field of the
    record is the normalized timestamp and the date of the emission key is
    the part of that timestamp before its first ['T']; the [date] field of
    the record is that date when the parsed event has no [date] field, and
    is the event's own [date] field when it has one. *)
Theorem emitted_date (now : string) (table : gmap string Z) (input_file : option string)
    (line date out : string) (batch_id : Z) :
  mapper' now table input_file line = Ok [((date, batch_id), out)] ->
  exists parsed time event,
    parse_json_event line = JDict parsed /\
    get_event_time_string (JDict parsed) = Some time /\
    out = cjson_encode (JDict event) /\
    Dict.get "time" event = Some (JStr time) /\
    date = date_portion time /\
    Dict.get "date" event =
      Some (match Dict.get "date" parsed with
            | Some own => own
            | None => JStr (date_portion time)
            end).
Proof.
  unfold mapper. intros H.
  destruct (mapper_event' now table input_file line) as [[[[d b] event] |] | e] eqn:Hev;
    simpl in H; try discriminate.
  injection H as -> -> <-.
  apply mapper_event_emits in Hev
    as (parsed & time & path & md & Hparsed & Htime & -> & _ & _ & Ht & Hd & _).
  exists parsed, time, event. by repeat split.
Qed.

(** C2: once [initialize] has ended normally, for a line read from a file
    whose path the ledger maps to batch [b], whatever the mapper emits
    carries [b]: [get_batch_id] returns [b], the batch of the emission key
    is [b], and the [metadata] of the record has [batch_id] [b] and
    [original_file] the path. *)
Theorem mapper_uses_planned_batch (w : World) (self self' : Task) (path : string) (b : Z)
    (line date out : string) (batch_id : Z) :
  initialize url_path_join get_s3_bucket_key_names w self = (self', None) ->
  url_to_batch_id (metadata self') !! path = Some b ->
  mapper' (current_time self') (path_to_batch self') (Some path) line =
    Ok [((date, batch_id), out)] ->
  get_batch_id (path_to_batch self') path = Ok b /\
  batch_id = b /\
  exists event metadata,
    out = cjson_encode (JDict event) /\
    Dict.get "metadata" event = Some (JDict metadata) /\
    Dict.get "batch_id" metadata = Some (JInt b) /\
    Dict.get "original_file" metadata = Some (JStr path).
Proof.
  intros _ Hreg H.
  assert (Hget : get_batch_id (path_to_batch self') path = Ok b).
  { unfold get_batch_id, path_to_batch. by rewrite Hreg. }
  unfold mapper in H.
  destruct (mapper_event' (current_time self') (path_to_batch self') (Some path) line)
    as [[[[d bid] event] |] | e] eqn:Hev; simpl in H; try discriminate.
  injection H as -> -> <-.
  apply mapper_event_emits in Hev
    as (parsed & time & path' & md & _ & _ & _ & [= <-] & Htable & _ & _ & Hmd & Hbid & Hfile).
  unfold path_to_batch in Htable. rewrite Hreg in Htable. injection Htable as <-.
  split; [done |]. split; [done |]. by exists event, md.
Qed.

End Mapper.

(** ** [run] *)

(** C4: the ledger is written by [run] only after the map/reduce job has
    ended normally, and then once.  When the job raises, [run] raises the
    same exception and the metadata target is as it was; when the job ends
    normally, the target holds the serialized ledger and has been written
    exactly once.  (The job itself is taken not to touch the target.) *)
Theorem ledger_persisted_after_success
    (super_run : World -> Task -> World * option exn) (w : World) (self : Task) :
  metadata_target (fst (super_run w self)) = metadata_target w ->
  metadata_writes (fst (super_run w self)) = metadata_writes w ->
  let after := fst (run super_run w self) in
  match snd (super_run w self) with
  | Some e =>
      snd (run super_run w self) = Some e /\
      metadata_target after = metadata_target w /\
      metadata_writes after = metadata_writes w
  | None =>
      snd (run super_run w self) = None /\
      metadata_target after = Stored (to_file (metadata self)) /\
      metadata_writes after = S (metadata_writes w)
  end.
Proof.
  intros Htarget Hwrites. unfold run.
  destruct (super_run w self) as [w' [e |]]; simpl in *.
  - by repeat split.
  - repeat split. by rewrite Hwrites.
Qed.

(** ** Serializing and loading the ledger *)

(** C1: the ledger that maps [a] to batch 1 is written as the line
    [1<TAB>a<NL>]; [from_file] reads that line back with the newline kept in
    the path, so the loaded ledger does not include [a]. *)
Theorem ledger_roundtrip_keeps_newline :
  let ledger := register_url 1 "a" Metadata_init in
  to_file ledger = "1" +:+ Sample.TAB +:+ "a" +:+ Sample.NL /\
  from_file (to_file ledger) = Ok (register_url 1 ("a" +:+ Sample.NL) Metadata_init) /\
  includes_url "a" ledger = true /\
  includes_url "a" (register_url 1 ("a" +:+ Sample.NL) Metadata_init) = false.
Proof. repeat split; vm_compute; reflexivity. Qed.

(** ** Source enumeration *)

(** The object-storage listing skips the keys of size 0. *)
Lemma s3_urls_skip_empty_keys (url_path_join : string -> string -> string)
    (get_s3_bucket_key_names : string -> string * string)
    (w : World) (source : string) (urls : list string) (url : string) :
  _get_s3_urls url_path_join get_s3_bucket_key_names w source = Ok urls ->
  url ∈ urls ->
  exists keys key_metadata,
    s3_list w (fst (get_s3_bucket_key_names source)) (snd (get_s3_bucket_key_names source))
      = Ok keys /\
    key_metadata ∈ keys /\
    0 < size key_metadata /\
    url = url_path_join source
            (Py.lstrip_char "/"
               (Py.drop_chars (String.length (snd (get_s3_bucket_key_names source)))
                              (key key_metadata))).
Proof.
  unfold _get_s3_urls.
  destruct (get_s3_bucket_key_names source) as [bucket_name root]. simpl.
  destruct (s3_list w bucket_name root) as [keys | e]; simpl; [| discriminate].
  intros [= <-] Hin.
  apply list_elem_of_omap in Hin as (key_metadata & Hkey & Hsome).
  exists keys, key_metadata. split; [done |]. split; [done |].
  destruct (Z.ltb_spec 0 (size key_metadata)); [| discriminate].
  injection Hsome as <-. by split.
Qed.

(** C6: the local and the HDFS listings do not look at sizes: a file of
    size 0 is yielded by [_get_local_urls] and by [_get_hdfs_urls], and
    becomes a requirement. *)
Theorem local_and_hdfs_urls_keep_empty_files :
  let w := Sample.world_with_empty_files in
  _get_local_urls w "/logs" = Ok ["/logs/empty.log"] /\
  file_size w "/logs/empty.log" = Some 0 /\
  _get_hdfs_urls w "hdfs://namenode/logs" = Ok ["hdfs://namenode/logs/empty.log"] /\
  file_size w "hdfs://namenode/logs/empty.log" = Some 0 /\
  _get_requirements Sample.url_path_join Sample.get_s3_bucket_key_names w
      (Sample.task ["/logs"; "hdfs://namenode/logs"] 2)
    = Ok ["/logs/empty.log"; "hdfs://namenode/logs/empty.log"].
Proof. repeat split; vm_compute; reflexivity. Qed.

(** ** Counterexamples to the claims as first stated *)

(** C7 as stated fails: an event that comes with a [date] field of its own
    keeps it, whatever its [time]. *)
Lemma emitted_date_counterexample :
  ~ (forall (parse_json_event : string -> json)
            (get_event_time_string : json -> option string)
            (cjson_decode : string -> option json) (md5_hexdigest : string -> string)
            (now : string) (table : gmap string Z) (input_file : option string)
            (line date : string) (batch_id : Z) (event : Dict.t),
       mapper_event parse_json_event get_event_time_string cjson_decode md5_hexdigest
                    now table input_file line = Ok (Some ((date, batch_id), event)) ->
       exists time,
         Dict.get "time" event = Some (JStr time) /\
         Dict.get "date" event = Some (JStr (date_portion time)) /\
         date = date_portion time).
Proof.
  intros Hclaim.
  pose (table := {["/logs/a.log" := 1]} : gmap string Z).
  destruct (mapper_event Sample.parse_json_event Sample.get_event_time_string
              Sample.cjson_decode Sample.md5_hexdigest
              "now" table (Some "/logs/a.log") Sample.dated_line)
    as [[[[date batch_id] event] |] | e] eqn:Hrun; try (vm_compute in Hrun; discriminate).
  destruct (Hclaim _ _ _ _ _ _ _ _ _ _ _ Hrun) as (time & Htime & Hdate & _).
  vm_compute in Hrun. injection Hrun as <- <- <-.
  vm_compute in Htime. injection Htime as <-.
  vm_compute in Hdate. discriminate.
Qed.

(** C8 as stated fails: with a capacity of 0 and a source directory without
    files, [initialize] ends normally. *)
Lemma zero_capacity_counterexample :
  ~ (forall (url_path_join : string -> string -> string)
            (get_s3_bucket_key_names : string -> string * string)
            (w : World) (self : Task),
       files_per_batch self = 0 ->
       exists e, snd (initialize url_path_join get_s3_bucket_key_names w self) = Some e).
Proof.
  intros Hclaim.
  destruct (Hclaim Sample.url_path_join Sample.get_s3_bucket_key_names
              Sample.world (Sample.task ["/archive"] 0) eq_refl) as [e He].
  vm_compute in He. discriminate.
Qed.

(** ** The theorems at sample inputs *)

Lemma ledger_invariant_witness :
  let calls := [(1, "a"); (2, "b"); (1, "c")] in
  (forall call, call ∈ calls -> 0 <= fst call) /\
  max_batch_id (register_all calls Metadata_init) = 2 /\
  (forall url batch_id,
     url_to_batch_id (register_all calls Metadata_init) !! url = Some batch_id ->
     batch_id <= 2) /\
  url_to_batch_id (register_all calls Metadata_init) !! "b" = Some 2.
Proof.
  intros calls.
  assert (Hpos : forall call, call ∈ calls -> 0 <= fst call).
  { apply Forall_forall. repeat constructor; simpl; lia. }
  split; [exact Hpos |].
  destruct (ledger_invariant calls Hpos) as (_ & _ & Hbound & _ & Hlast & _).
  split; [reflexivity |]. split; [exact Hbound |].
  apply (Hlast [(1, "a")] [(1, "c")] 2 "b" eq_refl).
  intros Hin. simpl in Hin. apply list_elem_of_singleton in Hin. discriminate.
Defined.

Lemma from_file_fails_on_malformed_line_witness :
  let text := "1" +:+ Sample.TAB +:+ "a" +:+ Sample.NL +:+ "oops" +:+ Sample.NL in
  let line := "oops" +:+ Sample.NL in
  line ∈ Py.readlines text /\
  (Py.tab ∉ chars line) /\
  raised (from_file text) /\
  load_metadata (with_metadata_target (Stored text) Sample.world) = Metadata_init.
Proof.
  intros text line.
  assert (Hin : line ∈ Py.readlines text) by (vm_compute; repeat constructor).
  assert (Hnotab : Py.tab ∉ chars line).
  { vm_compute. intros H. repeat (apply elem_of_cons in H as [H | H]; [discriminate |]).
    by apply elem_of_nil in H. }
  split; [exact Hin |]. split; [exact Hnotab |].
  exact (from_file_fails_on_malformed_line text line Sample.world Hin (or_introl Hnotab)).
Defined.

Lemma ledger_load_robust_witness :
  metadata_target Sample.world = Missing /\
  load_metadata Sample.world = Metadata_init /\
  initialize Sample.url_path_join Sample.get_s3_bucket_key_names
             Sample.world (Sample.task ["/logs"] 2) =
  initialize_from Sample.url_path_join Sample.get_s3_bucket_key_names
             Metadata_init Sample.world (Sample.task ["/logs"] 2).
Proof.
  split; [reflexivity |].
  destruct (ledger_load_robust Sample.url_path_join Sample.get_s3_bucket_key_names
              Sample.world (Sample.task ["/logs"] 2) (or_introl eq_refl))
    as (Hload & _ & _ & Hinit & _).
  split; [exact Hload | exact Hinit].
Defined.

Lemma batch_assignment_deterministic_witness :
  let urls := ["/logs/b.log"; "/logs/a.log"; "/logs/c.log"] in
  let self := Sample.task ["/logs"] 2 in
  chain (List.map (url_gen Sample.url_path_join Sample.get_s3_bucket_key_names Sample.world)
                  (source self)) = Ok urls /\
  NoDup urls /\
  1 <= files_per_batch self /\
  exists self',
    initialize Sample.url_path_join Sample.get_s3_bucket_key_names Sample.world self
      = (self', None) /\
    requirements self' = ["/logs/a.log"; "/logs/b.log"; "/logs/c.log"] /\
    url_to_batch_id (metadata self') !! "/logs/a.log" = Some 1 /\
    url_to_batch_id (metadata self') !! "/logs/b.log" = Some 1 /\
    url_to_batch_id (metadata self') !! "/logs/c.log" = Some 2.
Proof.
  intros urls self.
  assert (Hurls : chain (List.map (url_gen Sample.url_path_join
                    Sample.get_s3_bucket_key_names Sample.world) (source self)) = Ok urls)
    by reflexivity.
  assert (Hnodup : NoDup urls).
  { repeat (apply NoDup_cons; split;
            [intros H; repeat (apply elem_of_cons in H as [H | H]; [discriminate |]);
             by apply elem_of_nil in H |]).
    apply NoDup_nil_2. }
  assert (Hc : 1 <= files_per_batch self) by (simpl; lia).
  split; [exact Hurls |]. split; [exact Hnodup |]. split; [exact Hc |].
  destruct (batch_assignment_deterministic Sample.url_path_join
              Sample.get_s3_bucket_key_names Sample.world self urls Hurls Hnodup Hc)
    as (self' & Hinit & Hreqs & _ & _ & Hlookup & _).
  exists self'. split; [exact Hinit |]. split; [exact Hreqs |].
  split; [exact (Hlookup 0%nat _ eq_refl) |].
  split; [exact (Hlookup 1%nat _ eq_refl) | exact (Hlookup 2%nat _ eq_refl)].
Defined.

Lemma zero_capacity_unchecked_witness :
  let urls := ["/logs/b.log"; "/logs/a.log"; "/logs/c.log"] in
  let self := Sample.task ["/logs"] 0 in
  files_per_batch self = 0 /\
  chain (List.map (url_gen Sample.url_path_join Sample.get_s3_bucket_key_names Sample.world)
                  (source self)) = Ok urls /\
  initialize Sample.url_path_join Sample.get_s3_bucket_key_names Sample.world self =
  ({| source := ["/logs"]; files_per_batch := 0; current_time := utcnow Sample.world;
      metadata := Metadata_init; requirements := [] |}, Some ZeroDivisionError).
Proof.
  intros urls self.
  split; [reflexivity |]. split; [reflexivity |].
  exact (zero_capacity_unchecked Sample.url_path_join Sample.get_s3_bucket_key_names
           Sample.world self urls eq_refl eq_refl).
Defined.

Lemma emitted_date_witness :
  let table : gmap string Z := {["/logs/a.log" := 1]} in
  mapper Sample.parse_json_event Sample.get_event_time_string Sample.cjson_decode
         Sample.cjson_encode Sample.md5_hexdigest
         "now" table (Some "/logs/a.log") Sample.dated_line
    = Ok [(("2023-01-01", 1), "<event>")] /\
  exists parsed time event,
    Sample.parse_json_event Sample.dated_line = JDict parsed /\
    Sample.get_event_time_string (JDict parsed) = Some time /\
    "<event>" = Sample.cjson_encode (JDict event) /\
    Dict.get "time" event = Some (JStr time) /\
    "2023-01-01" = date_portion time /\
    Dict.get "date" event =
      Some (match Dict.get "date" parsed with
            | Some own => own
            | None => JStr (date_portion time)
            end).
Proof.
  intros table.
  split; [reflexivity |].
  exact (emitted_date Sample.parse_json_event Sample.get_event_time_string
           Sample.cjson_decode Sample.cjson_encode Sample.md5_hexdigest
           "now" table (Some "/logs/a.log") Sample.dated_line "2023-01-01" "<event>" 1
           eq_refl).
Defined.

Lemma mapper_uses_planned_batch_witness :
  let planned :=
    initialize Sample.url_path_join Sample.get_s3_bucket_key_names
               Sample.world (Sample.task ["/logs"] 2) in
  let self' := fst planned in
  planned = (self', None) /\
  url_to_batch_id (metadata self') !! "/logs/c.log" = Some 2 /\
  mapper Sample.parse_json_event Sample.get_event_time_string Sample.cjson_decode
         Sample.cjson_encode Sample.md5_hexdigest
         (current_time self') (path_to_batch self') (Some "/logs/c.log") Sample.plain_line
    = Ok [(("2023-01-01", 2), "<event>")] /\
  get_batch_id (path_to_batch self') "/logs/c.log" = Ok 2.
Proof.
  intros planned self'.
  assert (Hinit : planned = (self', None)) by reflexivity.
  assert (Hreg : url_to_batch_id (metadata self') !! "/logs/c.log" = Some 2) by reflexivity.
  assert (Hmap : mapper Sample.parse_json_event Sample.get_event_time_string
                   Sample.cjson_decode Sample.cjson_encode Sample.md5_hexdigest
                   (current_time self') (path_to_batch self') (Some "/logs/c.log")
                   Sample.plain_line
                 = Ok [(("2023-01-01", 2), "<event>")]) by reflexivity.
  split; [exact Hinit |]. split; [exact Hreg |]. split; [exact Hmap |].
  exact (proj1 (mapper_uses_planned_batch Sample.url_path_join
                  Sample.get_s3_bucket_key_names Sample.parse_json_event
                  Sample.get_event_time_string Sample.cjson_decode Sample.cjson_encode
                  Sample.md5_hexdigest Sample.world (Sample.task ["/logs"] 2) self'
                  "/logs/c.log" 2 Sample.plain_line "2023-01-01" "<event>" 2
                  Hinit Hreg Hmap)).
Defined.

Lemma ledger_persisted_after_success_witness :
  let self := fst (initialize Sample.url_path_join Sample.get_s3_bucket_key_names
                              Sample.world (Sample.task ["/logs"] 2)) in
  (snd (run Sample.failing_job Sample.world self) = Some IOError /\
   metadata_target (fst (run Sample.failing_job Sample.world self)) = Missing /\
   metadata_writes (fst (run Sample.failing_job Sample.world self)) = 0%nat) /\
  (snd (run Sample.successful_job Sample.world self) = None /\
   metadata_target (fst (run Sample.successful_job Sample.world self))
     = Stored (to_file (metadata self)) /\
   metadata_writes (fst (run Sample.successful_job Sample.world self)) = 1%nat).
Proof.
  intros self. split.
  - exact (ledger_persisted_after_success Sample.failing_job Sample.world self
             eq_refl eq_refl).
  - exact (ledger_persisted_after_success Sample.successful_job Sample.world self
             eq_refl eq_refl).
Defined.

(** * Further properties *)

(** ** Strings *)

Lemma append_nil_l (s : string) : EmptyString +:+ s = s.
Proof. reflexivity. Qed.

Lemma append_cons (c : ascii) (s t : string) : String c s +:+ t = String c (s +:+ t).
Proof. reflexivity. Qed.

Lemma append_nil_r (s : string) : s +:+ EmptyString = s.
Proof. induction s as [| c s IH]; [done |]. by rewrite append_cons, IH. Qed.

Lemma append_assoc (s t u : string) : (s +:+ t) +:+ u = s +:+ (t +:+ u).
Proof. induction s as [| c s IH]; [done |]. by rewrite !append_cons, IH. Qed.

Lemma chars_append (s t : string) : chars (s +:+ t) = chars s ++ chars t.
Proof. induction s as [| c s IH]; [done |]. rewrite append_cons. simpl. by rewrite IH. Qed.

Lemma chars_inj (s t : string) : chars s = chars t -> s = t.
Proof.
  revert t. induction s as [| c s IH]; intros [| d t]; simpl; try done.
  intros [= -> H]. f_equal. by apply IH.
Qed.

Lemma length_append (s t : string) :
  String.length (s +:+ t) = (String.length s + String.length t)%nat.
Proof. induction s as [| c s IH]; [done |]. rewrite append_cons. simpl. by rewrite IH. Qed.

Lemma append_inj_r (s t u : string) : s +:+ u = t +:+ u -> s = t.
Proof.
  intros H. apply chars_inj. apply (f_equal chars) in H.
  rewrite !chars_append in H. by apply app_inv_tail in H.
Qed.

(** A line followed by more text: the first line read is that line. *)
Lemma readlines_line (s rest : string) :
  Py.newline ∉ chars s ->
  Py.readlines (s +:+ String Py.newline rest) =
  (s +:+ String Py.newline EmptyString) :: Py.readlines rest.
Proof.
  induction s as [| c s IH]; intros Hnot.
  - rewrite !append_nil_l. reflexivity.
  - rewrite !append_cons. simpl.
    destruct (Ascii.eqb_spec c Py.newline) as [-> | _].
    + exfalso. apply Hnot. by left.
    + rewrite IH; [done |]. intros Hin. apply Hnot. by right.
Qed.

Lemma split_field (sep : ascii) (field rest : string) :
  sep ∉ chars field ->
  Py.split sep (field +:+ String sep rest) = field :: Py.split sep rest.
Proof.
  induction field as [| c s IH]; intros Hnot.
  - rewrite append_nil_l. simpl. by rewrite Ascii.eqb_refl.
  - rewrite append_cons. simpl.
    destruct (Ascii.eqb_spec c sep) as [-> | _].
    + exfalso. apply Hnot. by left.
    + rewrite IH; [done |]. intros Hin. apply Hnot. by right.
Qed.

(** ** [int] and [str] *)

Lemma pretty_N_char_digit (d : N) :
  (d < 10)%N -> Py.digit_value (pretty_N_char d) = Some (Z.of_N d).
Proof.
  intros Hd.
  assert (d = 0 \/ d = 1 \/ d = 2 \/ d = 3 \/ d = 4 \/ d = 5 \/ d = 6 \/ d = 7 \/
          d = 8 \/ d = 9)%N as Hcases by lia.
  repeat (destruct Hcases as [-> | Hcases]; [reflexivity |]). by subst.
Qed.

(** Reading back the digits that [pretty_N_go] puts in front of a string. *)
Lemma read_digits_pretty (x : N) :
  exists k : nat,
    ((0 < x)%N -> (0 < k)%nat) /\
    forall s acc n,
      Py.read_digits (pretty_N_go x s) acc n =
      Py.read_digits s (acc * 10 ^ Z.of_nat k + Z.of_N x) (n + k).
Proof.
  induction (N.lt_wf_0 x) as [x _ IH].
  destruct (decide (x = 0)%N) as [-> | Hx].
  - exists 0%nat. split; [lia |]. intros s acc n.
    rewrite pretty_N_go_0. f_equal; [| lia]. simpl. lia.
  - destruct (IH (x `div` 10)%N) as (k & _ & Hk).
    { apply N.div_lt; lia. }
    exists (S k). split; [lia |]. intros s acc n.
    rewrite pretty_N_go_step by lia. rewrite Hk. simpl.
    rewrite pretty_N_char_digit by (apply N.mod_lt; lia).
    f_equal; [| lia].
    rewrite Nat2Z.inj_succ, Z.pow_succ_r by lia.
    pose proof (N.div_mod x 10 ltac:(lia)) as Hdm.
    assert (Z.of_N x = 10 * Z.of_N (x `div` 10) + Z.of_N (x `mod` 10)) by lia.
    lia.
Qed.

(** Every character that [pretty_N_go] adds is a decimal digit. *)
Lemma pretty_N_go_chars (x : N) (s : string) (c : ascii) :
  c ∈ chars (pretty_N_go x s) -> c ∈ chars s \/ exists d, Py.digit_value c = Some d.
Proof.
  revert s. induction (N.lt_wf_0 x) as [x _ IH]. intros s Hin.
  destruct (decide (x = 0)%N) as [-> | Hx].
  - rewrite pretty_N_go_0 in Hin. by left.
  - rewrite pretty_N_go_step in Hin by lia.
    apply IH in Hin; [| apply N.div_lt; lia].
    destruct Hin as [Hin | Hd]; [| by right].
    simpl in Hin. apply elem_of_cons in Hin as [-> | Hin]; [| by left].
    right. eexists. apply pretty_N_char_digit. apply N.mod_lt. lia.
Qed.

(** The text of a positive number starts with a digit. *)
Lemma pretty_N_go_head (x : N) (s : string) :
  (0 < x)%N ->
  exists c rest d, pretty_N_go x s = String c rest /\ Py.digit_value c = Some d.
Proof.
  revert s. induction (N.lt_wf_0 x) as [x _ IH]. intros s Hx.
  rewrite pretty_N_go_step by done.
  destruct (decide (x `div` 10 = 0)%N) as [-> | Hdiv].
  - rewrite pretty_N_go_0. do 3 eexists. split; [done |].
    apply pretty_N_char_digit. apply N.mod_lt. lia.
  - apply IH; [apply N.div_lt; lia | by apply N.neq_0_lt_0].
Qed.

Lemma digit_not_space (c : ascii) (d : Z) :
  Py.digit_value c = Some d -> Py.isspace c = false.
Proof.
  intros H. destruct c as [[] [] [] [] [] [] [] []]; try reflexivity;
    vm_compute in H; discriminate.
Qed.

Lemma digit_not_sign (c : ascii) (d : Z) :
  Py.digit_value c = Some d -> c <> "-"%char /\ c <> "+"%char.
Proof. intros H. split; intros ->; vm_compute in H; discriminate. Qed.

(** [int] of the digits of a positive number. *)
Lemma int_digits (x : N) :
  (0 < x)%N -> Py.int (pretty_N_go x EmptyString) = Ok (Z.of_N x).
Proof.
  intros Hx.
  destruct (pretty_N_go_head x EmptyString Hx) as (c & rest & d & Hs & Hd).
  destruct (read_digits_pretty x) as (k & Hk & Hread).
  pose proof (digit_not_space c d Hd) as Hspace.
  pose proof (digit_not_sign c d Hd) as [Hminus Hplus].
  unfold Py.int. rewrite Hs. simpl. rewrite Hspace.
  assert (Hsign : (match c with
                   | "-"%char => (-1, rest)
                   | "+"%char => (1, rest)
                   | _ => (1, String c rest)
                   end) = (1, String c rest)).
  { destruct c as [[] [] [] [] [] [] [] []]; try reflexivity; congruence. }
  rewrite Hsign. cbn [Py.skip_spaces]. rewrite Hspace.
  rewrite <- Hs, Hread. simpl.
  destruct k; [lia |]. f_equal. lia.
Qed.

(** [int(str(n)) == n] *)
Lemma int_str (n : Z) : Py.int (Py.str n) = Ok n.
Proof.
  unfold Py.str, pretty, pretty_Z.
  destruct n as [| p | p].
  - reflexivity.
  - unfold pretty, pretty_positive, pretty, pretty_N.
    rewrite decide_False by done. rewrite int_digits by lia. f_equal.
  - unfold pretty, pretty_positive, pretty, pretty_N.
    rewrite decide_False by done.
    destruct (pretty_N_go_head (N.pos p) EmptyString ltac:(lia))
      as (c & rest & d & Hs & Hd).
    destruct (read_digits_pretty (N.pos p)) as (k & Hk & Hread).
    pose proof (digit_not_space c d Hd) as Hspace.
    unfold Py.int. rewrite append_cons, append_nil_l. cbn [Py.skip_spaces].
    replace (Py.isspace "-") with false by reflexivity.
    cbn match. rewrite Hs. cbn [Py.skip_spaces]. rewrite Hspace.
    rewrite <- Hs, Hread. simpl.
    destruct k; [lia |]. f_equal; lia.
Qed.

(** The text of a number has neither a tab nor a newline. *)
Lemma str_chars (n : Z) (c : ascii) :
  c ∈ chars (Py.str n) -> c = "-"%char \/ exists d, Py.digit_value c = Some d.
Proof.
  unfold Py.str, pretty, pretty_Z. destruct n as [| p | p].
  - simpl. intros Hin. apply list_elem_of_singleton in Hin as ->. right. by eexists.
  - unfold pretty, pretty_positive, pretty, pretty_N. rewrite decide_False by done.
    intros Hin. apply pretty_N_go_chars in Hin as [Hin | Hd]; [| by right].
    by apply elem_of_nil in Hin.
  - unfold pretty, pretty_positive, pretty, pretty_N. rewrite decide_False by done.
    rewrite append_cons, append_nil_l. simpl.
    intros Hin. apply elem_of_cons in Hin as [-> | Hin]; [by left |].
    apply pretty_N_go_chars in Hin as [Hin | Hd]; [| by right].
    by apply elem_of_nil in Hin.
Qed.

Lemma str_no_tab (n : Z) : Py.tab ∉ chars (Py.str n).
Proof.
  intros Hin. apply str_chars in Hin as [Heq | [d Hd]]; [discriminate |].
  vm_compute in Hd. discriminate.
Qed.

Lemma str_no_newline (n : Z) : Py.newline ∉ chars (Py.str n).
Proof.
  intros Hin. apply str_chars in Hin as [Heq | [d Hd]]; [discriminate |].
  vm_compute in Hd. discriminate.
Qed.

(** ** More on the ledger *)

Lemma register_all_nil (ledger : Metadata) : register_all [] ledger = ledger.
Proof. reflexivity. Qed.

Lemma register_all_cons (call : Z * string) (calls : list (Z * string)) (ledger : Metadata) :
  register_all (call :: calls) ledger =
  register_all calls (register_url (fst call) (snd call) ledger).
Proof. reflexivity. Qed.

(** A path that no call names keeps its entry. *)
Lemma register_all_lookup_other (calls : list (Z * string)) (ledger : Metadata)
    (url : string) :
  url ∉ (snd <$> calls) ->
  url_to_batch_id (register_all calls ledger) !! url = url_to_batch_id ledger !! url.
Proof.
  revert ledger. induction calls as [| call calls IH]; intros ledger Hnot; [done |].
  rewrite register_all_cons, IH.
  - rewrite register_url_lookup. destruct (decide (snd call = url)) as [Heq | _]; [| done].
    exfalso. apply Hnot. rewrite fmap_cons, <- Heq. by left.
  - intros Hin. apply Hnot. rewrite fmap_cons. by right.
Qed.

Lemma register_all_app (calls calls' : list (Z * string)) (ledger : Metadata) :
  register_all (calls ++ calls') ledger = register_all calls' (register_all calls ledger).
Proof. unfold register_all. apply foldl_app. Qed.

(** The last call that names a path decides its batch id. *)
Lemma register_all_lookup_last (before after : list (Z * string)) (b : Z) (url : string)
    (ledger : Metadata) :
  url ∉ (snd <$> after) ->
  url_to_batch_id (register_all (before ++ (b, url) :: after) ledger) !! url = Some b.
Proof.
  intros Hnot. rewrite register_all_app, register_all_cons. simpl.
  rewrite register_all_lookup_other by done.
  rewrite register_url_lookup. by rewrite decide_True.
Qed.

(** [max_batch_id] after a run of calls: at least what it was, at least
    every id of the run, and one of these values. *)
Lemma register_all_max (calls : list (Z * string)) (ledger : Metadata) :
  max_batch_id ledger <= max_batch_id (register_all calls ledger) /\
  (forall call, call ∈ calls -> fst call <= max_batch_id (register_all calls ledger)) /\
  (max_batch_id (register_all calls ledger) = max_batch_id ledger \/
   exists call, call ∈ calls /\ max_batch_id (register_all calls ledger) = fst call).
Proof.
  induction calls as [| call calls IH] using rev_ind.
  - rewrite register_all_nil. split; [lia |]. split; [| by left].
    intros call Hin. by apply elem_of_nil in Hin.
  - destruct IH as (IH1 & IH2 & IH3).
    rewrite register_all_snoc, register_url_max.
    split; [lia |]. split.
    + intros c Hc. apply elem_of_app in Hc as [Hc | Hc].
      * apply IH2 in Hc. lia.
      * apply list_elem_of_singleton in Hc as ->. lia.
    + destruct (Z.le_gt_cases (max_batch_id (register_all calls ledger)) (fst call)).
      * right. exists call. split; [| lia].
        apply elem_of_app. right. by apply list_elem_of_singleton.
      * destruct IH3 as [IH3 | (c & Hc & IH3)].
        -- left. lia.
        -- right. exists c. split; [apply elem_of_app; by left | lia].
Qed.

Lemma from_file_line_inv (line : string) (ledger loaded : Metadata) :
  from_file_line line ledger = Ok loaded ->
  exists call, line_entry line call /\ loaded = register_url (fst call) (snd call) ledger.
Proof.
  unfold from_file_line, index. intros H.
  destruct (Py.split Py.tab line) as [| field fields] eqn:Hsplit; [discriminate |].
  simpl in H. destruct (Py.int field) as [b | e] eqn:Hint; [| discriminate].
  simpl in H. destruct fields as [| url fields]; [discriminate |].
  simpl in H. injection H as <-.
  exists (b, url). split; [| done]. by exists field, fields.
Qed.

Lemma from_file_line_entry (line : string) (call : Z * string) (ledger : Metadata) :
  line_entry line call ->
  from_file_line line ledger = Ok (register_url (fst call) (snd call) ledger).
Proof.
  intros (field & fields & Hsplit & Hint). unfold from_file_line, index.
  rewrite Hsplit. simpl. rewrite Hint. reflexivity.
Qed.

Lemma line_entry_unique (line : string) (call call' : Z * string) :
  line_entry line call -> line_entry line call' -> call = call'.
Proof.
  intros (f & fs & Hs & Hi) (f' & fs' & Hs' & Hi').
  rewrite Hs in Hs'. injection Hs' as <- Hurl <-.
  rewrite Hi in Hi'. injection Hi' as Hb.
  destruct call, call'; simpl in *; congruence.
Qed.

(** What [from_file] computes when it does not raise: the [register_url]
    calls of the lines, in the order of the lines. *)
Lemma from_file_loop_inv (lines : list string) (ledger loaded : Metadata) :
  from_file_loop lines ledger = Ok loaded ->
  exists calls, Forall2 line_entry lines calls /\ loaded = register_all calls ledger.
Proof.
  revert ledger. induction lines as [| line lines IH]; intros ledger H; simpl in H.
  - injection H as <-. exists []. by split.
  - destruct (from_file_line line ledger) as [ledger' |] eqn:Hline; [| discriminate].
    simpl in H. apply from_file_line_inv in Hline as (call & Hentry & ->).
    apply IH in H as (calls & Hall & ->).
    exists (call :: calls). split; [by constructor | done].
Qed.

Lemma from_file_loop_entries (lines : list string) (calls : list (Z * string))
    (ledger : Metadata) :
  Forall2 line_entry lines calls ->
  from_file_loop lines ledger = Ok (register_all calls ledger).
Proof.
  intros Hall. revert ledger.
  induction Hall as [| line call lines calls Hentry _ IH]; intros ledger; [done |].
  simpl. rewrite (from_file_line_entry _ _ _ Hentry). simpl. apply IH.
Qed.

(** X1: a ledger that [from_file] returns satisfies the invariant of the
    ledger (every batch id is at most [max_batch_id], which is not
    negative), and each of its entries is written on some line of the file:
    the path is the second field of the line and the batch id is [int] of
    its first field. *)
Theorem from_file_loaded_invariant (text : string) (loaded : Metadata) :
  from_file text = Ok loaded ->
  0 <= max_batch_id loaded /\
  (forall url batch_id,
     url_to_batch_id loaded !! url = Some batch_id ->
     batch_id <= max_batch_id loaded /\
     exists line field fields,
       line ∈ Py.readlines text /\
       Py.split Py.tab line = field :: url :: fields /\
       Py.int field = Ok batch_id).
Proof.
  unfold from_file. intros H.
  apply from_file_loop_inv in H as (calls & Hall & ->).
  split.
  { pose proof (register_all_max calls Metadata_init) as (Hmax & _). simpl in Hmax. lia. }
  intros url b Hlookup. split.
  { by apply (bounded_register_all calls Metadata_init bounded_init url). }
  assert (Hin : exists call, call ∈ calls /\ snd call = url /\ fst call = b).
  { clear Hall. induction calls as [| call calls IH] using rev_ind.
    - rewrite register_all_nil in Hlookup. simpl in Hlookup.
      by rewrite lookup_empty in Hlookup.
    - rewrite register_all_snoc, register_url_lookup in Hlookup.
      destruct (decide (snd call = url)) as [Heq | _].
      + injection Hlookup as <-. exists call.
        split; [apply elem_of_app; right; by apply list_elem_of_singleton | done].
      + apply IH in Hlookup as (c & Hc & Hurl & Hb). exists c.
        split; [apply elem_of_app; by left | done]. }
  destruct Hin as (call & Hcall & <- & <-).
  apply list_elem_of_lookup in Hcall as [i Hi].
  destruct (Forall2_lookup_r _ _ _ _ _ Hall Hi) as (line & Hline & field & fields & Hs & Hint).
  exists line, field, fields. split; [| done].
  apply list_elem_of_lookup. by exists i.
Qed.

(** X2: when the same path is written on several lines, the last of them
    wins: if [from_file] does not raise, the batch id of a path is the one
    of the last line whose second field is that path. *)
Theorem from_file_last_line_wins (text line : string) (before after : list string)
    (field url : string) (fields : list string) (batch_id : Z) (loaded : Metadata) :
  Py.readlines text = before ++ line :: after ->
  Py.split Py.tab line = field :: url :: fields ->
  Py.int field = Ok batch_id ->
  (forall later, later ∈ after -> Py.split Py.tab later !! 1%nat <> Some url) ->
  from_file text = Ok loaded ->
  url_to_batch_id loaded !! url = Some batch_id.
Proof.
  unfold from_file. intros Hlines Hsplit Hint Hlater H.
  rewrite Hlines in H.
  apply from_file_loop_inv in H as (calls & Hall & ->).
  apply Forall2_app_inv_l in Hall as (cb & crest & Hb & Hrest & ->).
  apply Forall2_cons_inv_l in Hrest as (call & ca & Hentry & Ha & ->).
  assert (call = (batch_id, url)) as ->.
  { apply (line_entry_unique line); [done |]. by exists field, fields. }
  apply register_all_lookup_last.
  intros Hin. apply list_elem_of_fmap in Hin as (c & Hurl & Hc).
  apply list_elem_of_lookup in Hc as [i Hi].
  destruct (Forall2_lookup_r _ _ _ _ _ Ha Hi) as (l & Hl & f & fs & Hs & _).
  apply (Hlater l).
  - apply list_elem_of_lookup. by exists i.
  - rewrite Hs. simpl. by rewrite Hurl.
Qed.

(** X3: [register_url] is idempotent, and two registrations of different
    paths can be made in either order. *)
Theorem register_url_laws (b b' : Z) (url url' : string) (ledger : Metadata) :
  register_url b url (register_url b url ledger) = register_url b url ledger /\
  (url <> url' ->
   register_url b url (register_url b' url' ledger) =
   register_url b' url' (register_url b url ledger)).
Proof.
  split.
  - unfold register_url. simpl. f_equal.
    + apply insert_insert_eq.
    + destruct (Z.ltb_spec (max_batch_id ledger) b) as [Hlt | Hge].
      * by rewrite Z.ltb_irrefl.
      * destruct (Z.ltb_spec (max_batch_id ledger) b); [lia | done].
  - intros Hne. unfold register_url. simpl. f_equal.
    + by apply insert_insert_ne.
    + assert (Hmax : forall x y, (if Z.ltb x y then y else x) = Z.max x y).
      { intros x y. destruct (Z.ltb_spec x y); lia. }
      rewrite !Hmax. lia.
Qed.

(** ** Writing the ledger and reading it back *)

Lemma register_all_lookup_nodup (calls : list (Z * string)) (ledger : Metadata)
    (b : Z) (url : string) :
  NoDup (snd <$> calls) -> (b, url) ∈ calls ->
  url_to_batch_id (register_all calls ledger) !! url = Some b.
Proof.
  revert ledger. induction calls as [| call calls IH]; intros ledger Hnodup Hin.
  - by apply elem_of_nil in Hin.
  - rewrite fmap_cons in Hnodup. apply NoDup_cons in Hnodup as [Hnot Hnodup].
    rewrite register_all_cons.
    apply elem_of_cons in Hin as [<- | Hin]; [| by apply IH].
    simpl in *. rewrite register_all_lookup_other by done.
    rewrite register_url_lookup. by rewrite decide_True.
Qed.

Lemma to_file_line_append (url : string) (b : Z) (rest : string) :
  to_file_line (url, b) +:+ rest = (Py.str b +:+ String Py.tab url) +:+ String Py.newline rest.
Proof.
  unfold to_file_line. simpl. by rewrite !append_assoc, !append_cons, append_nil_l.
Qed.

Lemma to_file_line_alone (url : string) (b : Z) :
  to_file_line (url, b) = (Py.str b +:+ String Py.tab url) +:+ NL.
Proof. rewrite <- (append_nil_r (to_file_line (url, b))). apply to_file_line_append. Qed.

Lemma tab_not_newline : Py.tab <> Py.newline.
Proof. discriminate. Qed.

(** The lines of the text that [to_file] writes. *)
Lemma readlines_entries (entries : list (string * Z)) :
  (forall entry, entry ∈ entries -> Py.newline ∉ chars (fst entry)) ->
  Py.readlines (foldr (fun entry out => to_file_line entry +:+ out) EmptyString entries) =
  to_file_line <$> entries.
Proof.
  induction entries as [| [url b] entries IH]; intros Hnl; [done |].
  simpl. rewrite to_file_line_append, readlines_line.
  - rewrite IH by (intros e He; apply Hnl; by right).
    by rewrite <- to_file_line_alone.
  - rewrite chars_append. simpl. intros Hin.
    apply elem_of_app in Hin as [Hin | Hin]; [by apply str_no_newline in Hin |].
    apply elem_of_cons in Hin as [Heq | Hin]; [by apply tab_not_newline |].
    apply (Hnl (url, b)); [by left | done].
Qed.

(** [from_file] reads a line of [to_file] as its batch id and its path
    followed by the line terminator. *)
Lemma line_entry_to_file_line (url : string) (b : Z) :
  Py.tab ∉ chars url -> line_entry (to_file_line (url, b)) (b, url +:+ NL).
Proof.
  intros Htab. exists (Py.str b), []. split; [| apply int_str].
  unfold to_file_line. simpl snd. simpl fst.
  rewrite append_cons, split_field by apply str_no_tab.
  rewrite split_without_separator; [done |].
  rewrite chars_append. simpl. intros Hin.
  apply elem_of_app in Hin as [Hin | Hin]; [done |].
  apply list_elem_of_singleton in Hin. by apply tab_not_newline.
Qed.

(** The ledger read back from the text that [to_file] writes. *)
Lemma roundtrip_loaded (ledger : Metadata) :
  (forall url b,
     url_to_batch_id ledger !! url = Some b ->
     (Py.tab ∉ chars url) /\ (Py.newline ∉ chars url)) ->
  exists loaded,
    from_file (to_file ledger) = Ok loaded /\
    (forall url,
       url_to_batch_id loaded !! (url +:+ NL) = url_to_batch_id ledger !! url) /\
    (forall path,
       is_Some (url_to_batch_id loaded !! path) -> exists url, path = url +:+ NL) /\
    0 <= max_batch_id loaded /\
    (forall url b, url_to_batch_id ledger !! url = Some b -> b <= max_batch_id loaded) /\
    (max_batch_id loaded = 0 \/
     exists url, url_to_batch_id ledger !! url = Some (max_batch_id loaded)).
Proof.
  intros Hclean.
  set (entries := map_to_list (url_to_batch_id ledger)).
  set (calls := (fun entry : string * Z => (snd entry, fst entry +:+ NL)) <$> entries).
  assert (Hentries : forall url b, (url, b) ∈ entries <-> url_to_batch_id ledger !! url = Some b).
  { intros url b. apply elem_of_map_to_list. }
  assert (Hload : from_file (to_file ledger) = Ok (register_all calls Metadata_init)).
  { unfold from_file, to_file. fold entries. rewrite readlines_entries.
    - apply from_file_loop_entries. subst calls.
      apply Forall2_fmap, Forall_Forall2_diag, Forall_forall.
      intros [url b] Hin. apply line_entry_to_file_line.
      by apply (Hclean url b), Hentries.
    - intros [url b] Hin. by apply (Hclean url b), Hentries. }
  assert (Hkeys : forall path, path ∈ (snd <$> calls) ->
                    exists url b, path = url +:+ NL /\ (url, b) ∈ entries).
  { intros path Hin. subst calls. rewrite <- list_fmap_compose in Hin.
    apply list_elem_of_fmap in Hin as ([url b] & -> & Hin). by exists url, b. }
  assert (Hnodup : NoDup (snd <$> calls)).
  { subst calls. rewrite <- list_fmap_compose.
    assert (Heq : (snd ∘ (fun entry : string * Z => (snd entry, fst entry +:+ NL))) <$> entries
                  = (fun url => url +:+ NL) <$> (fst <$> entries)).
    { rewrite <- list_fmap_compose. by apply list_fmap_ext. }
    rewrite Heq. apply NoDup_fmap_2.
    - intros u u' H. by apply append_inj_r in H.
    - apply NoDup_fst_map_to_list. }
  exists (register_all calls Metadata_init).
  split; [done |]. split; [| split; [| split; [| split]]].
  - intros url. destruct (url_to_batch_id ledger !! url) as [b |] eqn:Hlookup.
    + apply register_all_lookup_nodup; [done |].
      subst calls. apply list_elem_of_fmap. exists (url, b). split; [done |].
      by apply Hentries.
    + rewrite register_all_lookup_other; [done |].
      intros Hin. apply Hkeys in Hin as (url' & b & Heq & Hin).
      apply append_inj_r in Heq as <-. apply Hentries in Hin. congruence.
  - intros path [b Hsome].
    destruct (decide (path ∈ (snd <$> calls))) as [Hin | Hnot].
    + apply Hkeys in Hin as (url & _ & -> & _). by exists url.
    + rewrite register_all_lookup_other in Hsome by done. simpl in Hsome.
      by rewrite lookup_empty in Hsome.
  - pose proof (register_all_max calls Metadata_init) as (Hmax & _). simpl in Hmax. lia.
  - intros url b Hlookup.
    pose proof (register_all_max calls Metadata_init) as (_ & Hall & _).
    apply (Hall (b, url +:+ NL)). subst calls.
    apply list_elem_of_fmap. exists (url, b). split; [done |]. by apply Hentries.
  - pose proof (register_all_max calls Metadata_init) as (_ & _ & [Hmax | (call & Hin & Hmax)]).
    + by left.
    + right. subst calls. apply list_elem_of_fmap in Hin as ([url b] & -> & Hin).
      exists url. simpl in Hmax. rewrite Hmax. by apply Hentries.
Qed.

(** X4: what a round trip through the metadata file does.  For a ledger
    whose paths have neither a tab nor a newline, [from_file] accepts the
    text written by [to_file]; the loaded ledger has one entry for each
    entry of the ledger, with the same batch id, under the path followed by
    a newline, and nothing else; its [max_batch_id] is the largest batch id
    of the mapping, or 0 for an empty or all-negative mapping. *)
Theorem from_file_to_file (ledger : Metadata) :
  (forall url b,
     url_to_batch_id ledger !! url = Some b ->
     (Py.tab ∉ chars url) /\ (Py.newline ∉ chars url)) ->
  exists loaded,
    from_file (to_file ledger) = Ok loaded /\
    (forall url,
       url_to_batch_id loaded !! (url +:+ NL) = url_to_batch_id ledger !! url) /\
    (forall path,
       is_Some (url_to_batch_id loaded !! path) -> exists url, path = url +:+ NL) /\
    0 <= max_batch_id loaded /\
    (forall url b, url_to_batch_id ledger !! url = Some b -> b <= max_batch_id loaded) /\
    (max_batch_id loaded = 0 \/
     exists url, url_to_batch_id ledger !! url = Some (max_batch_id loaded)).
Proof. apply roundtrip_loaded. Qed.

(** X6: what the next run sees.  When the metadata file holds what
    [to_file] wrote for a ledger whose paths have neither a tab nor a
    newline, the ledger that [initialize] loads includes none of these
    paths, nor any path without a newline: it includes a path of the
    written ledger only under the name that ends with a newline. *)
Theorem reloaded_ledger_forgets_paths (ledger : Metadata) (w : World) :
  (forall url b,
     url_to_batch_id ledger !! url = Some b ->
     (Py.tab ∉ chars url) /\ (Py.newline ∉ chars url)) ->
  metadata_target w = Stored (to_file ledger) ->
  (forall url, Py.newline ∉ chars url -> includes_url url (load_metadata w) = false) /\
  (forall url, includes_url (url +:+ NL) (load_metadata w) = includes_url url ledger).
Proof.
  intros Hclean Htarget.
  destruct (roundtrip_loaded ledger Hclean) as (loaded & Hload & Hsame & Hshape & _).
  assert (Hloaded : load_metadata w = loaded).
  { unfold load_metadata. rewrite Htarget. simpl. by rewrite Hload. }
  rewrite Hloaded. split.
  - intros url Hnl. unfold includes_url. apply bool_decide_eq_false. intros Hsome.
    apply Hshape in Hsome as [u ->]. apply Hnl. rewrite chars_append.
    apply elem_of_app. right. by left.
  - intros url. unfold includes_url. by rewrite Hsame.
Qed.

(** X5: [to_file] writes one line for each entry of the mapping: for a
    ledger whose paths have no newline, the text has as many lines as the
    mapping has paths, and the text of an empty ledger is empty. *)
Theorem to_file_one_line_per_entry (ledger : Metadata) :
  (forall url b, url_to_batch_id ledger !! url = Some b -> Py.newline ∉ chars url) ->
  length (Py.readlines (to_file ledger)) = base.size (url_to_batch_id ledger) /\
  (url_to_batch_id ledger = ∅ -> to_file ledger = EmptyString).
Proof.
  intros Hclean. split.
  - unfold to_file. rewrite readlines_entries.
    + by rewrite length_fmap, length_map_to_list.
    + intros [url b] Hin. apply (Hclean url b). by apply elem_of_map_to_list.
  - intros Hempty. unfold to_file. by rewrite Hempty, map_to_list_empty.
Qed.

(** ** More on planning *)

Lemma assign_batches_raised (c m : Z) (todo : list string) (st : Metadata * list string)
    (e : exn) :
  snd (assign_batches c m todo st) = Some e ->
  c = 0 /\ e = ZeroDivisionError /\ fst (assign_batches c m todo st) = st.
Proof.
  intros H. destruct (decide (c = 0)) as [-> | Hc].
  - rewrite assign_batches_zero in H |- *. simpl in *.
    destruct todo; [discriminate |]. by injection H as <-.
  - rewrite assign_batches_nonzero in H by done. discriminate.
Qed.

(** Planning never forgets an entry, and registers every path it is given. *)
Lemma assign_batches_includes (c m : Z) (todo : list string) (st : Metadata * list string)
    (url : string) :
  snd (assign_batches c m todo st) = None ->
  url ∈ todo \/ is_Some (url_to_batch_id (fst st) !! url) ->
  is_Some (url_to_batch_id (fst (fst (assign_batches c m todo st))) !! url).
Proof.
  revert st. induction todo as [| path rest IH]; intros st Hnone Hin; simpl in *.
  - destruct Hin as [Hin | Hsome]; [by apply elem_of_nil in Hin | done].
  - destruct (Py.div (Z.of_nat (length (snd st))) c) as [q | e]; [| discriminate].
    apply IH; [done |]. cbn [fst snd].
    destruct (decide (path = url)) as [-> | Hne].
    + right. rewrite register_url_lookup, decide_True by done. by eexists.
    + destruct Hin as [Hin | Hsome].
      * apply elem_of_cons in Hin as [Heq | Hin]; [congruence | by left].
      * right. by rewrite register_url_lookup, decide_False.
Qed.

Lemma assign_batches_max_mono (c m : Z) (todo : list string) (st : Metadata * list string) :
  max_batch_id (fst st) <= max_batch_id (fst (fst (assign_batches c m todo st))).
Proof.
  revert st. induction todo as [| path rest IH]; intros st; simpl; [lia |].
  destruct (Py.div (Z.of_nat (length (snd st))) c) as [q | e]; [| simpl; lia].
  etrans; [| apply IH]. cbn [fst]. rewrite register_url_max. lia.
Qed.

(** The high-water mark when the loop ends. *)
Lemma assign_batches_max (c m : Z) (todo : list string) (st : Metadata * list string) :
  0 < c ->
  max_batch_id (fst (fst (assign_batches c m todo st))) =
  match todo with
  | [] => max_batch_id (fst st)
  | _ => Z.max (max_batch_id (fst st))
               (m + (Z.of_nat (length (snd st)) + Z.of_nat (length todo) - 1) / c)
  end.
Proof.
  intros Hc. revert st. induction todo as [| path rest IH]; intros st; [done |].
  simpl assign_batches. unfold Py.div.
  destruct (Z.eqb_spec c 0) as [-> | _]; [lia |].
  rewrite IH. cbn [fst snd]. rewrite register_url_max, length_app. simpl length.
  destruct rest as [| path' rest'].
  - simpl. do 2 f_equal. f_equal. lia.
  - cbn [length].
    replace (Z.of_nat (length (snd st)) + Z.of_nat (S (S (length rest'))) - 1)
      with (Z.of_nat (length (snd st) + 1) + Z.of_nat (S (length rest')) - 1) by lia.
    assert (Hmono : Z.of_nat (length (snd st)) / c <=
                    (Z.of_nat (length (snd st) + 1) +
                     Z.of_nat (S (length rest')) - 1) / c).
    { apply Z.div_le_mono; lia. }
    lia.
Qed.

Section MorePlanning.

Variable url_path_join : string -> string -> string.
Variable get_s3_bucket_key_names : string -> string * string.

Local Abbreviation initialize' := (initialize url_path_join get_s3_bucket_key_names).
Local Abbreviation url_gen' := (url_gen url_path_join get_s3_bucket_key_names).
Local Abbreviation _get_requirements' :=
  (_get_requirements url_path_join get_s3_bucket_key_names).

Lemma initialize_found (w : World) (self : Task) (urls : list string) :
  chain (List.map (url_gen' w) (source self)) = Ok urls ->
  let loaded := load_metadata w in
  let found := List.filter (fun url => negb (includes_url url loaded)) urls in
  let planned := plan_batches (files_per_batch self) loaded found in
  initialize' w self =
  ({| source := source self; files_per_batch := files_per_batch self;
      current_time := utcnow w; metadata := fst (fst planned);
      requirements := snd (fst planned) |}, snd planned).
Proof. intros Hurls. unfold initialize. by apply initialize_from_found. Qed.

Lemma initialize_listing_raised (w : World) (self : Task) (e : exn) :
  chain (List.map (url_gen' w) (source self)) = Raise e ->
  initialize' w self =
  ({| source := source self; files_per_batch := files_per_batch self;
      current_time := utcnow w; metadata := load_metadata w; requirements := [] |},
   Some e).
Proof.
  intros Hraise. unfold initialize, initialize_from, _get_requirements. simpl.
  by rewrite Hraise.
Qed.

Lemma filter_not_included (ledger : Metadata) (urls : list string) (url : string) :
  url ∈ List.filter (fun url => negb (includes_url url ledger)) urls <->
  url ∈ urls /\ includes_url url ledger = false.
Proof.
  rewrite !list_elem_of_In, filter_In. by rewrite negb_true_iff.
Qed.

Lemma includes_url_spec (url : string) (ledger : Metadata) :
  includes_url url ledger = true <-> is_Some (url_to_batch_id ledger !! url).
Proof. unfold includes_url. apply bool_decide_eq_true. Qed.

(** X7: [initialize] never changes what the loaded ledger says: a path
    that the loaded ledger includes has the same batch id when [initialize]
    ends, normally or not, and [max_batch_id] is not lowered. *)
Theorem initialize_keeps_registered (w : World) (self : Task) (url : string) :
  includes_url url (load_metadata w) = true ->
  url_to_batch_id (metadata (fst (initialize' w self))) !! url =
    url_to_batch_id (load_metadata w) !! url /\
  max_batch_id (load_metadata w) <= max_batch_id (metadata (fst (initialize' w self))).
Proof.
  intros Hincl.
  destruct (chain (List.map (url_gen' w) (source self))) as [urls | e] eqn:Hchain.
  - rewrite (initialize_found _ _ _ Hchain). simpl. unfold plan_batches. split.
    + rewrite assign_batches_other; [done |].
      rewrite sorted_Permutation. intros Hin.
      apply filter_not_included in Hin as [_ Hnot]. congruence.
    + apply (assign_batches_max_mono _ _ _ (load_metadata w, [])).
  - rewrite (initialize_listing_raised _ _ _ Hchain). simpl. split; [done | lia].
Qed.

(** X8: when [initialize] ends normally, every path that the sources list
    is in the ledger, so that listing the sources again from the task as
    [initialize] left it finds nothing new. *)
Theorem initialize_registers_all_found (w : World) (self self' : Task) (urls : list string) :
  chain (List.map (url_gen' w) (source self)) = Ok urls ->
  initialize' w self = (self', None) ->
  (forall url, url ∈ urls -> includes_url url (metadata self') = true) /\
  _get_requirements' w self' = Ok [].
Proof.
  intros Hchain Hinit.
  rewrite (initialize_found _ _ _ Hchain) in Hinit. injection Hinit as <- Hnone.
  assert (Hall : forall url, url ∈ urls ->
            includes_url url
              (fst (fst (plan_batches (files_per_batch self) (load_metadata w)
                 (List.filter (fun url => negb (includes_url url (load_metadata w))) urls))))
            = true).
  { intros url Hin. apply includes_url_spec. unfold plan_batches.
    apply assign_batches_includes; [done |]. cbn [fst].
    destruct (includes_url url (load_metadata w)) eqn:Hincl.
    - right. by apply includes_url_spec.
    - left. rewrite sorted_Permutation. by apply filter_not_included. }
  split; [exact Hall |].
  unfold _get_requirements. simpl. rewrite Hchain. simpl. f_equal.
  apply elem_of_nil_inv. intros url Hin.
  apply filter_not_included in Hin as [Hin Hnot].
  simpl in Hnot. rewrite Hall in Hnot by done. discriminate.
Qed.

Lemma planned_lookup (c : Z) (ledger : Metadata) (found : list string) (i : nat)
    (path : string) :
  c <> 0 -> NoDup found -> sorted found !! i = Some path ->
  url_to_batch_id (fst (fst (plan_batches c ledger found))) !! path =
  Some (max_batch_id ledger + 1 + Z.of_nat i / c).
Proof.
  intros Hc Hnodup Hi. unfold plan_batches.
  rewrite (assign_batches_lookup _ _ _ _ i path); [done | done | | done].
  by rewrite sorted_Permutation.
Qed.

(** X9: the batches are consecutive runs of the sorted requirements, of at
    most [files_per_batch] paths each: along the requirements the batch ids
    start above the loaded high-water mark and never decrease, and two
    requirements of the same batch are less than [files_per_batch]
    positions apart. *)
Theorem batches_are_bounded_runs (w : World) (self : Task) (urls : list string)
    (i j : nat) (p q : string) :
  let loaded := load_metadata w in
  let found := List.filter (fun url => negb (includes_url url loaded)) urls in
  let self' := fst (initialize' w self) in
  chain (List.map (url_gen' w) (source self)) = Ok urls ->
  NoDup found ->
  1 <= files_per_batch self ->
  (i <= j)%nat ->
  requirements self' !! i = Some p ->
  requirements self' !! j = Some q ->
  exists bp bq,
    url_to_batch_id (metadata self') !! p = Some bp /\
    url_to_batch_id (metadata self') !! q = Some bq /\
    max_batch_id loaded < bp /\
    bp <= bq /\
    (bp = bq -> Z.of_nat j - Z.of_nat i < files_per_batch self).
Proof.
  intros loaded found self' Hchain Hnodup Hc Hij Hp Hq. subst self'.
  rewrite (initialize_found _ _ _ Hchain) in Hp, Hq |- *. fold loaded found in Hp, Hq |- *.
  cbn [fst requirements metadata] in *.
  set (c := files_per_batch self) in *.
  assert (Hc0 : c <> 0) by lia.
  unfold plan_batches in Hp, Hq. rewrite assign_batches_requirements in Hp, Hq by done.
  cbn [snd app] in Hp, Hq.
  exists (max_batch_id loaded + 1 + Z.of_nat i / c),
         (max_batch_id loaded + 1 + Z.of_nat j / c).
  split; [by apply planned_lookup |]. split; [by apply planned_lookup |].
  assert (0 <= Z.of_nat i / c) by (apply Z.div_pos; lia).
  assert (Z.of_nat i / c <= Z.of_nat j / c) by (apply Z.div_le_mono; lia).
  split; [lia |]. split; [lia |].
  intros Heq. assert (Hdiv : Z.of_nat i / c = Z.of_nat j / c) by lia.
  pose proof (Z.div_mod (Z.of_nat i) c Hc0) as Hi.
  pose proof (Z.div_mod (Z.of_nat j) c Hc0) as Hj.
  pose proof (Z.mod_pos_bound (Z.of_nat i) c ltac:(lia)).
  pose proof (Z.mod_pos_bound (Z.of_nat j) c ltac:(lia)).
  rewrite Hdiv in Hi. lia.
Qed.

(** X10: the high-water mark after planning: with [n] new paths and a
    capacity [c >= 1], [max_batch_id] is raised from [m] to
    [m + 1 + (n - 1) / c], that is by the number of batches needed for [n]
    paths, and is left at [m] when there is no new path. *)
Theorem high_water_mark_after_planning (w : World) (self : Task) (urls : list string) :
  let loaded := load_metadata w in
  let found := List.filter (fun url => negb (includes_url url loaded)) urls in
  let self' := fst (initialize' w self) in
  chain (List.map (url_gen' w) (source self)) = Ok urls ->
  1 <= files_per_batch self ->
  max_batch_id (metadata self') =
  match found with
  | [] => max_batch_id loaded
  | _ => max_batch_id loaded + 1 + (Z.of_nat (length found) - 1) / files_per_batch self
  end.
Proof.
  intros loaded found self' Hchain Hc. subst self'.
  rewrite (initialize_found _ _ _ Hchain). fold loaded found. cbn [fst metadata].
  unfold plan_batches. rewrite assign_batches_max by lia. cbn [fst snd length].
  assert (Hlen : length (sorted found) = length found) by (by rewrite sorted_Permutation).
  destruct found as [| url found'] eqn:Hfound; [done |].
  destruct (sorted (url :: found')) as [| s ss] eqn:Hsorted; [done |].
  rewrite Hlen. change (Z.of_nat 0) with 0. rewrite Z.add_0_l.
  assert (0 <= (Z.of_nat (length (url :: found')) - 1) / files_per_batch self).
  { apply Z.div_pos; simpl length; lia. }
  lia.
Qed.

Lemma chain_raised (gens : list (result (list string))) :
  (exists gen, gen ∈ gens /\ raised gen) -> raised (chain gens).
Proof.
  intros (gen & Hin & Hraised).
  induction gens as [| g gens IH]; [by apply elem_of_nil in Hin |].
  simpl. apply elem_of_cons in Hin as [<- | Hin].
  - by destruct gen.
  - destruct g as [urls |]; simpl; [| done].
    specialize (IH Hin). by destruct (chain gens).
Qed.

(** X11: a source that cannot be listed aborts [initialize]: when the
    listing of one of the sources raises, [initialize] raises, whatever the
    other sources hold, and nothing is planned (the ledger is as loaded and
    there is no requirement). *)
Theorem listing_failure_aborts (w : World) (self : Task) (failing : string) :
  failing ∈ source self ->
  raised (url_gen' w failing) ->
  exists e,
    initialize' w self =
    ({| source := source self; files_per_batch := files_per_batch self;
        current_time := utcnow w; metadata := load_metadata w; requirements := [] |},
     Some e).
Proof.
  intros Hin Hraised.
  assert (Hchain : raised (chain (List.map (url_gen' w) (source self)))).
  { apply chain_raised. exists (url_gen' w failing). split; [| done].
    apply list_elem_of_In, in_map. by apply list_elem_of_In. }
  destruct (chain (List.map (url_gen' w) (source self))) as [urls | e] eqn:Hc; [done |].
  exists e. by apply initialize_listing_raised.
Qed.

End MorePlanning.

(** ** [requires] and [complete] *)

Section RequiresComplete.

Variable url_path_join : string -> string -> string.
Variable get_s3_bucket_key_names : string -> string * string.

Local Abbreviation initialize' := (initialize url_path_join get_s3_bucket_key_names).
Local Abbreviation url_gen' := (url_gen url_path_join get_s3_bucket_key_names).
Local Abbreviation requires' := (requires url_path_join get_s3_bucket_key_names).
Local Abbreviation complete' := (complete url_path_join get_s3_bucket_key_names).

Lemma requires_sets_attribute (w : World) (obj : Task * bool) :
  snd (fst (requires' w obj)) = true.
Proof.
  unfold requires. destruct obj as [self [|]]; [done |].
  by destruct (initialize' w self) as [self' [e |]].
Qed.

(** X13: [requires] plans once.  After a first call, whatever its
    outcome, every later call returns the requirements stored in the task
    and leaves the task as it is, whatever the sources and the metadata
    file have become. *)
Theorem requires_plans_once (w w' : World) (obj : Task * bool) :
  let obj1 := fst (requires' w obj) in
  requires' w' obj1 = (obj1, Ok (requirements (fst obj1))).
Proof.
  intros obj1. pose proof (requires_sets_attribute w obj) as Hattr. fold obj1 in Hattr.
  unfold requires. destruct obj1 as [self1 has]. simpl in Hattr. by rewrite Hattr.
Qed.

(** An [initialize] that raises has planned nothing. *)
Lemma initialize_raised (w : World) (self : Task) (e : exn) :
  snd (initialize' w self) = Some e ->
  metadata (fst (initialize' w self)) = load_metadata w /\
  requirements (fst (initialize' w self)) = [].
Proof.
  destruct (chain (List.map (url_gen' w) (source self))) as [urls | e'] eqn:Hchain.
  - rewrite (initialize_found _ _ _ _ _ Hchain). cbn [fst snd metadata requirements].
    unfold plan_batches. intros Hraised.
    apply assign_batches_raised in Hraised as (_ & _ & ->). by split.
  - rewrite (initialize_listing_raised _ _ _ _ _ Hchain). by split.
Qed.

(** X14: a first call of [requires] that raises leaves a task that looks
    complete: nothing has been registered in its ledger, its stored
    requirements are empty, and a later call of [complete] returns [True]
    without raising, in any world. *)
Theorem complete_after_failed_requires (w w' : World) (self : Task) (e : exn) :
  snd (requires' w (self, false)) = Raise e ->
  let obj1 := fst (requires' w (self, false)) in
  metadata (fst obj1) = load_metadata w /\
  requires' w' obj1 = (obj1, Ok []) /\
  complete' w' obj1 = (obj1, Ok true).
Proof.
  unfold complete, requires.
  destruct (initialize' w self) as [self' [e' |]] eqn:Hinit; simpl; [| discriminate].
  intros _.
  destruct (initialize_raised w self e') as [Hmeta Hreqs]; [by rewrite Hinit |].
  rewrite Hinit in Hmeta, Hreqs. simpl in Hmeta, Hreqs.
  rewrite Hreqs. by repeat split.
Qed.

(** X15: with sources that can be listed and a capacity that is not 0, a
    first call of [complete] plans the run and returns [True] exactly when
    the sources hold no path that the loaded ledger does not include. *)
Theorem complete_iff_nothing_new (w : World) (self : Task) (urls : list string) :
  chain (List.map (url_gen' w) (source self)) = Ok urls ->
  files_per_batch self <> 0 ->
  snd (complete' w (self, false)) =
  Ok (forallb (fun url => includes_url url (load_metadata w)) urls).
Proof.
  intros Hchain Hc. unfold complete, requires.
  rewrite (initialize_found _ _ _ _ _ Hchain).
  set (found := List.filter (fun url => negb (includes_url url (load_metadata w))) urls).
  assert (Hnone : snd (plan_batches (files_per_batch self) (load_metadata w) found) = None)
    by (by apply assign_batches_nonzero).
  assert (Hreqs : snd (fst (plan_batches (files_per_batch self) (load_metadata w) found))
                  = sorted found)
    by (unfold plan_batches; by rewrite assign_batches_requirements).
  rewrite Hnone. simpl. rewrite Hreqs. f_equal.
  assert (Hlen : length (sorted found) = length found) by (by rewrite sorted_Permutation).
  rewrite Hlen. subst found. clear.
  induction urls as [| url urls IH]; [done |].
  simpl. destruct (includes_url url (load_metadata w)); simpl; [apply IH | done].
Qed.

End RequiresComplete.

(** ** The reducer *)

Lemma reducer_loop_written (values : list string) (b0 : Z) :
  fst (fst (reducer_loop values b0)) =
  foldr (fun value out => (strip value +:+ NL) +:+ out) EmptyString values.
Proof.
  revert b0. induction values as [| value rest IH]; intros b0; [done |].
  simpl. destruct (Z.ltb 1000000 (b0 + (len value + 1))).
  - specialize (IH 0). destruct (reducer_loop rest 0) as [[out incs] final].
    simpl in *. by rewrite IH.
  - specialize (IH (b0 + (len value + 1))).
    destruct (reducer_loop rest (b0 + (len value + 1))) as [[out incs] final].
    simpl in *. by rewrite IH.
Qed.

Lemma len_nonneg (s : string) : 0 <= len s.
Proof. unfold len. lia. Qed.

(** What the loop reports and what it still holds add up to what it started
    with and the raw sizes of the values; the amounts reported inside the
    loop are above the threshold, the amount held is not; and a value is
    either reported with an increment or part of what is held. *)
Lemma reducer_loop_counters (values : list string) (b0 : Z) :
  0 <= b0 <= 1000000 ->
  foldr Z.add 0 (snd (fst (reducer_loop values b0))) + snd (reducer_loop values b0) =
    b0 + foldr (fun value acc => len value + 1 + acc) 0 values /\
  Forall (fun amount => 1000000 < amount) (snd (fst (reducer_loop values b0))) /\
  0 <= snd (reducer_loop values b0) <= 1000000 /\
  (length (snd (fst (reducer_loop values b0))) +
     (if Z.ltb 0 (snd (reducer_loop values b0)) then 1 else 0)
   <= length values + (if Z.ltb 0 b0 then 1 else 0))%nat.
Proof.
  revert b0. induction values as [| value rest IH]; intros b0 Hb0.
  - simpl. split; [lia |]. split; [constructor |]. split; [lia |]. lia.
  - pose proof (len_nonneg value) as Hlen. simpl reducer_loop.
    destruct (Z.ltb_spec 1000000 (b0 + (len value + 1))) as [Hbig | Hsmall].
    + specialize (IH 0 ltac:(lia)).
      destruct (reducer_loop rest 0) as [[out incs] final].
      cbn [fst snd] in *. destruct IH as (Hsum & Hall & Hfinal & Hcount).
      split; [simpl; lia |]. split; [by constructor |]. split; [lia |].
      simpl in Hcount. simpl length.
      destruct (Z.ltb 0 final), (Z.ltb 0 b0); lia.
    + specialize (IH (b0 + (len value + 1)) ltac:(lia)).
      destruct (reducer_loop rest (b0 + (len value + 1))) as [[out incs] final].
      cbn [fst snd] in *. destruct IH as (Hsum & Hall & Hfinal & Hcount).
      split; [simpl; lia |]. split; [done |]. split; [lia |].
      simpl length.
      destruct (Z.ltb_spec 0 (b0 + (len value + 1))); [| lia].
      destruct (Z.ltb 0 final), (Z.ltb 0 b0); lia.
Qed.

Section ReducerProperties.

Variable url_path_join3 : string -> string -> string -> string.

Lemma reducer_counters (output_root : string) (key : string * Z) (values : list string) :
  counter_increments (reducer url_path_join3 output_root key values) =
  snd (fst (reducer_loop values 0)) ++
  (if Z.ltb 0 (snd (reducer_loop values 0)) then [snd (reducer_loop values 0)] else []).
Proof.
  unfold reducer. destruct key as [date_string batch_id].
  by destruct (reducer_loop values 0) as [[out incs] final].
Qed.

Lemma reducer_written (output_root : string) (key : string * Z) (values : list string) :
  written (reducer url_path_join3 output_root key values) =
  foldr (fun value out => (strip value +:+ NL) +:+ out) EmptyString values.
Proof.
  rewrite <- (reducer_loop_written values 0).
  unfold reducer. destruct key as [date_string batch_id].
  by destruct (reducer_loop values 0) as [[out incs] final].
Qed.

(** X16: the amounts that the reducer passes to [incr_counter] add up to
    the raw size of the values, each counted with one more byte for its
    line terminator; the size is that of the value as received, not of the
    stripped text that is written. *)
Theorem reducer_counters_sum (output_root : string) (key : string * Z)
    (values : list string) :
  foldr Z.add 0 (counter_increments (reducer url_path_join3 output_root key values)) =
  foldr (fun value acc => len value + 1 + acc) 0 values.
Proof.
  rewrite reducer_counters.
  pose proof (reducer_loop_counters values 0 ltac:(lia)) as (Hsum & _ & Hfinal & _).
  assert (Happ : forall l l', foldr Z.add 0 (l ++ l') = foldr Z.add 0 l + foldr Z.add 0 l').
  { intros l l'. induction l as [| x l IH]; simpl; lia. }
  rewrite Happ. destruct (Z.ltb_spec 0 (snd (reducer_loop values 0))); simpl; lia.
Qed.

(** X17: the counter is incremented by positive amounts only, at most once
    for each value: every increment but possibly the last is above
    1,000,000, and a last increment of at most 1,000,000 reports what is
    left when the values are exhausted.  Nothing is reported for an empty
    list of values. *)
Theorem reducer_counters_threshold (output_root : string) (key : string * Z)
    (values : list string) :
  exists above rest,
    counter_increments (reducer url_path_join3 output_root key values) = above ++ rest /\
    Forall (fun amount => 1000000 < amount) above /\
    (rest = [] \/ exists amount, rest = [amount] /\ 0 < amount <= 1000000) /\
    (length (above ++ rest) <= length values)%nat.
Proof.
  rewrite reducer_counters.
  pose proof (reducer_loop_counters values 0 ltac:(lia)) as (_ & Hall & Hfinal & Hcount).
  eexists _, _. split; [reflexivity |]. split; [exact Hall |]. split.
  - destruct (Z.ltb_spec 0 (snd (reducer_loop values 0))); [| by left].
    right. eexists. split; [reflexivity | lia].
  - rewrite length_app. simpl in Hcount.
    destruct (Z.ltb 0 (snd (reducer_loop values 0))); simpl length; lia.
Qed.

(** X18: the reducer writes one line for each value, in the order of the
    values: when no value has a newline inside its stripped text, reading
    the written text line by line gives back the stripped values, each
    followed by a newline (an empty line for a value made of blanks). *)
Theorem reducer_writes_one_line_per_value (output_root : string) (key : string * Z)
    (values : list string) :
  (forall value, value ∈ values -> Py.newline ∉ chars (strip value)) ->
  Py.readlines (written (reducer url_path_join3 output_root key values)) =
  (fun value => strip value +:+ NL) <$> values.
Proof.
  intros Hclean. rewrite reducer_written.
  induction values as [| value rest IH]; [done |].
  simpl. unfold NL at 1. rewrite append_assoc, append_cons, append_nil_l.
  rewrite readlines_line by (apply Hclean; by left).
  rewrite IH by (intros v Hv; apply Hclean; by right). done.
Qed.

End ReducerProperties.

(** ** More on the mapper *)

Lemma dict_has_get (k : string) (d : Dict.t) :
  Dict.has k d = match Dict.get k d with Some _ => true | None => false end.
Proof. reflexivity. Qed.

Lemma index_split_head (sep : ascii) (s : string) :
  index (Py.split sep s) 0 =
  Ok (match Py.split sep s with first :: _ => first | [] => EmptyString end).
Proof.
  unfold index. destruct (Py.split sep s) eqn:Hs; [| done].
  destruct s; simpl in Hs; [done |]. repeat case_match; done.
Qed.

Section MapperRecord.

Variable parse_json_event : string -> json.
Variable get_event_time_string : json -> option string.
Variable cjson_decode : string -> option json.
Variable cjson_encode : json -> string.
Variable md5_hexdigest : string -> string.

Local Abbreviation mapper_event' :=
  (mapper_event parse_json_event get_event_time_string cjson_decode md5_hexdigest).
Local Abbreviation mapper' :=
  (mapper parse_json_event get_event_time_string cjson_decode cjson_encode md5_hexdigest).

(** The record that [mapper_event] emits, field by field. *)
Lemma mapper_event_record (now : string) (table : gmap string Z) (input_file : option string)
    (line date : string) (batch_id : Z) (event : Dict.t) :
  mapper_event' now table input_file line = Ok (Some ((date, batch_id), event)) ->
  exists parsed time path given stamped,
    parse_json_event line = JDict parsed /\
    get_event_time_string (JDict parsed) = Some time /\
    input_file = Some path /\
    (Dict.get "metadata" parsed = None /\ given = [] \/
     Dict.get "metadata" parsed = Some (JDict given)) /\
    (* the event *)
    Dict.get "metadata" event = Some (JDict stamped) /\
    Dict.get "context" event =
      Some (match Dict.get "context" parsed with Some c => c | None => JDict [] end) /\
    Dict.get "event" event =
      match Dict.get "event" parsed with
      | Some (JStr content) =>
          if String.eqb content EmptyString then Some (JStr content)
          else Some (match cjson_decode content with
                     | Some decoded => decoded
                     | None => JDict []
                     end)
      | other => other
      end /\
    (forall k, k <> "time" -> k <> "date" -> k <> "metadata" -> k <> "context" ->
               k <> "event" -> Dict.get k event = Dict.get k parsed) /\
    (* its metadata *)
    Dict.get "last_modified" stamped = Some (JStr now) /\
    Dict.get "version" stamped =
      Some (match Dict.get "version" given with Some v => v | None => JStr VERSION end) /\
    Dict.get "id" stamped =
      Some (match Dict.get "id" given with
            | Some v => v
            | None => JStr (md5_hexdigest line)
            end) /\
    Dict.get "original_file" stamped = Some (JStr path) /\
    Dict.get "batch_id" stamped = Some (JInt batch_id) /\
    (forall k, k <> "version" -> k <> "last_modified" -> k <> "id" ->
               k <> "original_file" -> k <> "batch_id" ->
               Dict.get k stamped = Dict.get k given).
Proof.
  unfold mapper_event. intros H.
  destruct (negb (truthy (parse_json_event line))); [discriminate |].
  destruct (py_in "event_type" (parse_json_event line)) as [[|] | e]; simpl in H;
    try discriminate.
  destruct (parse_json_event line) as [| | | | | | parsed] eqn:Hparsed;
    try (destruct (get_event_time_string _) as [t |];
         [destruct (String.eqb t ""); discriminate | discriminate]).
  destruct (get_event_time_string (JDict parsed)) as [time |] eqn:Htime; [| discriminate].
  destruct (String.eqb time ""); [discriminate |].
  rewrite index_split_head in H. simpl in H.
  fold (date_portion time) in H.
  set (ev1 := snd (Dict.setdefault "date" (JStr (date_portion time))
                     (Dict.set "time" (JStr time) parsed))) in *.
  assert (Hev1 : forall k, String.eqb k "time" = false -> String.eqb k "date" = false ->
                   Dict.get k ev1 = Dict.get k parsed).
  { intros k Hk1 Hk2. subst ev1. rewrite dict_get_setdefault, !dict_get_set, Hk1, Hk2.
    by destruct (if String.eqb "date" "time" then _ else _). }
  destruct (Dict.setdefault "metadata" (JDict []) ev1) as [mv ev2] eqn:Hmeta.
  destruct mv as [| | | | | | given]; try discriminate.
  destruct input_file as [path |]; simpl in H; [| discriminate].
  unfold get_batch_id in H.
  destruct (table !! path) as [b |] eqn:Hlookup; simpl in H; [| discriminate].
  set (md2 := Dict.set "last_modified" (JStr now)
                (snd (Dict.setdefault "version" (JStr VERSION) given))) in H.
  set (md3 := if Dict.has "id" md2 then md2
              else Dict.set "id" (JStr (compute_hash md5_hexdigest line)) md2) in H.
  set (md := Dict.set "batch_id" (JInt b) (Dict.set "original_file" (JStr path) md3)) in H.
  set (ev3 := snd (Dict.setdefault "context" (JDict [])
                     (Dict.set "metadata" (JDict md) ev2))) in H.
  (* the metadata found in the parsed event *)
  assert (Hgiven : Dict.get "metadata" parsed = None /\ given = [] \/
                   Dict.get "metadata" parsed = Some (JDict given)).
  { unfold Dict.setdefault in Hmeta. rewrite (Hev1 "metadata") in Hmeta by done.
    destruct (Dict.get "metadata" parsed) as [v |].
    - injection Hmeta as -> _. by right.
    - injection Hmeta as <- _. by left. }
  assert (Hev2 : forall k, String.eqb k "metadata" = false -> Dict.get k ev2 = Dict.get k ev1).
  { intros k Hk.
    replace ev2 with (snd (Dict.setdefault "metadata" (JDict []) ev1)) by (by rewrite Hmeta).
    rewrite dict_get_setdefault, Hk. by destruct (Dict.get "metadata" ev1). }
  assert (Hev3 : forall k, String.eqb k "context" = false ->
                   Dict.get k ev3 = Dict.get k (Dict.set "metadata" (JDict md) ev2)).
  { intros k Hk. subst ev3. rewrite dict_get_setdefault, Hk.
    by destruct (Dict.get "context" _). }
  assert (Hcontext : Dict.get "context" ev3 =
            Some (match Dict.get "context" parsed with Some c => c | None => JDict [] end)).
  { subst ev3. rewrite dict_get_setdefault. rewrite !dict_get_set. simpl.
    rewrite (Hev2 "context"), (Hev1 "context") by done.
    by destruct (Dict.get "context" parsed). }
  assert (Hpayload : Dict.get "event" ev3 = Dict.get "event" parsed).
  { rewrite Hev3, dict_get_set by done. simpl.
    by rewrite (Hev2 "event"), (Hev1 "event"). }
  assert (Hfinal : date = date_portion time /\ batch_id = b /\
            (forall k, String.eqb k "event" = false -> Dict.get k event = Dict.get k ev3) /\
            Dict.get "event" event =
              match Dict.get "event" parsed with
              | Some (JStr content) =>
                  if String.eqb content EmptyString then Some (JStr content)
                  else Some (match cjson_decode content with
                             | Some decoded => decoded
                             | None => JDict []
                             end)
              | other => other
              end).
  { rewrite <- Hpayload.
    destruct (Dict.get "event" ev3) as [[| | | | content | |] |] eqn:Hcontent;
      try (injection H as <- <- <-; by repeat split).
    destruct (String.eqb content ""); injection H as <- <- <-; repeat split; try done.
    - intros k Hk. by rewrite dict_get_set, Hk.
    - by rewrite dict_get_set. }
  destruct Hfinal as (-> & -> & Hother & Hevent).
  (* the stamped metadata *)
  assert (Hid : Dict.get "id" md3 =
            Some (match Dict.get "id" given with
                  | Some v => v
                  | None => JStr (md5_hexdigest line)
                  end)).
  { subst md3. rewrite dict_has_get.
    assert (Hid2 : Dict.get "id" md2 = Dict.get "id" given).
    { subst md2. rewrite dict_get_set, dict_get_setdefault. simpl.
      by destruct (Dict.get "version" given). }
    rewrite Hid2. destruct (Dict.get "id" given) as [v |] eqn:Hv.
    - by rewrite Hid2.
    - by rewrite dict_get_set. }
  assert (Hmd3 : forall k, String.eqb k "id" = false -> Dict.get k md3 = Dict.get k md2).
  { intros k Hk. subst md3. destruct (Dict.has "id" md2); [done |].
    by rewrite dict_get_set, Hk. }
  exists parsed, time, path, given, md.
  split; [done |]. split; [done |]. split; [done |]. split; [done |].
  split; [| split; [| split; [| split; [| split; [| split; [| split; [| split; [| split]]]]]]]].
  - rewrite Hother, Hev3 by done. by rewrite dict_get_set.
  - by rewrite Hother.
  - done.
  - intros k Hk1 Hk2 Hk3 Hk4 Hk5.
    apply String.eqb_neq in Hk1, Hk2, Hk3, Hk4, Hk5.
    rewrite Hother, Hev3, dict_get_set, Hk3, Hev2, Hev1 by done. done.
  - subst md. rewrite !dict_get_set. simpl. rewrite Hmd3 by done.
    subst md2. by rewrite dict_get_set.
  - subst md. rewrite !dict_get_set. simpl. rewrite Hmd3 by done.
    subst md2. rewrite dict_get_set. simpl. rewrite dict_get_setdefault.
    simpl. by destruct (Dict.get "version" given).
  - subst md. rewrite !dict_get_set. simpl. exact Hid.
  - subst md. by rewrite !dict_get_set.
  - subst md. by rewrite dict_get_set.
  - intros k Hk1 Hk2 Hk3 Hk4 Hk5.
    apply String.eqb_neq in Hk1, Hk2, Hk3, Hk4, Hk5.
    subst md. rewrite !dict_get_set, Hk5, Hk4, Hmd3 by done.
    subst md2. rewrite dict_get_set, Hk2, dict_get_setdefault, Hk1.
    by destruct (Dict.get "version" given).
Qed.

(** The head of [mapper_event], for a parsed event that is a dict with an
    [event_type] and a timestamp. *)
Lemma dated_event_metadata (time date : string) (parsed : Dict.t) :
  Dict.get "metadata"
    (snd (Dict.setdefault "date" (JStr date) (Dict.set "time" (JStr time) parsed))) =
  Dict.get "metadata" parsed.
Proof.
  rewrite dict_get_setdefault, !dict_get_set. simpl.
  by destruct (Dict.get "date" parsed).
Qed.

Lemma setdefault_metadata_value (time date : string) (parsed : Dict.t) :
  fst (Dict.setdefault "metadata" (JDict [])
         (snd (Dict.setdefault "date" (JStr date) (Dict.set "time" (JStr time) parsed)))) =
  match Dict.get "metadata" parsed with Some v => v | None => JDict [] end.
Proof.
  unfold Dict.setdefault at 1. rewrite dated_event_metadata.
  by destruct (Dict.get "metadata" parsed).
Qed.

Lemma has_key_truthy (k : string) (parsed : Dict.t) :
  Dict.has k parsed = true -> truthy (JDict parsed) = true.
Proof. by destruct parsed. Qed.

(** X19: noise is dropped without an error.  A line is discarded, and
    the mapper yields nothing and raises nothing whatever the input file
    and the batch table are, when the parsed line is empty or null, or is a
    dict without an [event_type], or is a dict for which no timestamp (or
    an empty one) can be derived. *)
Theorem mapper_discards_noise (now : string) (table : gmap string Z)
    (input_file : option string) (line : string) :
  truthy (parse_json_event line) = false \/
  (exists parsed,
     parse_json_event line = JDict parsed /\
     (Dict.has "event_type" parsed = false \/
      get_event_time_string (JDict parsed) = None \/
      get_event_time_string (JDict parsed) = Some EmptyString)) ->
  mapper' now table input_file line = Ok [].
Proof.
  unfold mapper, mapper_event.
  intros [Hfalsy | (parsed & Hparsed & Hcase)].
  - by rewrite Hfalsy.
  - rewrite Hparsed.
    destruct (truthy (JDict parsed)); [| done]. simpl.
    destruct (Dict.has "event_type" parsed) eqn:Hhas; simpl; [| done].
    destruct Hcase as [Hno | [Hnone | Hempty]]; [discriminate | |].
    + by rewrite Hnone.
    + by rewrite Hempty.
Qed.

(** X20: a well-formed event is emitted, once.  When the parsed line is a
    dict with an [event_type], a non-empty timestamp can be derived, the
    [metadata] of the event is absent or a dict, and the input file has a
    batch in the table, the mapper yields exactly one pair, keyed by the
    date portion of the timestamp and the batch of the file. *)
Theorem mapper_emits_one_record (now : string) (table : gmap string Z)
    (line time path : string) (parsed : Dict.t) (batch_id : Z) :
  parse_json_event line = JDict parsed ->
  Dict.has "event_type" parsed = true ->
  get_event_time_string (JDict parsed) = Some time ->
  time <> EmptyString ->
  (Dict.get "metadata" parsed = None \/
   exists given, Dict.get "metadata" parsed = Some (JDict given)) ->
  table !! path = Some batch_id ->
  exists event,
    mapper' now table (Some path) line =
    Ok [((date_portion time, batch_id), cjson_encode (JDict event))].
Proof.
  intros Hparsed Hhas Htime Hne Hmeta Htable.
  unfold mapper, mapper_event. rewrite Hparsed, (has_key_truthy _ _ Hhas). simpl.
  rewrite Hhas, Htime. simpl. rewrite (proj2 (String.eqb_neq _ _) Hne).
  rewrite index_split_head. simpl. fold (date_portion time).
  pose proof (setdefault_metadata_value time (date_portion time) parsed) as Hvalue.
  destruct (Dict.setdefault "metadata" (JDict []) _) as [mv ev2]. simpl in Hvalue.
  unfold get_batch_id. rewrite Htable.
  destruct Hmeta as [Hnone | [given Hsome]].
  - rewrite Hnone in Hvalue. subst mv. simpl. by eexists.
  - rewrite Hsome in Hvalue. subst mv. simpl. by eexists.
Qed.

(** X21: no record without a batch.  For an event that would otherwise be
    emitted, the mapper raises [KeyError], and yields nothing, when the
    [map_input_file] variable is not set or when the input file has no
    entry in the batch table. *)
Theorem mapper_needs_a_batch (now : string) (table : gmap string Z)
    (input_file : option string) (line time : string) (parsed : Dict.t) :
  parse_json_event line = JDict parsed ->
  Dict.has "event_type" parsed = true ->
  get_event_time_string (JDict parsed) = Some time ->
  time <> EmptyString ->
  (Dict.get "metadata" parsed = None \/
   exists given, Dict.get "metadata" parsed = Some (JDict given)) ->
  (input_file = None \/ exists path, input_file = Some path /\ table !! path = None) ->
  mapper' now table input_file line = Raise KeyError.
Proof.
  intros Hparsed Hhas Htime Hne Hmeta Hinput.
  unfold mapper, mapper_event. rewrite Hparsed, (has_key_truthy _ _ Hhas). simpl.
  rewrite Hhas, Htime. simpl. rewrite (proj2 (String.eqb_neq _ _) Hne).
  rewrite index_split_head. simpl. fold (date_portion time).
  pose proof (setdefault_metadata_value time (date_portion time) parsed) as Hvalue.
  destruct (Dict.setdefault "metadata" (JDict []) _) as [mv ev2]. simpl in Hvalue.
  unfold get_batch_id.
  assert (Hdict : exists given, mv = JDict given).
  { destruct Hmeta as [Hnone | [given Hsome]].
    - rewrite Hnone in Hvalue. by exists [].
    - rewrite Hsome in Hvalue. by exists given. }
  destruct Hdict as [given ->].
  destruct Hinput as [-> | (path & -> & Htable)]; simpl; rewrite ?Htable; done.
Qed.

(** X22: an event whose [metadata] is not a dict stops the mapper: for an
    event with an [event_type] and a timestamp, a [metadata] field that is
    a string, a number, a list, a boolean or null makes the mapper raise
    [AttributeError]. *)
Theorem mapper_rejects_foreign_metadata (now : string) (table : gmap string Z)
    (input_file : option string) (line time : string) (parsed : Dict.t) (value : json) :
  parse_json_event line = JDict parsed ->
  Dict.has "event_type" parsed = true ->
  get_event_time_string (JDict parsed) = Some time ->
  time <> EmptyString ->
  Dict.get "metadata" parsed = Some value ->
  (forall given, value <> JDict given) ->
  mapper' now table input_file line = Raise AttributeError.
Proof.
  intros Hparsed Hhas Htime Hne Hmeta Hforeign.
  unfold mapper, mapper_event. rewrite Hparsed, (has_key_truthy _ _ Hhas). simpl.
  rewrite Hhas, Htime. simpl. rewrite (proj2 (String.eqb_neq _ _) Hne).
  rewrite index_split_head. simpl. fold (date_portion time).
  pose proof (setdefault_metadata_value time (date_portion time) parsed) as Hvalue.
  destruct (Dict.setdefault "metadata" (JDict []) _) as [mv ev2]. simpl in Hvalue.
  rewrite Hmeta in Hvalue. subst mv.
  destruct value; try done. by destruct (Hforeign items).
Qed.

Lemma mapper_emitted (now : string) (table : gmap string Z) (input_file : option string)
    (line date out : string) (batch_id : Z) :
  mapper' now table input_file line = Ok [((date, batch_id), out)] ->
  exists event,
    mapper_event' now table input_file line = Ok (Some ((date, batch_id), event)) /\
    out = cjson_encode (JDict event).
Proof.
  unfold mapper. intros H.
  destruct (mapper_event' now table input_file line) as [[[[d b] event] |] | e];
    simpl in H; try discriminate.
  injection H as -> -> <-. by exists event.
Qed.

(** X23: the mapper keeps what the event holds.  In an emitted record,
    every field of the parsed event other than [time], [date], [metadata],
    [context] and [event] is as it was parsed, and [context] is the
    [context] of the event, or an empty dict when it has none. *)
Theorem mapper_keeps_event_fields (now : string) (table : gmap string Z)
    (input_file : option string) (line date out : string) (batch_id : Z) :
  mapper' now table input_file line = Ok [((date, batch_id), out)] ->
  exists parsed event,
    parse_json_event line = JDict parsed /\
    out = cjson_encode (JDict event) /\
    (forall k, k <> "time" -> k <> "date" -> k <> "metadata" -> k <> "context" ->
               k <> "event" -> Dict.get k event = Dict.get k parsed) /\
    Dict.get "context" event =
      Some (match Dict.get "context" parsed with Some c => c | None => JDict [] end).
Proof.
  intros H. apply mapper_emitted in H as (event & H & ->).
  apply mapper_event_record in H
    as (parsed & time & path & given & stamped & Hparsed & _ & _ & _ & _ & Hctx & _ & Hkeep & _).
  by exists parsed, event.
Qed.

(** X24: the stamp.  The [metadata] of an emitted record is the [metadata]
    of the event (an empty dict when it has none) in which [last_modified]
    is the time of the run, [original_file] the input file and [batch_id]
    its batch, whatever the event said; [version] and [id] are those of the
    event when it has them, and otherwise the version of the task and the
    hash of the line; every other entry is kept. *)
Theorem mapper_stamps_metadata (now : string) (table : gmap string Z)
    (input_file : option string) (line date out : string) (batch_id : Z) :
  mapper' now table input_file line = Ok [((date, batch_id), out)] ->
  exists parsed path given event stamped,
    parse_json_event line = JDict parsed /\
    input_file = Some path /\
    (Dict.get "metadata" parsed = None /\ given = [] \/
     Dict.get "metadata" parsed = Some (JDict given)) /\
    out = cjson_encode (JDict event) /\
    Dict.get "metadata" event = Some (JDict stamped) /\
    Dict.get "last_modified" stamped = Some (JStr now) /\
    Dict.get "original_file" stamped = Some (JStr path) /\
    Dict.get "batch_id" stamped = Some (JInt batch_id) /\
    Dict.get "version" stamped =
      Some (match Dict.get "version" given with Some v => v | None => JStr VERSION end) /\
    Dict.get "id" stamped =
      Some (match Dict.get "id" given with
            | Some v => v
            | None => JStr (compute_hash md5_hexdigest line)
            end) /\
    (forall k, k <> "version" -> k <> "last_modified" -> k <> "id" ->
               k <> "original_file" -> k <> "batch_id" ->
               Dict.get k stamped = Dict.get k given).
Proof.
  intros H. apply mapper_emitted in H as (event & H & ->).
  apply mapper_event_record in H
    as (parsed & time & path & given & stamped & Hparsed & _ & Hinput & Hgiven & Hmeta & _ & _
        & _ & Hlm & Hver & Hid & Hfile & Hbatch & Hkeep).
  exists parsed, path, given, event, stamped. by repeat split.
Qed.

(** X25: the payload.  When the [event] field of the parsed event is a
    non-empty string, the emitted record holds what [cjson.decode] makes of
    it, or an empty dict when [cjson.decode] raises; an [event] field that
    is not a string, or is the empty string, or is absent, is left as it
    is. *)
Theorem mapper_decodes_payload (now : string) (table : gmap string Z)
    (input_file : option string) (line date out : string) (batch_id : Z) :
  mapper' now table input_file line = Ok [((date, batch_id), out)] ->
  exists parsed event,
    parse_json_event line = JDict parsed /\
    out = cjson_encode (JDict event) /\
    Dict.get "event" event =
      match Dict.get "event" parsed with
      | Some (JStr content) =>
          if String.eqb content EmptyString then Some (JStr content)
          else Some (match cjson_decode content with
                     | Some decoded => decoded
                     | None => JDict []
                     end)
      | other => other
      end.
Proof.
  intros H. apply mapper_emitted in H as (event & H & ->).
  apply mapper_event_record in H
    as (parsed & time & path & given & stamped & Hparsed & _ & _ & _ & _ & _ & Hevent & _).
  by exists parsed, event.
Qed.

End MapperRecord.

(** ** The Snowflake schema *)

Module SnowflakeFacts.
Import Snowflake.

Lemma is_digit_value (c : ascii) : is_digit c = true <-> exists d, Py.digit_value c = Some d.
Proof.
  unfold is_digit. destruct (Py.digit_value c); split; try done.
  - by eexists.
  - by intros [d Hd].
Qed.

(** A run of digits in front of something that is not a digit is the first
    match. *)
Lemma findall_digits_run (run rest : string) :
  run <> EmptyString ->
  (forall c, c ∈ chars run -> is_digit c = true) ->
  (rest = EmptyString \/ exists c r, rest = String c r /\ is_digit c = false) ->
  findall_digits (run +:+ rest) = run :: findall_digits rest.
Proof.
  intros Hne Hdigits Hrest.
  induction run as [| c run IH]; [done |].
  assert (Hc : is_digit c = true) by (apply Hdigits; by left).
  assert (Htail : forall c', c' ∈ chars run -> is_digit c' = true)
    by (intros c' Hin; apply Hdigits; by right).
  rewrite append_cons. destruct run as [| c2 run'].
  - rewrite append_nil_l. simpl. rewrite Hc.
    destruct Hrest as [-> | (c' & r & -> & Hc')]; [done |]. by rewrite Hc'.
  - specialize (IH ltac:(done) Htail).
    assert (Hc2 : is_digit c2 = true) by (apply Htail; by left).
    change (findall_digits (String c (String c2 run' +:+ rest))) with
      (if is_digit c then
         match String c2 run' +:+ rest with
         | String c' _ =>
             if is_digit c' then
               match findall_digits (String c2 run' +:+ rest) with
               | r :: runs => String c r :: runs
               | [] => [String c EmptyString]
               end
             else String c EmptyString :: findall_digits (String c2 run' +:+ rest)
         | EmptyString => [String c EmptyString]
         end
       else findall_digits (String c2 run' +:+ rest)).
    rewrite Hc, IH, append_cons, Hc2. done.
Qed.

(** Every match is a non-empty run of digits. *)
Lemma findall_digits_elements (s run : string) :
  run ∈ findall_digits s ->
  run <> EmptyString /\ forall c, c ∈ chars run -> is_digit c = true.
Proof.
  revert run. induction s as [| c s IH]; intros run Hin; simpl in Hin.
  - by apply elem_of_nil in Hin.
  - destruct (is_digit c) eqn:Hc; [| by apply IH].
    assert (Hone : forall c', c' ∈ chars (String c EmptyString) -> is_digit c' = true).
    { intros c' Hc'. simpl in Hc'. apply list_elem_of_singleton in Hc'. by subst. }
    destruct s as [| c' s'].
    + apply list_elem_of_singleton in Hin as ->. by split.
    + destruct (is_digit c') eqn:Hc'.
      * destruct (findall_digits (String c' s')) as [| r runs] eqn:Hruns.
        -- apply list_elem_of_singleton in Hin as ->. by split.
        -- apply elem_of_cons in Hin as [-> | Hin].
           ++ destruct (IH r ltac:(by left)) as [_ Hr]. split; [done |].
              intros x Hx. simpl in Hx. apply elem_of_cons in Hx as [-> | Hx]; auto.
           ++ apply IH. by right.
      * apply elem_of_cons in Hin as [-> | Hin]; [by split | by apply IH].
Qed.

Lemma read_all_digits (s : string) (acc : Z) (n : nat) :
  (forall c, c ∈ chars s -> is_digit c = true) ->
  0 <= acc ->
  exists v, Py.read_digits s acc n = (v, (n + String.length s)%nat, EmptyString) /\ 0 <= v.
Proof.
  revert acc n. induction s as [| c s IH]; intros acc n Hdigits Hacc; simpl.
  - exists acc. split; [| done]. do 2 f_equal. lia.
  - assert (Hc : is_digit c = true) by (apply Hdigits; by left).
    apply is_digit_value in Hc as [d Hd]. rewrite Hd.
    assert (0 <= d).
    { unfold Py.digit_value in Hd. case_match; [| done]. injection Hd as <-. lia. }
    destruct (IH (10 * acc + d) (S n)) as (v & Hv & Hpos).
    + intros c' Hc'. apply Hdigits. by right.
    + lia.
    + exists v. split; [| done]. rewrite Hv. do 2 f_equal. lia.
Qed.

(** [int] accepts every non-empty run of digits. *)
Lemma int_digit_string (s : string) :
  s <> EmptyString ->
  (forall c, c ∈ chars s -> is_digit c = true) ->
  exists v, Py.int s = Ok v /\ 0 <= v.
Proof.
  intros Hne Hdigits. destruct s as [| c rest]; [done |].
  assert (Hc : is_digit c = true) by (apply Hdigits; by left).
  apply is_digit_value in Hc as [d Hd].
  pose proof (digit_not_space c d Hd) as Hspace.
  pose proof (digit_not_sign c d Hd) as [Hminus Hplus].
  destruct (read_all_digits (String c rest) 0 0 Hdigits ltac:(lia)) as (v & Hv & Hpos).
  exists v. split; [| done].
  unfold Py.int. simpl Py.skip_spaces. rewrite Hspace.
  assert (Hsign : (match c with
                   | "-"%char => (-1, rest)
                   | "+"%char => (1, rest)
                   | _ => (1, String c rest)
                   end) = (1, String c rest)).
  { destruct c as [[] [] [] [] [] [] [] []]; try reflexivity; congruence. }
  rewrite Hsign. cbn [Py.skip_spaces]. rewrite Hspace, Hv. simpl.
  f_equal. lia.
Qed.

(** The text of a number that is not negative is a non-empty run of
    digits. *)
Lemma str_digits (n : Z) :
  0 <= n -> Py.str n <> EmptyString /\ forall c, c ∈ chars (Py.str n) -> is_digit c = true.
Proof.
  intros Hn. unfold Py.str, pretty, pretty_Z. destruct n as [| p | p]; [| | lia].
  - split; [done |]. intros c Hc. simpl in Hc. by apply list_elem_of_singleton in Hc as ->.
  - unfold pretty, pretty_positive, pretty, pretty_N. rewrite decide_False by done. split.
    + destruct (pretty_N_go_head (N.pos p) EmptyString ltac:(lia)) as (c & r & d & -> & _).
      done.
    + intros c Hc. apply pretty_N_go_chars in Hc as [Hc | Hd].
      * by apply elem_of_nil in Hc.
      * by apply is_digit_value.
Qed.

End SnowflakeFacts.

(** The name that [snowflake_compliant_schema] gives to a column. *)
Lemma compliant_column_name (column_name field_type : string) (column : string * string) :
  Snowflake.compliant_column column_name field_type = Ok column ->
  fst column =
  if (String.eqb column_name "start" || Py.contains " " column_name)%bool
  then Snowflake.quoted column_name else column_name.
Proof.
  unfold Snowflake.compliant_column. intros H.
  match type of H with
  | rbind ?r _ = _ => destruct r as [ft |]; simpl in H; [| discriminate]
  end.
  by injection H as <-.
Qed.

(** The columns of the result, one for each column of the schema. *)
Lemma schema_columns {N : Type} (schema : list (string * string * N))
    (results : list (string * string)) :
  Snowflake.snowflake_compliant_schema schema = Ok results ->
  Forall2 (fun column result =>
             Snowflake.compliant_column (fst (fst column)) (snd (fst column)) = Ok result)
          schema results.
Proof.
  revert results. induction schema as [| [[name ft] n] schema IH]; intros results H.
  - injection H as <-. constructor.
  - simpl in H.
    destruct (Snowflake.compliant_column name ft) as [column |] eqn:Hcol; [| discriminate].
    simpl in H.
    destruct (Snowflake.snowflake_compliant_schema schema) as [rest |]; [| discriminate].
    simpl in H. injection H as <-. constructor; [done | by apply IH].
Qed.

(** X26: no column is lost, added or moved.  When
    [snowflake_compliant_schema] returns, its result has one pair for each
    column of the Vertica schema, in the same order, and the name of a
    column is changed in one way only: [start] and the names with a blank
    are put between double quotes. *)
Theorem schema_columns_preserved {N : Type} (schema : list (string * string * N))
    (results : list (string * string)) :
  Snowflake.snowflake_compliant_schema schema = Ok results ->
  length results = length schema /\
  fst <$> results =
  (fun column : string * string * N =>
     let name := fst (fst column) in
     if (String.eqb name "start" || Py.contains " " name)%bool
     then Snowflake.quoted name else name) <$> schema.
Proof.
  intros H. apply schema_columns in H. split.
  - symmetry. by eapply Forall2_length.
  - induction H as [| column result schema results Hcol _ IH]; [done |].
    rewrite !fmap_cons, IH. f_equal. by apply compliant_column_name in Hcol.
Qed.

(** X27: the precision of a numeric type is capped at 38.  When
    [snowflake_compliant_schema] returns, a column whose Vertica type
    contains [numeric(] (and does not start with [long ]) has a type whose
    first number is at most 38. *)
Theorem numeric_precision_capped {N : Type} (schema : list (string * string * N))
    (results : list (string * string)) (i : nat) (name field_type : string) (n : N) :
  Snowflake.snowflake_compliant_schema schema = Ok results ->
  schema !! i = Some (name, field_type, n) ->
  Py.startswith "long " field_type = false ->
  Py.contains "numeric(" field_type = true ->
  exists name' field_type' first others precision,
    results !! i = Some (name', field_type') /\
    Snowflake.findall_digits field_type' = first :: others /\
    Py.int first = Ok precision /\
    precision <= 38.
Proof.
  intros H Hi Hlong Hnumeric. apply schema_columns in H.
  destruct (Forall2_lookup_l _ _ _ _ _ H Hi) as ([name' ft'] & Hres & Hcol).
  exists name', ft'. simpl in Hcol. unfold Snowflake.compliant_column in Hcol.
  rewrite Hlong, Hnumeric in Hcol. unfold index in Hcol.
  destruct (Snowflake.findall_digits field_type) as [| first others] eqn:Hfind;
    [discriminate |].
  simpl in Hcol. destruct (Py.int first) as [precision |] eqn:Hint; [| discriminate].
  simpl in Hcol. destruct (Z.ltb_spec 38 precision) as [Hbig | Hsmall].
  - assert (Hhead : forall rest, exists others',
              Snowflake.findall_digits ("numeric(38" +:+ rest) = "38" :: others' \/
              exists c r, rest = String c r /\ Snowflake.is_digit c = true).
    { intros rest. destruct rest as [| c r].
      - exists []. by left.
      - destruct (Snowflake.is_digit c) eqn:Hc.
        + exists []. right. by exists c, r.
        + eexists. left. rewrite !append_cons, append_nil_l. simpl. rewrite Hc. done. }
    destruct others as [| scale [| third others']]; simpl in Hcol; injection Hcol as <- <-.
    + exists "38", [], 38. by repeat split.
    + destruct (Hhead ("," +:+ scale +:+ ")")) as (others' & [Hok | (c & r & Heq & Hc)]).
      * exists "38", others', 38. repeat split; try done.
      * rewrite append_cons, append_nil_l in Heq. injection Heq as <- _. discriminate.
    + exists "38", [], 38. by repeat split.
  - injection Hcol as <- <-.
    destruct (Nat.eqb (length (first :: others)) 2); exists first, others, precision;
      by repeat split.
Qed.

Lemma findall_digits_skip (skipped rest : string) :
  (forall c, c ∈ chars skipped -> Snowflake.is_digit c = false) ->
  Snowflake.findall_digits (skipped +:+ rest) = Snowflake.findall_digits rest.
Proof.
  induction skipped as [| c s IH]; intros Hnone; [done |].
  rewrite append_cons. simpl. rewrite (Hnone c) by (by left).
  apply IH. intros c' Hc'. apply Hnone. by right.
Qed.

Lemma findall_digits_none (s : string) :
  (forall c, c ∈ chars s -> Snowflake.is_digit c = false) ->
  Snowflake.findall_digits s = [].
Proof.
  intros Hnone. rewrite <- (append_nil_r s). by rewrite findall_digits_skip.
Qed.

Lemma digit_free_head (s rest : string) :
  (forall c, c ∈ chars s -> Snowflake.is_digit c = false) ->
  (rest = EmptyString \/ exists c r, rest = String c r /\ Snowflake.is_digit c = false) ->
  s +:+ rest = EmptyString \/
  exists c r, s +:+ rest = String c r /\ Snowflake.is_digit c = false.
Proof.
  intros Hnone Hrest. destruct s as [| c s]; [by rewrite append_nil_l |].
  right. exists c, (s +:+ rest). split; [done |]. apply Hnone. by left.
Qed.

Lemma numeric_prefix_digit_free (c : ascii) :
  c ∈ chars "numeric(" -> Snowflake.is_digit c = false.
Proof.
  simpl. intros H. repeat (apply elem_of_cons in H as [-> | H]; [reflexivity |]).
  by apply elem_of_nil in H.
Qed.

(** X28: how numeric types are rewritten.  For a type written
    [numeric(p<sep>s<end>)], with a precision [p], a scale [s] and any
    digit-free texts between them and after them, a precision above 38 is
    replaced by 38 and the scale is kept, the type becoming [numeric(38,s)];
    for a type written [numeric(p<end>)] a precision above 38 gives
    [numeric(38)]; a type with a precision of at most 38 is not changed. *)
Theorem numeric_type_rewritten (name sep tail : string) (precision scale : Z) :
  0 <= precision ->
  0 <= scale ->
  sep <> EmptyString ->
  (forall c, c ∈ chars sep -> Snowflake.is_digit c = false) ->
  (forall c, c ∈ chars tail -> Snowflake.is_digit c = false) ->
  let with_scale := "numeric(" +:+ Py.str precision +:+ sep +:+ Py.str scale +:+ tail in
  let without_scale := "numeric(" +:+ Py.str precision +:+ tail in
  exists name',
    Snowflake.compliant_column name with_scale =
      Ok (name', if Z.ltb 38 precision then "numeric(38," +:+ Py.str scale +:+ ")"
                 else with_scale) /\
    Snowflake.compliant_column name without_scale =
      Ok (name', if Z.ltb 38 precision then "numeric(38)" else without_scale).
Proof.
  intros Hp Hs Hsep Hsepfree Htailfree with_scale without_scale.
  destruct (SnowflakeFacts.str_digits precision Hp) as [Hpne Hpdigits].
  destruct (SnowflakeFacts.str_digits scale Hs) as [Hsne Hsdigits].
  assert (Htail : tail = EmptyString \/
                  exists c r, tail = String c r /\ Snowflake.is_digit c = false).
  { destruct tail as [| c r]; [by left |]. right. exists c, r. split; [done |].
    apply Htailfree. by left. }
  assert (Hfind2 : Snowflake.findall_digits with_scale = [Py.str precision; Py.str scale]).
  { subst with_scale.
    rewrite findall_digits_skip by apply numeric_prefix_digit_free.
    rewrite SnowflakeFacts.findall_digits_run; [| done | done |].
    - rewrite findall_digits_skip by done.
      rewrite SnowflakeFacts.findall_digits_run by done.
      by rewrite findall_digits_none.
    - destruct sep as [| c r]; [done |]. right. exists c, (r +:+ Py.str scale +:+ tail).
      split; [done |]. apply Hsepfree. by left. }
  assert (Hfind1 : Snowflake.findall_digits without_scale = [Py.str precision]).
  { subst without_scale.
    rewrite findall_digits_skip by apply numeric_prefix_digit_free.
    rewrite SnowflakeFacts.findall_digits_run by done.
    by rewrite findall_digits_none. }
  eexists. unfold Snowflake.compliant_column.
  assert (Hlong2 : Py.startswith "long " with_scale = false) by reflexivity.
  assert (Hlong1 : Py.startswith "long " without_scale = false) by reflexivity.
  assert (Hnum2 : Py.contains "numeric(" with_scale = true) by reflexivity.
  assert (Hnum1 : Py.contains "numeric(" without_scale = true) by reflexivity.
  rewrite Hlong2, Hlong1, Hnum2, Hnum1, Hfind2, Hfind1. simpl.
  rewrite int_str. simpl.
  destruct (Z.ltb 38 precision); split; reflexivity.
Qed.

(** When a column makes the loop raise. *)
Lemma compliant_column_raises (column_name field_type : string) :
  match Snowflake.compliant_column column_name field_type with
  | Ok _ =>
      ~ (Py.startswith "long " field_type = false /\
         Py.contains "numeric(" field_type = true /\
         Snowflake.findall_digits field_type = [])
  | Raise e =>
      e = IndexError /\
      Py.startswith "long " field_type = false /\
      Py.contains "numeric(" field_type = true /\
      Snowflake.findall_digits field_type = []
  end.
Proof.
  unfold Snowflake.compliant_column.
  destruct (Py.startswith "long " field_type) eqn:Hlong; simpl.
  { by intros (? & _). }
  destruct (Py.contains "numeric(" field_type) eqn:Hnumeric; simpl.
  2: { destruct (String.eqb field_type "uuid"); simpl; by intros (_ & ? & _). }
  unfold index.
  destruct (Snowflake.findall_digits field_type) as [| first others] eqn:Hfind; simpl.
  { done. }
  destruct (SnowflakeFacts.findall_digits_elements field_type first) as [Hne Hdigits].
  { rewrite Hfind. by left. }
  destruct (SnowflakeFacts.int_digit_string first Hne Hdigits) as (v & -> & _). simpl.
  destruct (Z.ltb 38 v).
  - destruct others as [| scale [| third others']]; simpl; by intros (_ & _ & ?).
  - simpl. by intros (_ & _ & ?).
Qed.

(** X29: the only way [snowflake_compliant_schema] fails.  It raises
    exactly when some column has a type that contains [numeric(] (and does
    not start with [long ]) but no digit; the exception is then
    [IndexError], and no schema is returned. *)
Theorem schema_raises_iff {N : Type} (schema : list (string * string * N)) :
  (forall e, Snowflake.snowflake_compliant_schema schema = Raise e -> e = IndexError) /\
  (raised (Snowflake.snowflake_compliant_schema schema) <->
   exists name field_type n,
     (name, field_type, n) ∈ schema /\
     Py.startswith "long " field_type = false /\
     Py.contains "numeric(" field_type = true /\
     Snowflake.findall_digits field_type = []).
Proof.
  induction schema as [| [[name ft] n] schema [IHe IH]].
  - split; [done |]. split; [done |]. intros (? & ? & ? & Hin & _).
    by apply elem_of_nil in Hin.
  - simpl. pose proof (compliant_column_raises name ft) as Hcol.
    destruct (Snowflake.compliant_column name ft) as [column | e]; simpl.
    + destruct (Snowflake.snowflake_compliant_schema schema) as [rest | e]; simpl in *.
      * split; [done |]. split; [done |].
        intros (name' & ft' & n' & Hin & Hcond).
        apply elem_of_cons in Hin as [[= -> -> ->] | Hin]; [by apply Hcol |].
        apply IH. by exists name', ft', n'.
      * split; [intros e' [= <-]; by apply IHe |]. split; [| done]. intros _.
        destruct (proj1 IH I) as (name' & ft' & n' & Hin & Hcond).
        exists name', ft', n'. split; [by right | done].
    + destruct Hcol as (-> & Hcond). split; [by intros e' [= <-] |].
      split; [| done]. intros _. exists name, ft, n. split; [by left | done].
Qed.

(** X30: the [long ] prefix.  A type that starts with [long ] loses that
    prefix and is not looked at further, provided that what follows the
    prefix does not itself start with one of the characters of the prefix
    (l, o, n, g or a blank): [str.lstrip] removes every leading character
    of that set. *)
Theorem long_prefix_removed (name rest : string) :
  (rest = EmptyString \/
   exists c r, rest = String c r /\ Snowflake.has_char c "long " = false) ->
  exists name', Snowflake.compliant_column name ("long " +:+ rest) = Ok (name', rest).
Proof.
  intros Hrest. eexists. unfold Snowflake.compliant_column.
  assert (Hlong : Py.startswith "long " ("long " +:+ rest) = true) by reflexivity.
  assert (Hprefix : Snowflake.lstrip "long " ("long " +:+ rest) = Snowflake.lstrip "long " rest)
    by reflexivity.
  assert (Hstop : Snowflake.lstrip "long " rest = rest).
  { destruct Hrest as [-> | (c & r & -> & Hc)]; [done |].
    change (Snowflake.lstrip "long " (String c r)) with
      (if Snowflake.has_char c "long " then Snowflake.lstrip "long " r else String c r).
    by rewrite Hc. }
  by rewrite Hlong, Hprefix, Hstop.
Qed.

(** ** The further properties at sample inputs *)

(** Closes [x ∈ l -> False] for an explicit list [l] without [x]. *)
Ltac not_in_list H :=
  repeat (apply elem_of_cons in H as [H | H]; [discriminate |]);
  by apply elem_of_nil in H.

(** Closes a goal on every character of an explicit string. *)
Ltac each_char H :=
  simpl in H;
  repeat (apply elem_of_cons in H as [-> | H]; [reflexivity |]);
  by apply elem_of_nil in H.

(** The paths of the sample ledger. *)
Ltac ledger_path H :=
  unfold Fixture.ledger, register_url in H; simpl in H;
  rewrite lookup_insert in H; case_decide;
  [| rewrite lookup_insert in H; case_decide; [| by rewrite lookup_empty in H]];
  subst.

Lemma from_file_loaded_invariant_witness :
  let loaded := register_url 5 ("a" +:+ Sample.NL) (register_url 3 ("a" +:+ Sample.NL) Metadata_init) in
  from_file Fixture.rewritten_text = Ok loaded /\
  0 <= max_batch_id loaded.
Proof.
  intros loaded.
  assert (H : from_file Fixture.rewritten_text = Ok loaded) by (vm_compute; reflexivity).
  split; [exact H |].
  exact (proj1 (from_file_loaded_invariant Fixture.rewritten_text loaded H)).
Defined.

Lemma from_file_last_line_wins_witness :
  let first := "3" +:+ Sample.TAB +:+ "a" +:+ Sample.NL in
  let last := "5" +:+ Sample.TAB +:+ "a" +:+ Sample.NL in
  let loaded := register_url 5 ("a" +:+ Sample.NL) (register_url 3 ("a" +:+ Sample.NL) Metadata_init) in
  Py.readlines Fixture.rewritten_text = [first] ++ last :: [] /\
  Py.split Py.tab last = ["5"; "a" +:+ Sample.NL] /\
  Py.int "5" = Ok 5 /\
  from_file Fixture.rewritten_text = Ok loaded /\
  url_to_batch_id loaded !! ("a" +:+ Sample.NL) = Some 5.
Proof.
  intros first last loaded.
  assert (H1 : Py.readlines Fixture.rewritten_text = [first] ++ last :: []) by reflexivity.
  assert (H2 : Py.split Py.tab last = ["5"; "a" +:+ Sample.NL]) by reflexivity.
  assert (H3 : Py.int "5" = Ok 5) by reflexivity.
  assert (H4 : forall later, later ∈ @nil string ->
                 Py.split Py.tab later !! 1%nat <> Some ("a" +:+ Sample.NL)).
  { intros later Hin. by apply elem_of_nil in Hin. }
  assert (H5 : from_file Fixture.rewritten_text = Ok loaded) by (vm_compute; reflexivity).
  split; [exact H1 |]. split; [exact H2 |]. split; [exact H3 |]. split; [exact H5 |].
  exact (from_file_last_line_wins Fixture.rewritten_text last [first] [] "5"
           ("a" +:+ Sample.NL) [] 5 loaded H1 H2 H3 H4 H5).
Defined.

Lemma from_file_to_file_witness :
  (forall url b,
     url_to_batch_id Fixture.ledger !! url = Some b ->
     (Py.tab ∉ chars url) /\ (Py.newline ∉ chars url)) /\
  exists loaded,
    from_file (to_file Fixture.ledger) = Ok loaded /\
    url_to_batch_id loaded !! ("/logs/a.log" +:+ NL) = Some 1 /\
    url_to_batch_id loaded !! "/logs/a.log" = None.
Proof.
  assert (Hclean : forall url b,
            url_to_batch_id Fixture.ledger !! url = Some b ->
            (Py.tab ∉ chars url) /\ (Py.newline ∉ chars url)).
  { intros url b H. ledger_path H; split; intros Hin; simpl in Hin; not_in_list Hin. }
  split; [exact Hclean |].
  destruct (from_file_to_file Fixture.ledger Hclean) as (loaded & Hload & Hsame & Hshape & _).
  exists loaded. split; [exact Hload |]. split; [exact (Hsame "/logs/a.log") |].
  destruct (url_to_batch_id loaded !! "/logs/a.log") as [b |] eqn:Hb; [| reflexivity].
  destruct (Hshape "/logs/a.log" (ex_intro _ b Hb)) as [u Hu].
  exfalso. apply (f_equal chars) in Hu. rewrite chars_append in Hu.
  assert (Hin : Py.newline ∈ chars "/logs/a.log").
  { rewrite Hu. apply elem_of_app. right. by left. }
  simpl in Hin. not_in_list Hin.
Defined.

Lemma to_file_one_line_per_entry_witness :
  (forall url b,
     url_to_batch_id Fixture.ledger !! url = Some b -> Py.newline ∉ chars url) /\
  length (Py.readlines (to_file Fixture.ledger)) = base.size (url_to_batch_id Fixture.ledger).
Proof.
  assert (Hclean : forall url b,
            url_to_batch_id Fixture.ledger !! url = Some b -> Py.newline ∉ chars url).
  { intros url b H. ledger_path H; intros Hin; simpl in Hin; not_in_list Hin. }
  split; [exact Hclean |].
  exact (proj1 (to_file_one_line_per_entry Fixture.ledger Hclean)).
Defined.

Lemma reloaded_ledger_forgets_paths_witness :
  (forall url b,
     url_to_batch_id Fixture.ledger !! url = Some b ->
     (Py.tab ∉ chars url) /\ (Py.newline ∉ chars url)) /\
  metadata_target Fixture.world_with_ledger = Stored (to_file Fixture.ledger) /\
  includes_url "/logs/a.log" Fixture.ledger = true /\
  includes_url "/logs/a.log" (load_metadata Fixture.world_with_ledger) = false.
Proof.
  assert (Hclean : forall url b,
            url_to_batch_id Fixture.ledger !! url = Some b ->
            (Py.tab ∉ chars url) /\ (Py.newline ∉ chars url)).
  { intros url b H. ledger_path H; split; intros Hin; simpl in Hin; not_in_list Hin. }
  split; [exact Hclean |]. split; [reflexivity |]. split; [reflexivity |].
  apply (proj1 (reloaded_ledger_forgets_paths Fixture.ledger Fixture.world_with_ledger
                  Hclean eq_refl)).
  intros Hin. simpl in Hin. not_in_list Hin.
Defined.

Lemma initialize_keeps_registered_witness :
  let w := Fixture.world_with_ledger in
  let self := Sample.task ["/logs"] 2 in
  let url := "/logs/a.log" +:+ NL in
  let self' := fst (initialize Sample.url_path_join Sample.get_s3_bucket_key_names w self) in
  includes_url url (load_metadata w) = true /\
  url_to_batch_id (metadata self') !! url = Some 1 /\
  2 <= max_batch_id (metadata self').
Proof.
  intros w self url self'.
  assert (H : includes_url url (load_metadata w) = true) by (vm_compute; reflexivity).
  split; [exact H |].
  destruct (initialize_keeps_registered Sample.url_path_join Sample.get_s3_bucket_key_names
              w self url H) as [Hsame Hmax].
  split; [exact Hsame | exact Hmax].
Defined.

Lemma initialize_registers_all_found_witness :
  let urls := ["/logs/b.log"; "/logs/a.log"; "/logs/c.log"] in
  let self := Sample.task ["/logs"] 2 in
  let planned :=
    initialize Sample.url_path_join Sample.get_s3_bucket_key_names Sample.world self in
  chain (List.map (url_gen Sample.url_path_join Sample.get_s3_bucket_key_names Sample.world)
                  (source self)) = Ok urls /\
  planned = (fst planned, None) /\
  (forall url, url ∈ urls -> includes_url url (metadata (fst planned)) = true) /\
  _get_requirements Sample.url_path_join Sample.get_s3_bucket_key_names
                    Sample.world (fst planned) = Ok [].
Proof.
  intros urls self planned.
  assert (H1 : chain (List.map (url_gen Sample.url_path_join Sample.get_s3_bucket_key_names
                                        Sample.world) (source self)) = Ok urls)
    by reflexivity.
  assert (H2 : planned = (fst planned, None)) by reflexivity.
  split; [exact H1 |]. split; [exact H2 |].
  exact (initialize_registers_all_found Sample.url_path_join Sample.get_s3_bucket_key_names
           Sample.world self (fst planned) urls H1 H2).
Defined.

Lemma batches_are_bounded_runs_witness :
  let urls := ["/logs/b.log"; "/logs/a.log"; "/logs/c.log"] in
  let self := Sample.task ["/logs"] 2 in
  let self' :=
    fst (initialize Sample.url_path_join Sample.get_s3_bucket_key_names Sample.world self) in
  chain (List.map (url_gen Sample.url_path_join Sample.get_s3_bucket_key_names Sample.world)
                  (source self)) = Ok urls /\
  NoDup urls /\
  1 <= files_per_batch self /\
  (1 <= 2)%nat /\
  requirements self' !! 1%nat = Some "/logs/b.log" /\
  requirements self' !! 2%nat = Some "/logs/c.log" /\
  exists bp bq,
    url_to_batch_id (metadata self') !! "/logs/b.log" = Some bp /\
    url_to_batch_id (metadata self') !! "/logs/c.log" = Some bq /\
    0 < bp /\
    bp <= bq /\
    (bp = bq -> 2 - 1 < 2).
Proof.
  intros urls self self'.
  assert (H1 : chain (List.map (url_gen Sample.url_path_join Sample.get_s3_bucket_key_names
                                        Sample.world) (source self)) = Ok urls)
    by reflexivity.
  assert (H2 : NoDup urls).
  { repeat (apply NoDup_cons; split; [intros H; not_in_list H |]). apply NoDup_nil_2. }
  assert (H3 : 1 <= files_per_batch self) by (simpl; lia).
  assert (H4 : (1 <= 2)%nat) by lia.
  assert (H5 : requirements self' !! 1%nat = Some "/logs/b.log") by reflexivity.
  assert (H6 : requirements self' !! 2%nat = Some "/logs/c.log") by reflexivity.
  split; [exact H1 |]. split; [exact H2 |]. split; [exact H3 |]. split; [exact H4 |].
  split; [exact H5 |]. split; [exact H6 |].
  exact (batches_are_bounded_runs Sample.url_path_join Sample.get_s3_bucket_key_names
           Sample.world self urls 1 2 "/logs/b.log" "/logs/c.log" H1 H2 H3 H4 H5 H6).
Defined.

Lemma high_water_mark_after_planning_witness :
  let urls := ["/logs/b.log"; "/logs/a.log"; "/logs/c.log"] in
  let self := Sample.task ["/logs"] 2 in
  let self' :=
    fst (initialize Sample.url_path_join Sample.get_s3_bucket_key_names Sample.world self) in
  chain (List.map (url_gen Sample.url_path_join Sample.get_s3_bucket_key_names Sample.world)
                  (source self)) = Ok urls /\
  1 <= files_per_batch self /\
  max_batch_id (metadata self') = 0 + 1 + (3 - 1) / 2.
Proof.
  intros urls self self'.
  assert (H1 : chain (List.map (url_gen Sample.url_path_join Sample.get_s3_bucket_key_names
                                        Sample.world) (source self)) = Ok urls)
    by reflexivity.
  assert (H2 : 1 <= files_per_batch self) by (simpl; lia).
  split; [exact H1 |]. split; [exact H2 |].
  exact (high_water_mark_after_planning Sample.url_path_join Sample.get_s3_bucket_key_names
           Sample.world self urls H1 H2).
Defined.

Lemma listing_failure_aborts_witness :
  let w := Fixture.world_hdfs_down in
  let self := Sample.task ["/logs"; "hdfs://namenode/logs"] 2 in
  "hdfs://namenode/logs" ∈ source self /\
  raised (url_gen Sample.url_path_join Sample.get_s3_bucket_key_names w
                  "hdfs://namenode/logs") /\
  exists e,
    initialize Sample.url_path_join Sample.get_s3_bucket_key_names w self =
    ({| source := source self; files_per_batch := 2; current_time := utcnow w;
        metadata := Metadata_init; requirements := [] |}, Some e).
Proof.
  intros w self.
  assert (H1 : "hdfs://namenode/logs" ∈ source self) by (simpl; repeat constructor).
  assert (H2 : raised (url_gen Sample.url_path_join Sample.get_s3_bucket_key_names w
                               "hdfs://namenode/logs")) by exact I.
  split; [exact H1 |]. split; [exact H2 |].
  exact (listing_failure_aborts Sample.url_path_join Sample.get_s3_bucket_key_names
           w self "hdfs://namenode/logs" H1 H2).
Defined.

Lemma complete_after_failed_requires_witness :
  let w := Fixture.world_hdfs_down in
  let self := Sample.task ["/logs"; "hdfs://namenode/logs"] 2 in
  let obj1 :=
    fst (requires Sample.url_path_join Sample.get_s3_bucket_key_names w (self, false)) in
  snd (requires Sample.url_path_join Sample.get_s3_bucket_key_names w (self, false))
    = Raise IOError /\
  complete Sample.url_path_join Sample.get_s3_bucket_key_names Sample.world obj1
    = (obj1, Ok true).
Proof.
  intros w self obj1.
  assert (H : snd (requires Sample.url_path_join Sample.get_s3_bucket_key_names w
                            (self, false)) = Raise IOError) by reflexivity.
  split; [exact H |].
  exact (proj2 (proj2 (complete_after_failed_requires Sample.url_path_join
                         Sample.get_s3_bucket_key_names w Sample.world self IOError H))).
Defined.

Lemma complete_iff_nothing_new_witness :
  let urls := ["/logs/b.log"; "/logs/a.log"; "/logs/c.log"] in
  let self := Sample.task ["/logs"] 2 in
  chain (List.map (url_gen Sample.url_path_join Sample.get_s3_bucket_key_names Sample.world)
                  (source self)) = Ok urls /\
  files_per_batch self <> 0 /\
  snd (complete Sample.url_path_join Sample.get_s3_bucket_key_names Sample.world
                (self, false)) = Ok false.
Proof.
  intros urls self.
  assert (H1 : chain (List.map (url_gen Sample.url_path_join Sample.get_s3_bucket_key_names
                                        Sample.world) (source self)) = Ok urls)
    by reflexivity.
  assert (H2 : files_per_batch self <> 0) by (simpl; lia).
  split; [exact H1 |]. split; [exact H2 |].
  exact (complete_iff_nothing_new Sample.url_path_join Sample.get_s3_bucket_key_names
           Sample.world self urls H1 H2).
Defined.

Lemma reducer_writes_one_line_per_value_witness :
  let values := [" a "; "bb" +:+ NL] in
  (forall value, value ∈ values -> Py.newline ∉ chars (strip value)) /\
  Py.readlines (written (reducer Fixture.url_path_join3 "root" ("2023-01-01", 3) values)) =
  ["a" +:+ NL; "bb" +:+ NL].
Proof.
  intros values.
  assert (H : forall value, value ∈ values -> Py.newline ∉ chars (strip value)).
  { apply Forall_forall. repeat constructor; vm_compute; intros Hin; not_in_list Hin. }
  split; [exact H |].
  exact (reducer_writes_one_line_per_value Fixture.url_path_join3 "root" ("2023-01-01", 3)
           values H).
Defined.

Lemma mapper_discards_noise_witness :
  truthy (Fixture.parse_json_event "not an event") = false /\
  mapper Fixture.parse_json_event Sample.get_event_time_string Fixture.cjson_decode
         Sample.cjson_encode Sample.md5_hexdigest
         "now" Fixture.table None "not an event" = Ok [].
Proof.
  assert (H : truthy (Fixture.parse_json_event "not an event") = false) by reflexivity.
  split; [exact H |].
  exact (mapper_discards_noise Fixture.parse_json_event Sample.get_event_time_string
           Fixture.cjson_decode Sample.cjson_encode Sample.md5_hexdigest
           "now" Fixture.table None "not an event" (or_introl H)).
Defined.

Lemma mapper_emits_one_record_witness :
  let parsed := [("event_type", JStr "play_video");
                 ("time", JStr "2023-01-01T10:00:00.000000")] in
  let time := "2023-01-01T10:00:00.000000" in
  Fixture.parse_json_event Sample.plain_line = JDict parsed /\
  Dict.has "event_type" parsed = true /\
  Sample.get_event_time_string (JDict parsed) = Some time /\
  time <> EmptyString /\
  Dict.get "metadata" parsed = None /\
  Fixture.table !! "/logs/a.log" = Some 1 /\
  exists event,
    mapper Fixture.parse_json_event Sample.get_event_time_string Fixture.cjson_decode
           Sample.cjson_encode Sample.md5_hexdigest
           "now" Fixture.table (Some "/logs/a.log") Sample.plain_line =
    Ok [(("2023-01-01", 1), Sample.cjson_encode (JDict event))].
Proof.
  intros parsed time.
  assert (H1 : Fixture.parse_json_event Sample.plain_line = JDict parsed) by reflexivity.
  assert (H2 : Dict.has "event_type" parsed = true) by reflexivity.
  assert (H3 : Sample.get_event_time_string (JDict parsed) = Some time) by reflexivity.
  assert (H4 : time <> EmptyString) by discriminate.
  assert (H5 : Dict.get "metadata" parsed = None) by reflexivity.
  assert (H6 : Fixture.table !! "/logs/a.log" = Some 1) by reflexivity.
  split; [exact H1 |]. split; [exact H2 |]. split; [exact H3 |]. split; [exact H4 |].
  split; [exact H5 |]. split; [exact H6 |].
  exact (mapper_emits_one_record Fixture.parse_json_event Sample.get_event_time_string
           Fixture.cjson_decode Sample.cjson_encode Sample.md5_hexdigest
           "now" Fixture.table Sample.plain_line time "/logs/a.log" parsed 1
           H1 H2 H3 H4 (or_introl H5) H6).
Defined.

Lemma mapper_needs_a_batch_witness :
  let parsed := [("event_type", JStr "play_video");
                 ("time", JStr "2023-01-01T10:00:00.000000")] in
  let time := "2023-01-01T10:00:00.000000" in
  Fixture.parse_json_event Sample.plain_line = JDict parsed /\
  Dict.has "event_type" parsed = true /\
  Sample.get_event_time_string (JDict parsed) = Some time /\
  time <> EmptyString /\
  Dict.get "metadata" parsed = None /\
  Fixture.table !! "/logs/z.log" = None /\
  mapper Fixture.parse_json_event Sample.get_event_time_string Fixture.cjson_decode
         Sample.cjson_encode Sample.md5_hexdigest
         "now" Fixture.table (Some "/logs/z.log") Sample.plain_line = Raise KeyError.
Proof.
  intros parsed time.
  assert (H1 : Fixture.parse_json_event Sample.plain_line = JDict parsed) by reflexivity.
  assert (H2 : Dict.has "event_type" parsed = true) by reflexivity.
  assert (H3 : Sample.get_event_time_string (JDict parsed) = Some time) by reflexivity.
  assert (H4 : time <> EmptyString) by discriminate.
  assert (H5 : Dict.get "metadata" parsed = None) by reflexivity.
  assert (H6 : Fixture.table !! "/logs/z.log" = None) by reflexivity.
  split; [exact H1 |]. split; [exact H2 |]. split; [exact H3 |]. split; [exact H4 |].
  split; [exact H5 |]. split; [exact H6 |].
  exact (mapper_needs_a_batch Fixture.parse_json_event Sample.get_event_time_string
           Fixture.cjson_decode Sample.cjson_encode Sample.md5_hexdigest
           "now" Fixture.table (Some "/logs/z.log") Sample.plain_line time parsed
           H1 H2 H3 H4 (or_introl H5)
           (or_intror (ex_intro _ "/logs/z.log" (conj eq_refl H6)))).
Defined.

Lemma mapper_rejects_foreign_metadata_witness :
  let parsed := [("event_type", JStr "play_video");
                 ("time", JStr "2023-01-01T10:00:00.000000");
                 ("metadata", JStr "none")] in
  let time := "2023-01-01T10:00:00.000000" in
  Fixture.parse_json_event Fixture.foreign_line = JDict parsed /\
  Dict.has "event_type" parsed = true /\
  Sample.get_event_time_string (JDict parsed) = Some time /\
  time <> EmptyString /\
  Dict.get "metadata" parsed = Some (JStr "none") /\
  (forall given, JStr "none" <> JDict given) /\
  mapper Fixture.parse_json_event Sample.get_event_time_string Fixture.cjson_decode
         Sample.cjson_encode Sample.md5_hexdigest
         "now" Fixture.table (Some "/logs/a.log") Fixture.foreign_line
    = Raise AttributeError.
Proof.
  intros parsed time.
  assert (H1 : Fixture.parse_json_event Fixture.foreign_line = JDict parsed) by reflexivity.
  assert (H2 : Dict.has "event_type" parsed = true) by reflexivity.
  assert (H3 : Sample.get_event_time_string (JDict parsed) = Some time) by reflexivity.
  assert (H4 : time <> EmptyString) by discriminate.
  assert (H5 : Dict.get "metadata" parsed = Some (JStr "none")) by reflexivity.
  assert (H6 : forall given, JStr "none" <> JDict given) by discriminate.
  split; [exact H1 |]. split; [exact H2 |]. split; [exact H3 |]. split; [exact H4 |].
  split; [exact H5 |]. split; [exact H6 |].
  exact (mapper_rejects_foreign_metadata Fixture.parse_json_event
           Sample.get_event_time_string Fixture.cjson_decode Sample.cjson_encode
           Sample.md5_hexdigest "now" Fixture.table (Some "/logs/a.log")
           Fixture.foreign_line time parsed (JStr "none") H1 H2 H3 H4 H5 H6).
Defined.

Lemma mapper_keeps_event_fields_witness :
  mapper Fixture.parse_json_event Sample.get_event_time_string Fixture.cjson_decode
         Sample.cjson_encode Sample.md5_hexdigest
         "now" Fixture.table (Some "/logs/a.log") Fixture.stamped_line
    = Ok [(("2023-01-01", 1), "<event>")] /\
  exists parsed event,
    Fixture.parse_json_event Fixture.stamped_line = JDict parsed /\
    "<event>" = Sample.cjson_encode (JDict event) /\
    Dict.get "username" event = Dict.get "username" parsed /\
    Dict.get "context" event =
      Some (match Dict.get "context" parsed with Some c => c | None => JDict [] end).
Proof.
  assert (H : mapper Fixture.parse_json_event Sample.get_event_time_string
                Fixture.cjson_decode Sample.cjson_encode Sample.md5_hexdigest
                "now" Fixture.table (Some "/logs/a.log") Fixture.stamped_line
              = Ok [(("2023-01-01", 1), "<event>")]) by reflexivity.
  split; [exact H |].
  destruct (mapper_keeps_event_fields Fixture.parse_json_event Sample.get_event_time_string
              Fixture.cjson_decode Sample.cjson_encode Sample.md5_hexdigest
              "now" Fixture.table (Some "/logs/a.log") Fixture.stamped_line
              "2023-01-01" "<event>" 1 H)
    as (parsed & event & Hparsed & Hout & Hkeep & Hctx).
  exists parsed, event. split; [exact Hparsed |]. split; [exact Hout |].
  split; [| exact Hctx].
  apply Hkeep; discriminate.
Defined.

Lemma mapper_stamps_metadata_witness :
  mapper Fixture.parse_json_event Sample.get_event_time_string Fixture.cjson_decode
         Sample.cjson_encode Sample.md5_hexdigest
         "now" Fixture.table (Some "/logs/a.log") Fixture.stamped_line
    = Ok [(("2023-01-01", 1), "<event>")] /\
  exists event stamped,
    "<event>" = Sample.cjson_encode (JDict event) /\
    Dict.get "metadata" event = Some (JDict stamped) /\
    Dict.get "last_modified" stamped = Some (JStr "now") /\
    Dict.get "batch_id" stamped = Some (JInt 1).
Proof.
  assert (H : mapper Fixture.parse_json_event Sample.get_event_time_string
                Fixture.cjson_decode Sample.cjson_encode Sample.md5_hexdigest
                "now" Fixture.table (Some "/logs/a.log") Fixture.stamped_line
              = Ok [(("2023-01-01", 1), "<event>")]) by reflexivity.
  split; [exact H |].
  destruct (mapper_stamps_metadata Fixture.parse_json_event Sample.get_event_time_string
              Fixture.cjson_decode Sample.cjson_encode Sample.md5_hexdigest
              "now" Fixture.table (Some "/logs/a.log") Fixture.stamped_line
              "2023-01-01" "<event>" 1 H)
    as (parsed & path & given & event & stamped & _ & _ & _ & Hout & Hmeta & Hlm & _ & Hb & _).
  exists event, stamped. by repeat split.
Defined.

Lemma mapper_decodes_payload_witness :
  mapper Fixture.parse_json_event Sample.get_event_time_string Fixture.cjson_decode
         Sample.cjson_encode Sample.md5_hexdigest
         "now" Fixture.table (Some "/logs/a.log") Fixture.stamped_line
    = Ok [(("2023-01-01", 1), "<event>")] /\
  exists parsed event,
    Fixture.parse_json_event Fixture.stamped_line = JDict parsed /\
    "<event>" = Sample.cjson_encode (JDict event) /\
    Dict.get "event" event =
      match Dict.get "event" parsed with
      | Some (JStr content) =>
          if String.eqb content EmptyString then Some (JStr content)
          else Some (match Fixture.cjson_decode content with
                     | Some decoded => decoded
                     | None => JDict []
                     end)
      | other => other
      end.
Proof.
  assert (H : mapper Fixture.parse_json_event Sample.get_event_time_string
                Fixture.cjson_decode Sample.cjson_encode Sample.md5_hexdigest
                "now" Fixture.table (Some "/logs/a.log") Fixture.stamped_line
              = Ok [(("2023-01-01", 1), "<event>")]) by reflexivity.
  split; [exact H |].
  exact (mapper_decodes_payload Fixture.parse_json_event Sample.get_event_time_string
           Fixture.cjson_decode Sample.cjson_encode Sample.md5_hexdigest
           "now" Fixture.table (Some "/logs/a.log") Fixture.stamped_line
           "2023-01-01" "<event>" 1 H).
Defined.

Lemma schema_columns_preserved_witness :
  let results := [(Snowflake.quoted "start", "numeric(38,4)");
                  (Snowflake.quoted "my col", "varchar(10)");
                  ("id", "varchar(36)")] in
  Snowflake.snowflake_compliant_schema Fixture.vertica_table_schema = Ok results /\
  length results = length Fixture.vertica_table_schema /\
  fst <$> results = [Snowflake.quoted "start"; Snowflake.quoted "my col"; "id"].
Proof.
  intros results.
  assert (H : Snowflake.snowflake_compliant_schema Fixture.vertica_table_schema = Ok results)
    by reflexivity.
  split; [exact H |].
  exact (schema_columns_preserved Fixture.vertica_table_schema results H).
Defined.

Lemma numeric_precision_capped_witness :
  let results := [(Snowflake.quoted "start", "numeric(38,4)");
                  (Snowflake.quoted "my col", "varchar(10)");
                  ("id", "varchar(36)")] in
  Snowflake.snowflake_compliant_schema Fixture.vertica_table_schema = Ok results /\
  Fixture.vertica_table_schema !! 0%nat = Some ("start", "numeric(58, 4)", true) /\
  Py.startswith "long " "numeric(58, 4)" = false /\
  Py.contains "numeric(" "numeric(58, 4)" = true /\
  exists name' field_type' first others precision,
    results !! 0%nat = Some (name', field_type') /\
    Snowflake.findall_digits field_type' = first :: others /\
    Py.int first = Ok precision /\
    precision <= 38.
Proof.
  intros results.
  assert (H1 : Snowflake.snowflake_compliant_schema Fixture.vertica_table_schema = Ok results)
    by reflexivity.
  assert (H2 : Fixture.vertica_table_schema !! 0%nat = Some ("start", "numeric(58, 4)", true))
    by reflexivity.
  assert (H3 : Py.startswith "long " "numeric(58, 4)" = false) by reflexivity.
  assert (H4 : Py.contains "numeric(" "numeric(58, 4)" = true) by reflexivity.
  split; [exact H1 |]. split; [exact H2 |]. split; [exact H3 |]. split; [exact H4 |].
  exact (numeric_precision_capped Fixture.vertica_table_schema results 0 "start"
           "numeric(58, 4)" true H1 H2 H3 H4).
Defined.

Lemma numeric_type_rewritten_witness :
  0 <= 58 /\
  0 <= 4 /\
  ", " <> EmptyString /\
  (forall c, c ∈ chars ", " -> Snowflake.is_digit c = false) /\
  (forall c, c ∈ chars ")" -> Snowflake.is_digit c = false) /\
  exists name',
    Snowflake.compliant_column "amount" "numeric(58, 4)" = Ok (name', "numeric(38,4)") /\
    Snowflake.compliant_column "amount" "numeric(58)" = Ok (name', "numeric(38)").
Proof.
  assert (H1 : 0 <= 58) by lia.
  assert (H2 : 0 <= 4) by lia.
  assert (H3 : ", " <> EmptyString) by discriminate.
  assert (H4 : forall c, c ∈ chars ", " -> Snowflake.is_digit c = false)
    by (intros c H; each_char H).
  assert (H5 : forall c, c ∈ chars ")" -> Snowflake.is_digit c = false)
    by (intros c H; each_char H).
  split; [exact H1 |]. split; [exact H2 |]. split; [exact H3 |]. split; [exact H4 |].
  split; [exact H5 |].
  exact (numeric_type_rewritten "amount" ", " ")" 58 4 H1 H2 H3 H4 H5).
Defined.

Lemma long_prefix_removed_witness :
  Snowflake.has_char "v" "long " = false /\
  exists name', Snowflake.compliant_column "notes" "long varchar(10)" = Ok (name', "varchar(10)").
Proof.
  assert (H : Snowflake.has_char "v" "long " = false) by reflexivity.
  split; [exact H |].
  exact (long_prefix_removed "notes" "varchar(10)"
           (or_intror (ex_intro _ "v"%char (ex_intro _ "archar(10)" (conj eq_refl H))))).
Defined.

(** ** The object-storage listing *)

(** X12: the S3 listing yields the keys that are not empty, and only
    them.  When the bucket can be listed, [_get_s3_urls] does not raise; it
    yields one url for each key of a size above 0, in the order of the
    listing, and none for a key of size 0: the url joins the source with
    the name of the key without the root and without leading slashes. *)
Theorem s3_urls_are_the_nonempty_keys (url_path_join : string -> string -> string)
    (get_s3_bucket_key_names : string -> string * string)
    (w : World) (source : string) (keys : list S3Key) :
  let bucket_name := fst (get_s3_bucket_key_names source) in
  let root := snd (get_s3_bucket_key_names source) in
  let url_of := fun key_metadata : S3Key =>
    url_path_join source
      (Py.lstrip_char "/" (Py.drop_chars (String.length root) (key key_metadata))) in
  s3_list w bucket_name root = Ok keys ->
  _get_s3_urls url_path_join get_s3_bucket_key_names w source =
  Ok (url_of <$> List.filter (fun key_metadata => Z.ltb 0 (size key_metadata)) keys).
Proof.
  intros bucket_name root url_of Hlist. unfold _get_s3_urls.
  subst bucket_name root url_of.
  destruct (get_s3_bucket_key_names source) as [bucket_name root]. simpl in *.
  rewrite Hlist. simpl. f_equal. clear Hlist.
  induction keys as [| key_metadata keys IH]; [done |].
  simpl. destruct (Z.ltb 0 (size key_metadata)); simpl; [f_equal |]; apply IH.
Qed.

Lemma s3_urls_are_the_nonempty_keys_witness :
  let keys := [{| key := "logs/"; size := 0 |}; {| key := "logs/a.log"; size := 10 |}] in
  s3_list Fixture.world_s3 "bucket" "logs" = Ok keys /\
  _get_s3_urls Sample.url_path_join Fixture.get_s3_bucket_key_names Fixture.world_s3
               "s3://bucket/logs" = Ok ["s3://bucket/logs/a.log"].
Proof.
  intros keys.
  assert (H : s3_list Fixture.world_s3 "bucket" "logs" = Ok keys) by reflexivity.
  split; [exact H |].
  exact (s3_urls_are_the_nonempty_keys Sample.url_path_join Fixture.get_s3_bucket_key_names
           Fixture.world_s3 "s3://bucket/logs" keys H).
Defined.
